(** * gs_usb: a shallow embedding of the host-side driver

    The development follows the Python package file by file:
    - [Struct]        the part of Python's [struct] module the package uses
                      (formats made of [I] and [B] items, little-endian);
    - [Constants]     [gs_usb/constants.py];
    - [GsUsbFrame]    [gs_usb/gs_usb_frame.py];
    - [DeviceMode], [DeviceBitTiming], [DeviceInfo], [DeviceCapability],
      [DeviceState]   the classes of [gs_usb/gs_usb_structures.py];
    - [GsUsb]         [gs_usb/gs_usb.py], over an abstract USB device.

    Python integers are [Z]; [&] and [|] are [Z.land] and [Z.lor] (both are
    two's complement on unbounded integers).  A [bytes] object is a
    [list byte].  A raised exception is a value of [exn]. *)

From Stdlib Require Import ZArith String Ascii List Bool Lia QArith.
From coqutil Require Import Byte Word.LittleEndianList.
Import ListNotations.
Local Open Scope Z_scope.

(** ** Exceptions and results *)

Inductive exn : Type :=
| StructError                 (* struct.error *)
| IndexError                  (* list index out of range *)
| USBError                    (* usb.core.USBError *)
| ValueError (msg : string).  (* ValueError(msg) *)

Inductive result (A : Type) : Type :=
| Ok (a : A)
| Raise (e : exn).
Arguments Ok {A} a.
Arguments Raise {A} e.

Definition rbind {A B : Type} (r : result A) (k : A -> result B) : result B :=
  match r with
  | Ok a => k a
  | Raise e => Raise e
  end.

(** Python's [xs[i]] on a list: negative indices count from the end. *)
Definition py_index (xs : list Z) (i : Z) : result Z :=
  let n := Z.of_nat (length xs) in
  if (0 <=? i) && (i <? n) then Ok (nth (Z.to_nat i) xs 0)
  else if (- n <=? i) && (i <? 0) then Ok (nth (Z.to_nat (n + i)) xs 0)
  else Raise IndexError.

(** ** struct.pack / struct.unpack *)

Module Struct.

(** Format codes used by the package: [I] (unsigned 32 bit) and [B]
    (unsigned 8 bit).  With the [<] prefix the sizes are standard and no
    padding is inserted. *)
Inductive code : Type := I | B.

Definition code_size (c : code) : nat :=
  match c with
  | I => 4
  | B => 1
  end.

Definition digit_of (c : ascii) : option nat :=
  let n := nat_of_ascii c in
  if (48 <=? n)%nat && (n <=? 57)%nat then Some (n - 48)%nat else None.

Definition code_of (c : ascii) : option code :=
  match c with
  | "I"%char => Some I
  | "B"%char => Some B
  | _ => None
  end.

(** Items of a format string: an optional decimal repeat count in front of
    each code. *)
Fixpoint parse_items (s : string) (count : option nat) : option (list code) :=
  match s with
  | EmptyString =>
      match count with
      | None => Some []
      | Some _ => None
      end
  | String c rest =>
      match digit_of c with
      | Some d =>
          parse_items rest
            (Some (10 * match count with Some n => n | None => 0 end + d)%nat)
      | None =>
          match code_of c with
          | Some k =>
              option_map
                (app (repeat k match count with Some n => n | None => 1%nat end))
                (parse_items rest None)
          | None => None
          end
      end
  end.

Definition parse_format (fmt : string) : option (list code) :=
  match fmt with
  | String "<"%char rest => parse_items rest None
  | _ => None
  end.

Definition calcsize (cs : list code) : nat :=
  fold_right (fun c n => (code_size c + n)%nat) 0%nat cs.

(** A value fits its code when it is in the code's unsigned range; [pack]
    raises [struct.error] otherwise. *)
Definition fits (c : code) (v : Z) : bool :=
  (0 <=? v) && (v <? 2 ^ (8 * Z.of_nat (code_size c))).

Fixpoint pack_items (cs : list code) (vs : list Z) : result (list byte) :=
  match cs, vs with
  | [], [] => Ok []
  | c :: cs', v :: vs' =>
      if fits c v
      then rbind (pack_items cs' vs')
             (fun bs => Ok (le_split (code_size c) v ++ bs))
      else Raise StructError
  | _, _ => Raise StructError
  end.

Fixpoint unpack_items (cs : list code) (bs : list byte) : list Z :=
  match cs with
  | [] => []
  | c :: cs' =>
      le_combine (firstn (code_size c) bs)
        :: unpack_items cs' (skipn (code_size c) bs)
  end.

(** [struct.pack] of the values [vs] under the format [fmt] *)
Definition pack (fmt : string) (vs : list Z) : result (list byte) :=
  match parse_format fmt with
  | Some cs => pack_items cs vs
  | None => Raise StructError
  end.

(** [struct.unpack(fmt, bs)]: the buffer must have exactly the size of the
    format. *)
Definition unpack (fmt : string) (bs : list byte) : result (list Z) :=
  match parse_format fmt with
  | Some cs =>
      if (length bs =? calcsize cs)%nat then Ok (unpack_items cs bs)
      else Raise StructError
  | None => Raise StructError
  end.

End Struct.

(** ** constants.py *)

Module Constants.

Definition GS_CAN_MODE_NORMAL : Z := 0.
Definition GS_CAN_MODE_LISTEN_ONLY : Z := Z.shiftl 1 0.
Definition GS_CAN_MODE_LOOP_BACK : Z := Z.shiftl 1 1.
Definition GS_CAN_MODE_TRIPLE_SAMPLE : Z := Z.shiftl 1 2.
Definition GS_CAN_MODE_ONE_SHOT : Z := Z.shiftl 1 3.
Definition GS_CAN_MODE_HW_TIMESTAMP : Z := Z.shiftl 1 4.
Definition GS_CAN_MODE_IDENTIFY : Z := Z.shiftl 1 5.
Definition GS_CAN_MODE_USER_ID : Z := Z.shiftl 1 6.
Definition GS_CAN_MODE_PAD_PKTS_TO_MAX_PKT_SIZE : Z := Z.shiftl 1 7.
Definition GS_CAN_MODE_FD : Z := Z.shiftl 1 8.
Definition GS_CAN_MODE_BERR_REPORTING : Z := Z.shiftl 1 12.

Definition GS_CAN_FEATURE_LISTEN_ONLY : Z := Z.shiftl 1 0.
Definition GS_CAN_FEATURE_LOOP_BACK : Z := Z.shiftl 1 1.
Definition GS_CAN_FEATURE_TRIPLE_SAMPLE : Z := Z.shiftl 1 2.
Definition GS_CAN_FEATURE_ONE_SHOT : Z := Z.shiftl 1 3.
Definition GS_CAN_FEATURE_HW_TIMESTAMP : Z := Z.shiftl 1 4.
Definition GS_CAN_FEATURE_IDENTIFY : Z := Z.shiftl 1 5.
Definition GS_CAN_FEATURE_USER_ID : Z := Z.shiftl 1 6.
Definition GS_CAN_FEATURE_PAD_PKTS_TO_MAX_PKT_SIZE : Z := Z.shiftl 1 7.
Definition GS_CAN_FEATURE_FD : Z := Z.shiftl 1 8.
Definition GS_CAN_FEATURE_REQ_USB_QUIRK_LPC546XX : Z := Z.shiftl 1 9.
Definition GS_CAN_FEATURE_BT_CONST_EXT : Z := Z.shiftl 1 10.
Definition GS_CAN_FEATURE_TERMINATION : Z := Z.shiftl 1 11.
Definition GS_CAN_FEATURE_BERR_REPORTING : Z := Z.shiftl 1 12.
Definition GS_CAN_FEATURE_GET_STATE : Z := Z.shiftl 1 13.

Definition CAN_EFF_FLAG : Z := 0x80000000.
Definition CAN_RTR_FLAG : Z := 0x40000000.
Definition CAN_ERR_FLAG : Z := 0x20000000.

Definition CAN_SFF_MASK : Z := 0x000007FF.
Definition CAN_EFF_MASK : Z := 0x1FFFFFFF.
Definition CAN_ERR_MASK : Z := 0x1FFFFFFF.

Definition CAN_MAX_DLC : Z := 8.
Definition CAN_MAX_DLEN : Z := 8.
Definition CANFD_MAX_DLC : Z := 15.
Definition CANFD_MAX_DLEN : Z := 64.

Definition GS_CAN_FLAG_OVERFLOW : Z := Z.shiftl 1 0.
Definition GS_CAN_FLAG_FD : Z := Z.shiftl 1 1.
Definition GS_CAN_FLAG_BRS : Z := Z.shiftl 1 2.
Definition GS_CAN_FLAG_ESI : Z := Z.shiftl 1 3.

Definition CANFD_DLC_TO_LEN : list Z :=
  [0; 1; 2; 3; 4; 5; 6; 7; 8; 12; 16; 20; 24; 32; 48; 64].

End Constants.


(** ** gs_usb_frame.py *)

Definition GS_USB_ECHO_ID : Z := 0.
Definition GS_USB_NONE_ECHO_ID : Z := 0xFFFFFFFF.

Definition GS_USB_FRAME_SIZE : Z := 20.
Definition GS_USB_FRAME_SIZE_HW_TIMESTAMP : Z := 24.
Definition GS_USB_FRAME_SIZE_FD : Z := 76.
Definition GS_USB_FRAME_SIZE_FD_HW_TIMESTAMP : Z := 80.

(** [dlc_to_len(dlc, fd)].  The table is indexed the Python way, so a
    negative [dlc] reads from the end and one below [-16] raises. *)
Definition dlc_to_len (dlc : Z) (fd : bool) : result Z :=
  if fd then
    if dlc <? Z.of_nat (length Constants.CANFD_DLC_TO_LEN)
    then py_index Constants.CANFD_DLC_TO_LEN dlc
    else Ok Constants.CANFD_MAX_DLEN
  else Ok (Z.min dlc 8).

(** The loop [for dlc, dlen in enumerate(table): if dlen >= length: return dlc]
    run from index [dlc] on the rest [table] of the table; [None] when the
    loop falls through. *)
Fixpoint len_to_dlc_loop (length : Z) (dlc : Z) (table : list Z) : option Z :=
  match table with
  | [] => None
  | dlen :: rest =>
      if dlen >=? length then Some dlc
      else len_to_dlc_loop length (dlc + 1) rest
  end.

(** [len_to_dlc(length, fd)] *)
Definition len_to_dlc (length : Z) (fd : bool) : Z :=
  if fd then
    match len_to_dlc_loop length 0 Constants.CANFD_DLC_TO_LEN with
    | Some dlc => dlc
    | None => 15
    end
  else Z.min length 8.

Module GsUsbFrame.

(** The attributes of a [GsUsbFrame] object.  [data] is a Python list of
    integers. *)
Record t : Type := mk {
  echo_id : Z;
  can_id : Z;
  can_dlc : Z;
  channel : Z;
  flags : Z;
  reserved : Z;
  data : list Z;
  timestamp_us : Z
}.

(** [GsUsbFrame(can_id, data, fd, brs)], with [data] already a list. *)
Definition init (can_id : Z) (data : list Z) (fd brs : bool) : t :=
  let flags0 := 0 in
  let flags1 := if fd then Z.lor flags0 Constants.GS_CAN_FLAG_FD else flags0 in
  let max_len := if fd then Constants.CANFD_MAX_DLEN else 8 in
  let flags2 := if brs && fd then Z.lor flags1 Constants.GS_CAN_FLAG_BRS else flags1 in
  let data_len := Z.min (Z.of_nat (length data)) max_len in
  {| echo_id := GS_USB_ECHO_ID;
     can_id := can_id;
     can_dlc := len_to_dlc (Z.of_nat (length data)) fd;
     channel := 0;
     flags := flags2;
     reserved := 0;
     data := firstn (Z.to_nat data_len) data
               ++ repeat 0 (Z.to_nat (max_len - data_len));
     timestamp_us := 0 |}.

(** [GsUsbFrame()] *)
Definition empty : t := init 0 [] false false.

Definition arbitration_id (f : t) : Z := Z.land (can_id f) Constants.CAN_EFF_MASK.

Definition is_extended_id (f : t) : bool :=
  negb (Z.land (can_id f) Constants.CAN_EFF_FLAG =? 0).

Definition is_remote_frame (f : t) : bool :=
  negb (Z.land (can_id f) Constants.CAN_RTR_FLAG =? 0).

Definition is_error_frame (f : t) : bool :=
  negb (Z.land (can_id f) Constants.CAN_ERR_FLAG =? 0).

Definition is_fd (f : t) : bool :=
  negb (Z.land (flags f) Constants.GS_CAN_FLAG_FD =? 0).

Definition is_brs (f : t) : bool :=
  negb (Z.land (flags f) Constants.GS_CAN_FLAG_BRS =? 0).

Definition data_length (f : t) : result Z := dlc_to_len (can_dlc f) (is_fd f).

(** [frame.__sizeof__(hw_timestamp, fd_mode)] *)
Definition sizeof (hw_timestamp fd_mode : bool) : Z :=
  if fd_mode then
    if hw_timestamp then GS_USB_FRAME_SIZE_FD_HW_TIMESTAMP
    else GS_USB_FRAME_SIZE_FD
  else
    if hw_timestamp then GS_USB_FRAME_SIZE_HW_TIMESTAMP
    else GS_USB_FRAME_SIZE.

(** The six header values every layout starts with. *)
Definition header (f : t) : list Z :=
  [echo_id f; can_id f; can_dlc f; channel f; flags f; reserved f].

(** [frame.pack(hw_timestamp, fd_mode)] *)
Definition pack (f : t) (hw_timestamp fd_mode : bool) : result (list byte) :=
  if fd_mode then
    if hw_timestamp then
      Struct.pack "<2I4B64BI"
        (header f ++ firstn 64 (data f) ++ [Z.land (timestamp_us f) 0xFFFFFFFF])
    else
      Struct.pack "<2I4B64B" (header f ++ firstn 64 (data f))
  else
    if hw_timestamp then
      Struct.pack "<2I4B8BI"
        (header f ++ firstn 8 (data f) ++ [Z.land (timestamp_us f) 0xFFFFFFFF])
    else
      Struct.pack "<2I4B8B" (header f ++ firstn 8 (data f)).

(** The assignment of [unpacked[:6]] to the six header attributes. *)
Definition set_header (f : t) (unpacked : list Z) : t :=
  {| echo_id := nth 0 unpacked 0;
     can_id := nth 1 unpacked 0;
     can_dlc := nth 2 unpacked 0;
     channel := nth 3 unpacked 0;
     flags := nth 4 unpacked 0;
     reserved := nth 5 unpacked 0;
     data := data f;
     timestamp_us := timestamp_us f |}.

Definition set_data (f : t) (d : list Z) : t :=
  {| echo_id := echo_id f; can_id := can_id f; can_dlc := can_dlc f;
     channel := channel f; flags := flags f; reserved := reserved f;
     data := d; timestamp_us := timestamp_us f |}.

Definition set_timestamp_us (f : t) (ts : Z) : t :=
  {| echo_id := echo_id f; can_id := can_id f; can_dlc := can_dlc f;
     channel := channel f; flags := flags f; reserved := reserved f;
     data := data f; timestamp_us := ts |}.

(** Python's [xs[a:b]] for [0 <= a <= b]. *)
Definition slice (xs : list Z) (a b : nat) : list Z := firstn (b - a) (skipn a xs).

(** [GsUsbFrame.unpack_into(frame, data, hw_timestamp, fd_mode)]: the frame
    after the call, or the exception [unpack] raises, in which case the
    frame object has not been touched. *)
Definition unpack_into (frame : t) (bs : list byte) (hw_timestamp fd_mode : bool)
  : result t :=
  if fd_mode then
    if hw_timestamp then
      rbind (Struct.unpack "<2I4B64BI" bs) (fun unpacked =>
        let frame1 := set_header frame unpacked in
        let frame2 := set_data frame1 (slice unpacked 6 70) in
        Ok (set_timestamp_us frame2 (nth 70 unpacked 0)))
    else
      rbind (Struct.unpack "<2I4B64B" bs) (fun unpacked =>
        let frame1 := set_header frame unpacked in
        Ok (set_data frame1 (slice unpacked 6 70)))
  else
    if hw_timestamp then
      rbind (Struct.unpack "<2I4B8BI" bs) (fun unpacked =>
        let frame1 := set_header frame unpacked in
        let frame2 := set_data frame1 (slice unpacked 6 14 ++ repeat 0 56) in
        Ok (set_timestamp_us frame2 (nth 14 unpacked 0)))
    else
      rbind (Struct.unpack "<2I4B8B" bs) (fun unpacked =>
        let frame1 := set_header frame unpacked in
        Ok (set_data frame1 (slice unpacked 6 14 ++ repeat 0 56))).

(** [GsUsbFrame.from_bytes(data, hw_timestamp, fd_mode)] *)
Definition from_bytes (bs : list byte) (hw_timestamp fd_mode : bool) : result t :=
  unpack_into empty bs hw_timestamp fd_mode.

End GsUsbFrame.


(** ** gs_usb_structures.py *)

Module DeviceMode.

Record t : Type := mk { mode : Z; flags : Z }.

Definition pack (m : t) : result (list byte) :=
  Struct.pack "<II" [mode m; flags m].

End DeviceMode.

Module DeviceBitTiming.

Record t : Type := mk {
  prop_seg : Z;
  phase_seg1 : Z;
  phase_seg2 : Z;
  sjw : Z;
  brp : Z
}.

Definition pack (b : t) : result (list byte) :=
  Struct.pack "<5I" [prop_seg b; phase_seg1 b; phase_seg2 b; sjw b; brp b].

End DeviceBitTiming.

Module DeviceInfo.

Record t : Type := mk {
  reserved1 : Z;
  reserved2 : Z;
  reserved3 : Z;
  icount : Z;
  fw_version : Z;
  hw_version : Z
}.

Definition unpack (bs : list byte) : result t :=
  rbind (Struct.unpack "<4B2I" bs) (fun u =>
    Ok (mk (nth 0 u 0) (nth 1 u 0) (nth 2 u 0) (nth 3 u 0) (nth 4 u 0) (nth 5 u 0))).

End DeviceInfo.

Module DeviceCapability.

(** The data-phase fields are [None] unless the object was built from a
    BT_CONST_EXT response. *)
Record t : Type := mk {
  feature : Z;
  fclk_can : Z;
  tseg1_min : Z;
  tseg1_max : Z;
  tseg2_min : Z;
  tseg2_max : Z;
  sjw_max : Z;
  brp_min : Z;
  brp_max : Z;
  brp_inc : Z;
  dtseg1_min : option Z;
  dtseg1_max : option Z;
  dtseg2_min : option Z;
  dtseg2_max : option Z;
  dsjw_max : option Z;
  dbrp_min : option Z;
  dbrp_max : option Z;
  dbrp_inc : option Z
}.

Definition has_fd_timing (c : t) : bool :=
  match dtseg1_min c with
  | Some _ => true
  | None => false
  end.

(** The constructor applied to the ten unpacked values. *)
Definition unpack (bs : list byte) : result t :=
  rbind (Struct.unpack "<10I" bs) (fun u =>
    Ok (mk (nth 0 u 0) (nth 1 u 0) (nth 2 u 0) (nth 3 u 0) (nth 4 u 0)
           (nth 5 u 0) (nth 6 u 0) (nth 7 u 0) (nth 8 u 0) (nth 9 u 0)
           None None None None None None None None)).

(** The constructor applied to the eighteen unpacked values. *)
Definition unpack_extended (bs : list byte) : result t :=
  rbind (Struct.unpack "<18I" bs) (fun u =>
    Ok (mk (nth 0 u 0) (nth 1 u 0) (nth 2 u 0) (nth 3 u 0) (nth 4 u 0)
           (nth 5 u 0) (nth 6 u 0) (nth 7 u 0) (nth 8 u 0) (nth 9 u 0)
           (Some (nth 10 u 0)) (Some (nth 11 u 0)) (Some (nth 12 u 0))
           (Some (nth 13 u 0)) (Some (nth 14 u 0)) (Some (nth 15 u 0))
           (Some (nth 16 u 0)) (Some (nth 17 u 0)))).

End DeviceCapability.

Module DeviceState.

Record t : Type := mk { state : Z; rxerr : Z; txerr : Z }.

Definition is_error_active (s : t) : bool := state s =? 0.
Definition is_bus_off (s : t) : bool := state s =? 3.

Definition unpack (bs : list byte) : result t :=
  rbind (Struct.unpack "<3I" bs) (fun u =>
    Ok (mk (nth 0 u 0) (nth 1 u 0) (nth 2 u 0))).

End DeviceState.


(** ** gs_usb.py *)

(** *** The USB transport

    The driver talks to a [usb.core.Device] object.  Every method call on it
    is recorded, in order, in a trace; the device answers each call from the
    calls made before it, so that any device behaviour, stateful or failing,
    is an instance. *)

Inductive usb_call : Type :=
| DevReset
| DevIsKernelDriverActive (interface : Z)
| DevDetachKernelDriver (interface : Z)
  (* ctrl_transfer(bmRequestType, bRequest, wValue, wIndex, data) *)
| CtrlTransferOut (bmRequestType bRequest wValue wIndex : Z) (payload : list byte)
  (* ctrl_transfer(bmRequestType, bRequest, wValue, wIndex, wLength) *)
| CtrlTransferIn (bmRequestType bRequest wValue wIndex wLength : Z)
| BulkWrite (endpoint : Z) (payload : list byte)
| BulkRead (endpoint size timeout : Z).

Record UsbDevice : Type := {
  on_reset : list usb_call -> result unit;
  on_is_kernel_driver_active : list usb_call -> Z -> result bool;
  on_detach_kernel_driver : list usb_call -> Z -> result unit;
  on_ctrl_out : list usb_call -> Z -> Z -> Z -> Z -> list byte -> result unit;
  on_ctrl_in : list usb_call -> Z -> Z -> Z -> Z -> Z -> result (list byte);
  on_write : list usb_call -> Z -> list byte -> result unit;
  on_read : list usb_call -> Z -> Z -> Z -> result (list byte)
}.

Module GsUsb.

Definition GS_CAN_MODE_RESET : Z := 0.
Definition GS_CAN_MODE_START : Z := 1.

Definition _GS_USB_BREQ_HOST_FORMAT : Z := 0.
Definition _GS_USB_BREQ_BITTIMING : Z := 1.
Definition _GS_USB_BREQ_MODE : Z := 2.
Definition _GS_USB_BREQ_BERR : Z := 3.
Definition _GS_USB_BREQ_BT_CONST : Z := 4.
Definition _GS_USB_BREQ_DEVICE_CONFIG : Z := 5.
Definition _GS_USB_BREQ_TIMESTAMP : Z := 6.
Definition _GS_USB_BREQ_IDENTIFY : Z := 7.
Definition _GS_USB_BREQ_GET_USER_ID : Z := 8.
Definition _GS_USB_BREQ_SET_USER_ID : Z := 9.
Definition _GS_USB_BREQ_DATA_BITTIMING : Z := 10.
Definition _GS_USB_BREQ_BT_CONST_EXT : Z := 11.
Definition _GS_USB_BREQ_SET_TERMINATION : Z := 12.
Definition _GS_USB_BREQ_GET_TERMINATION : Z := 13.
Definition _GS_USB_BREQ_GET_STATE : Z := 14.

(** The attributes of a [GsUsb] object other than the device handle. *)
Record t : Type := mk {
  capability : option DeviceCapability.t;
  device_flags : Z;
  fd_mode : bool
}.

(** [GsUsb(gs_usb)] *)
Definition init : t :=
  {| capability := None; device_flags := 0; fd_mode := false |}.

(** *** Methods as state transformers

    A method runs on the object's attributes and the trace of transport
    calls so far, and returns a value or raises; attribute updates and
    transport calls made before an exception stay. *)
Record world : Type := World { self : t; trace : list usb_call }.

Definition M (A : Type) : Type := world -> result A * world.

Definition ret {A : Type} (a : A) : M A := fun w => (Ok a, w).

Definition raise {A : Type} (e : exn) : M A := fun w => (Raise e, w).

Definition bind {A B : Type} (m : M A) (k : A -> M B) : M B :=
  fun w =>
    match m w with
    | (Ok a, w') => k a w'
    | (Raise e, w') => (Raise e, w')
    end.

(** [try: m except ...]: the outcome of [m] as a value. *)
Definition catch {A : Type} (m : M A) : M (result A) :=
  fun w => let (r, w') := m w in (Ok r, w').

Definition lift {A : Type} (r : result A) : M A := fun w => (r, w).

Definition get_self : M t := fun w => (Ok (self w), w).

Definition put_self (s : t) : M unit :=
  fun w => (Ok tt, {| self := s; trace := trace w |}).

(** A transport call: the device answers from the calls before this one,
    and the call is appended to the trace. *)
Definition transport {A : Type} (c : usb_call)
    (answer : list usb_call -> result A) : M A :=
  fun w => (answer (trace w), {| self := self w; trace := trace w ++ [c] |}).

Declare Scope gs_scope.
Delimit Scope gs_scope with gs.
Notation "x <- m ;; k" := (bind m (fun x => k))
  (at level 61, m at next level, right associativity) : gs_scope.
Notation "m ;; k" := (bind m (fun _ => k))
  (at level 61, right associativity) : gs_scope.
Local Open Scope gs_scope.

Section Driver.

(** Whether [platform.system()] names Windows, and the device handle
    [self.gs_usb]. *)
Variable windows : bool.
Variable gs_usb : UsbDevice.

Definition usb_reset : M unit :=
  transport DevReset (on_reset gs_usb).

Definition usb_is_kernel_driver_active (i : Z) : M bool :=
  transport (DevIsKernelDriverActive i)
    (fun h => on_is_kernel_driver_active gs_usb h i).

Definition usb_detach_kernel_driver (i : Z) : M unit :=
  transport (DevDetachKernelDriver i)
    (fun h => on_detach_kernel_driver gs_usb h i).

Definition ctrl_transfer_out (ty req value index : Z) (payload : list byte)
  : M unit :=
  transport (CtrlTransferOut ty req value index payload)
    (fun h => on_ctrl_out gs_usb h ty req value index payload).

Definition ctrl_transfer_in (ty req value index len : Z) : M (list byte) :=
  transport (CtrlTransferIn ty req value index len)
    (fun h => on_ctrl_in gs_usb h ty req value index len).

Definition usb_write (ep : Z) (payload : list byte) : M unit :=
  transport (BulkWrite ep payload) (fun h => on_write gs_usb h ep payload).

Definition usb_read (ep size timeout : Z) : M (list byte) :=
  transport (BulkRead ep size timeout) (fun h => on_read gs_usb h ep size timeout).

Definition set_capability (c : DeviceCapability.t) : M unit :=
  s <- get_self ;;
  put_self {| capability := Some c;
              device_flags := device_flags s;
              fd_mode := fd_mode s |}.

Definition set_device_flags (flags : Z) : M unit :=
  s <- get_self ;;
  put_self {| capability := capability s;
              device_flags := flags;
              fd_mode := fd_mode s |}.

Definition set_fd_mode (b : bool) : M unit :=
  s <- get_self ;;
  put_self {| capability := capability s;
              device_flags := device_flags s;
              fd_mode := b |}.

(** The property [device_capability]: fetched with BT_CONST on first use,
    then served from [self.capability]. *)
Definition device_capability : M DeviceCapability.t :=
  s <- get_self ;;
  match capability s with
  | None =>
      data <- ctrl_transfer_in 0xC1 _GS_USB_BREQ_BT_CONST 0 0 40 ;;
      c <- lift (DeviceCapability.unpack data) ;;
      set_capability c ;;
      ret c
  | Some c => ret c
  end.

(** [start(flags)] *)
Definition start (flags : Z) : M unit :=
  usb_reset ;;
  (if negb windows then
     active <- usb_is_kernel_driver_active 0 ;;
     if active then usb_detach_kernel_driver 0 else ret tt
   else ret tt) ;;
  cap <- device_capability ;;
  let flags1 := Z.land flags (DeviceCapability.feature cap) in
  let flags2 :=
    Z.land flags1
      (Z.lor (Z.lor (Z.lor (Z.lor Constants.GS_CAN_MODE_LISTEN_ONLY
                                  Constants.GS_CAN_MODE_LOOP_BACK)
                           Constants.GS_CAN_MODE_ONE_SHOT)
                    Constants.GS_CAN_MODE_HW_TIMESTAMP)
             Constants.GS_CAN_MODE_FD) in
  set_device_flags flags2 ;;
  set_fd_mode (Z.land flags2 Constants.GS_CAN_MODE_FD =? Constants.GS_CAN_MODE_FD) ;;
  payload <- lift (DeviceMode.pack (DeviceMode.mk GS_CAN_MODE_START flags2)) ;;
  ctrl_transfer_out 0x41 _GS_USB_BREQ_MODE 0 0 payload.

(** [stop()]: a [USBError] of the transfer is swallowed. *)
Definition stop : M unit :=
  payload <- lift (DeviceMode.pack (DeviceMode.mk GS_CAN_MODE_RESET 0)) ;;
  r <- catch (ctrl_transfer_out 0x41 _GS_USB_BREQ_MODE 0 0 payload) ;;
  match r with
  | Raise USBError => ret tt
  | Raise e => raise e
  | Ok _ => ret tt
  end.

(** [set_timing(prop_seg, phase_seg1, phase_seg2, sjw, brp)] *)
Definition set_timing (prop_seg phase_seg1 phase_seg2 sjw brp : Z) : M unit :=
  payload <- lift (DeviceBitTiming.pack
                     (DeviceBitTiming.mk prop_seg phase_seg1 phase_seg2 sjw brp)) ;;
  ctrl_transfer_out 0x41 _GS_USB_BREQ_BITTIMING 0 0 payload.

(** [set_data_timing(prop_seg, phase_seg1, phase_seg2, sjw, brp)] *)
Definition set_data_timing (prop_seg phase_seg1 phase_seg2 sjw brp : Z) : M unit :=
  payload <- lift (DeviceBitTiming.pack
                     (DeviceBitTiming.mk prop_seg phase_seg1 phase_seg2 sjw brp)) ;;
  ctrl_transfer_out 0x41 _GS_USB_BREQ_DATA_BITTIMING 0 0 payload.

(** The nominal table of one clock: the [if]/[elif] chain over [bitrate],
    each hit calling [set_timing] and returning [True], the final [else]
    returning [False]. *)
Definition set_bitrate_48MHz (bitrate prop_seg sjw : Z) : M bool :=
  if bitrate =? 10000 then set_timing prop_seg 12 2 sjw 300 ;; ret true
  else if bitrate =? 20000 then set_timing prop_seg 12 2 sjw 150 ;; ret true
  else if bitrate =? 50000 then set_timing prop_seg 12 2 sjw 60 ;; ret true
  else if bitrate =? 83333 then set_timing prop_seg 12 2 sjw 36 ;; ret true
  else if bitrate =? 100000 then set_timing prop_seg 12 2 sjw 30 ;; ret true
  else if bitrate =? 125000 then set_timing prop_seg 12 2 sjw 24 ;; ret true
  else if bitrate =? 250000 then set_timing prop_seg 12 2 sjw 12 ;; ret true
  else if bitrate =? 500000 then set_timing prop_seg 12 2 sjw 6 ;; ret true
  else if bitrate =? 800000 then set_timing prop_seg 11 2 sjw 4 ;; ret true
  else if bitrate =? 1000000 then set_timing prop_seg 12 2 sjw 3 ;; ret true
  else ret false.

Definition set_bitrate_80MHz (bitrate prop_seg sjw : Z) : M bool :=
  if bitrate =? 10000 then set_timing prop_seg 12 2 sjw 500 ;; ret true
  else if bitrate =? 20000 then set_timing prop_seg 12 2 sjw 250 ;; ret true
  else if bitrate =? 50000 then set_timing prop_seg 12 2 sjw 100 ;; ret true
  else if bitrate =? 83333 then set_timing prop_seg 12 2 sjw 60 ;; ret true
  else if bitrate =? 100000 then set_timing prop_seg 12 2 sjw 50 ;; ret true
  else if bitrate =? 125000 then set_timing prop_seg 12 2 sjw 40 ;; ret true
  else if bitrate =? 250000 then set_timing prop_seg 12 2 sjw 20 ;; ret true
  else if bitrate =? 500000 then set_timing prop_seg 12 2 sjw 10 ;; ret true
  else if bitrate =? 800000 then set_timing prop_seg 7 1 sjw 10 ;; ret true
  else if bitrate =? 1000000 then set_timing prop_seg 12 2 sjw 5 ;; ret true
  else ret false.

Definition set_bitrate_40MHz (bitrate prop_seg sjw : Z) : M bool :=
  if bitrate =? 10000 then set_timing prop_seg 12 2 sjw 250 ;; ret true
  else if bitrate =? 20000 then set_timing prop_seg 12 2 sjw 125 ;; ret true
  else if bitrate =? 50000 then set_timing prop_seg 12 2 sjw 50 ;; ret true
  else if bitrate =? 83333 then set_timing prop_seg 12 2 sjw 30 ;; ret true
  else if bitrate =? 100000 then set_timing prop_seg 12 2 sjw 25 ;; ret true
  else if bitrate =? 125000 then set_timing prop_seg 12 2 sjw 20 ;; ret true
  else if bitrate =? 250000 then set_timing prop_seg 12 2 sjw 10 ;; ret true
  else if bitrate =? 500000 then set_timing prop_seg 12 2 sjw 5 ;; ret true
  else if bitrate =? 800000 then set_timing prop_seg 7 1 sjw 5 ;; ret true
  else if bitrate =? 1000000 then set_timing prop_seg 5 1 sjw 5 ;; ret true
  else ret false.

(** The literal [87.5], and the test [sample_point == 87.5].  A sample point
    is an exact rational: Python compares numbers by value, and every
    finite [float] or [int] is one. *)
Definition sample_point_87_5 : Q := 175 # 2.
Definition sample_point_75_0 : Q := 75 # 1.

(** [set_bitrate(bitrate, sample_point)].  Each test of the chain reads the
    property [device_capability] again. *)
Definition set_bitrate (bitrate : Z) (sample_point : Q) : M bool :=
  let prop_seg := 1 in
  let sjw := 1 in
  cap1 <- device_capability ;;
  if (DeviceCapability.fclk_can cap1 =? 48000000)
     && Qeq_bool sample_point sample_point_87_5
  then set_bitrate_48MHz bitrate prop_seg sjw
  else
    cap2 <- device_capability ;;
    if (DeviceCapability.fclk_can cap2 =? 80000000)
       && Qeq_bool sample_point sample_point_87_5
    then set_bitrate_80MHz bitrate prop_seg sjw
    else
      cap3 <- device_capability ;;
      if (DeviceCapability.fclk_can cap3 =? 40000000)
         && Qeq_bool sample_point sample_point_87_5
      then set_bitrate_40MHz bitrate prop_seg sjw
      else ret false.

Definition set_data_bitrate_80MHz (bitrate prop_seg sjw : Z) : M bool :=
  if bitrate =? 2000000 then set_data_timing prop_seg 4 2 sjw 5 ;; ret true
  else if bitrate =? 4000000 then set_data_timing prop_seg 1 1 sjw 5 ;; ret true
  else if bitrate =? 5000000 then set_data_timing prop_seg 4 2 sjw 2 ;; ret true
  else if bitrate =? 8000000 then set_data_timing prop_seg 2 1 sjw 2 ;; ret true
  else ret false.

Definition set_data_bitrate_40MHz (bitrate prop_seg sjw : Z) : M bool :=
  if bitrate =? 2000000 then set_data_timing prop_seg 6 2 sjw 2 ;; ret true
  else if bitrate =? 4000000 then set_data_timing prop_seg 2 1 sjw 2 ;; ret true
  else if bitrate =? 5000000 then set_data_timing prop_seg 4 2 sjw 1 ;; ret true
  else if bitrate =? 8000000 then set_data_timing prop_seg 2 1 sjw 1 ;; ret true
  else if bitrate =? 10000000 then set_data_timing prop_seg 1 1 sjw 1 ;; ret true
  else ret false.

(** [set_data_bitrate(bitrate, sample_point)].  The body never reads
    [sample_point]. *)
Definition set_data_bitrate (bitrate : Z) (sample_point : Q) : M bool :=
  cap0 <- device_capability ;;
  if Z.land (DeviceCapability.feature cap0) Constants.GS_CAN_FEATURE_FD =? 0
  then ret false
  else
    let prop_seg := 1 in
    let sjw := 1 in
    cap1 <- device_capability ;;
    if DeviceCapability.fclk_can cap1 =? 80000000
    then set_data_bitrate_80MHz bitrate prop_seg sjw
    else
      cap2 <- device_capability ;;
      if DeviceCapability.fclk_can cap2 =? 40000000
      then set_data_bitrate_40MHz bitrate prop_seg sjw
      else ret false.

(** [hw_timestamps] as [send] and [read] compute it. *)
Definition hw_timestamps (s : t) : bool :=
  Z.land (device_flags s) Constants.GS_CAN_MODE_HW_TIMESTAMP
    =? Constants.GS_CAN_MODE_HW_TIMESTAMP.

(** [send(frame)] *)
Definition send (frame : GsUsbFrame.t) : M bool :=
  s <- get_self ;;
  payload <- lift (GsUsbFrame.pack frame (hw_timestamps s) (fd_mode s)) ;;
  usb_write 0x02 payload ;;
  ret true.

(** The FD layout [read] picks for a received buffer: the FD bit of the
    flags byte at offset 10, or classic when the buffer has no such byte. *)
Definition is_fd_frame (data : list byte) : bool :=
  if (11 <=? length data)%nat then
    let frame_flags := byte.unsigned (nth 10 data Byte.x00) in
    negb (Z.land frame_flags Constants.GS_CAN_FLAG_FD =? 0)
  else false.

(** [read(frame, timeout_ms)]: the returned boolean and the frame object
    after the call. *)
Definition read (frame : GsUsbFrame.t) (timeout_ms : Z)
  : M (bool * GsUsbFrame.t) :=
  s <- get_self ;;
  let max_size := GsUsbFrame.sizeof (hw_timestamps s) (fd_mode s) in
  r <- catch (usb_read 0x81 max_size timeout_ms) ;;
  match r with
  | Raise USBError => ret (false, frame)
  | Raise e => raise e
  | Ok data =>
      frame' <- lift (GsUsbFrame.unpack_into frame data (hw_timestamps s)
                        (is_fd_frame data)) ;;
      ret (true, frame')
  end.

(** The property [device_info] *)
Definition device_info : M DeviceInfo.t :=
  data <- ctrl_transfer_in 0xC1 _GS_USB_BREQ_DEVICE_CONFIG 0 0 12 ;;
  lift (DeviceInfo.unpack data).

(** The property [device_capability_extended] *)
Definition device_capability_extended : M (option DeviceCapability.t) :=
  cap <- device_capability ;;
  if Z.land (DeviceCapability.feature cap) Constants.GS_CAN_FEATURE_BT_CONST_EXT =? 0
  then ret None
  else
    s <- get_self ;;
    match capability s with
    | Some c =>
        if DeviceCapability.has_fd_timing c then ret (Some c)
        else
          data <- ctrl_transfer_in 0xC1 _GS_USB_BREQ_BT_CONST_EXT 0 0 72 ;;
          c' <- lift (DeviceCapability.unpack_extended data) ;;
          set_capability c' ;;
          ret (Some c')
    | None =>
        data <- ctrl_transfer_in 0xC1 _GS_USB_BREQ_BT_CONST_EXT 0 0 72 ;;
        c' <- lift (DeviceCapability.unpack_extended data) ;;
        set_capability c' ;;
        ret (Some c')
    end.

(** The property [supports_fd] *)
Definition supports_fd : M bool :=
  cap <- device_capability ;;
  ret (negb (Z.land (DeviceCapability.feature cap) Constants.GS_CAN_FEATURE_FD =? 0)).

(** The property [supports_get_state] *)
Definition supports_get_state : M bool :=
  cap <- device_capability ;;
  ret (negb (Z.land (DeviceCapability.feature cap)
               Constants.GS_CAN_FEATURE_GET_STATE =? 0)).

(** [get_state(channel)]: [channel] is the third positional argument of
    [ctrl_transfer], its [wValue]. *)
Definition get_state (channel : Z) : M DeviceState.t :=
  sup <- supports_get_state ;;
  if negb sup then raise (ValueError "Device does not support GET_STATE")
  else
    data <- ctrl_transfer_in 0xC1 _GS_USB_BREQ_GET_STATE channel 0 12 ;;
    lift (DeviceState.unpack data).

End Driver.

End GsUsb.

(** ** Vocabulary of the statements

    The four frame layouts, seen as one layout with two parameters. *)

(** Number of payload bytes on the wire. *)
Definition payload_size (fd_mode : bool) : nat := if fd_mode then 64%nat else 8%nat.

(** The items of the frame format for a layout. *)
Definition frame_layout (hw_timestamp fd_mode : bool) : list Struct.code :=
  [Struct.I; Struct.I; Struct.B; Struct.B; Struct.B; Struct.B]
    ++ repeat Struct.B (payload_size fd_mode)
    ++ (if hw_timestamp then [Struct.I] else []).

(** The values [pack] hands to [struct.pack] for a layout. *)
Definition wire_values (f : GsUsbFrame.t) (hw_timestamp fd_mode : bool) : list Z :=
  GsUsbFrame.header f
    ++ firstn (payload_size fd_mode) (GsUsbFrame.data f)
    ++ (if hw_timestamp then [Z.land (GsUsbFrame.timestamp_us f) 0xFFFFFFFF] else []).

(** The frame [unpack_into] leaves behind, from the unpacked values [u]. *)
Definition frame_of_values (frame : GsUsbFrame.t) (u : list Z)
    (hw_timestamp fd_mode : bool) : GsUsbFrame.t :=
  let n := payload_size fd_mode in
  let frame1 :=
    GsUsbFrame.set_data (GsUsbFrame.set_header frame u)
      (GsUsbFrame.slice u 6 (6 + n) ++ repeat 0 (64 - n)) in
  if hw_timestamp then GsUsbFrame.set_timestamp_us frame1 (nth (6 + n) u 0)
  else frame1.

(** A frame whose attributes [pack] can encode in a layout: the header
    values are in the range of their fields, and the data list has a byte
    for every payload position. *)
Definition fits_wire (f : GsUsbFrame.t) (fd_mode : bool) : Prop :=
  0 <= GsUsbFrame.echo_id f < 2 ^ 32 /\
  0 <= GsUsbFrame.can_id f < 2 ^ 32 /\
  0 <= GsUsbFrame.can_dlc f < 256 /\
  0 <= GsUsbFrame.channel f < 256 /\
  0 <= GsUsbFrame.flags f < 256 /\
  0 <= GsUsbFrame.reserved f < 256 /\
  (payload_size fd_mode <= length (GsUsbFrame.data f))%nat /\
  Forall (fun b => 0 <= b < 256) (firstn (payload_size fd_mode) (GsUsbFrame.data f)).

(** The frame a target [frame0] becomes when it receives the encoding of
    [f]: header of [f]; payload of [f] padded with zeros to 64 entries; the
    timestamp of [f] reduced to 32 bits if the layout carries one, else the
    target's own. *)
Definition decoded (f frame0 : GsUsbFrame.t) (hw_timestamp fd_mode : bool)
  : GsUsbFrame.t :=
  {| GsUsbFrame.echo_id := GsUsbFrame.echo_id f;
     GsUsbFrame.can_id := GsUsbFrame.can_id f;
     GsUsbFrame.can_dlc := GsUsbFrame.can_dlc f;
     GsUsbFrame.channel := GsUsbFrame.channel f;
     GsUsbFrame.flags := GsUsbFrame.flags f;
     GsUsbFrame.reserved := GsUsbFrame.reserved f;
     GsUsbFrame.data :=
       firstn (payload_size fd_mode) (GsUsbFrame.data f)
         ++ repeat 0 (64 - payload_size fd_mode);
     GsUsbFrame.timestamp_us :=
       if hw_timestamp then Z.land (GsUsbFrame.timestamp_us f) 0xFFFFFFFF
       else GsUsbFrame.timestamp_us frame0 |}.

(** The mask [start] applies after the device features. *)
Definition driver_supported_mask : Z :=
  Z.lor (Z.lor (Z.lor (Z.lor Constants.GS_CAN_MODE_LISTEN_ONLY
                             Constants.GS_CAN_MODE_LOOP_BACK)
                      Constants.GS_CAN_MODE_ONE_SHOT)
               Constants.GS_CAN_MODE_HW_TIMESTAMP)
        Constants.GS_CAN_MODE_FD.

(** The bitrates listed for a nominal clock (the same ten for 48, 80 and
    40 MHz) and for each data-phase clock. *)
Definition nominal_bitrates : list Z :=
  [10000; 20000; 50000; 83333; 100000; 125000; 250000; 500000; 800000; 1000000].

Definition data_bitrates_80MHz : list Z := [2000000; 4000000; 5000000; 8000000].

Definition data_bitrates_40MHz : list Z :=
  [2000000; 4000000; 5000000; 8000000; 10000000].

(** ** Concrete frames and devices of the examples *)

(** A classic frame as the constructor builds it, and the same frame
    carrying a receive timestamp. *)
Definition classic_frame : GsUsbFrame.t :=
  GsUsbFrame.init 0x80000123 [1; 2; 3] false false.

Definition stamped_frame : GsUsbFrame.t :=
  GsUsbFrame.set_timestamp_us classic_frame 5.

(** An FD frame with a full 64-byte payload. *)
Definition fd_frame : GsUsbFrame.t :=
  GsUsbFrame.init 0x123 (repeat 0xAB 64) true true.

(** The 20 bytes of [classic_frame] in the classic layout without
    timestamp: an echo frame as the device returns it. *)
Definition classic_echo_bytes : list byte :=
  [Byte.x00; Byte.x00; Byte.x00; Byte.x00; Byte.x23; Byte.x01; Byte.x00; Byte.x80;
   Byte.x03; Byte.x00; Byte.x00; Byte.x00; Byte.x01; Byte.x02; Byte.x03; Byte.x00;
   Byte.x00; Byte.x00; Byte.x00; Byte.x00].

(** A frame with the extended bit clear and identifier bits above bit 10. *)
Definition wide_standard_frame : GsUsbFrame.t :=
  GsUsbFrame.init 0x00012345 [] false false.

(** A BT_CONST answer: the feature word, the clock, and timing limits. *)
Definition bt_const_bytes (feature clk : Z) : list byte :=
  le_split 4 feature ++ le_split 4 clk ++ le_split 4 1 ++ le_split 4 16
    ++ le_split 4 1 ++ le_split 4 8 ++ le_split 4 4 ++ le_split 4 1
    ++ le_split 4 1024 ++ le_split 4 1.

(** A GET_STATE answer: error-warning, 96 receive errors, 3 transmit errors. *)
Definition state_bytes : list byte :=
  le_split 4 1 ++ le_split 4 96 ++ le_split 4 3.

(** A device that accepts every request, reports the given features and
    clock, and returns the classic echo frame on every bulk read. *)
Definition simple_device (feature clk : Z) : UsbDevice :=
  {| on_reset := fun _ => Ok tt;
     on_is_kernel_driver_active := fun _ _ => Ok true;
     on_detach_kernel_driver := fun _ _ => Ok tt;
     on_ctrl_out := fun _ _ _ _ _ _ => Ok tt;
     on_ctrl_in := fun _ _ req _ _ _ =>
       if req =? GsUsb._GS_USB_BREQ_BT_CONST then Ok (bt_const_bytes feature clk)
       else if req =? GsUsb._GS_USB_BREQ_GET_STATE then Ok state_bytes
       else Raise USBError;
     on_write := fun _ _ _ => Ok tt;
     on_read := fun _ _ _ _ => Ok classic_echo_bytes |}.

(** A device whose bulk reads time out. *)
Definition silent_device : UsbDevice :=
  {| on_reset := fun _ => Ok tt;
     on_is_kernel_driver_active := fun _ _ => Ok false;
     on_detach_kernel_driver := fun _ _ => Ok tt;
     on_ctrl_out := fun _ _ _ _ _ _ => Ok tt;
     on_ctrl_in := fun _ _ _ _ _ _ => Raise USBError;
     on_write := fun _ _ _ => Ok tt;
     on_read := fun _ _ _ _ => Raise USBError |}.

(** A session right after [GsUsb(dev)]: nothing fetched, nothing sent. *)
Definition fresh : GsUsb.world :=
  {| GsUsb.self := GsUsb.init; GsUsb.trace := [] |}.

(** A session started in FD mode with hardware timestamps off. *)
Definition fd_session : GsUsb.world :=
  {| GsUsb.self :=
       {| GsUsb.capability := None;
          GsUsb.device_flags := Constants.GS_CAN_MODE_FD;
          GsUsb.fd_mode := true |};
     GsUsb.trace := [] |}.

(** The payload of BITTIMING for (prop_seg, phase_seg1, phase_seg2, sjw, brp)
    = (1, 12, 2, 1, 5): five little-endian 32-bit words. *)
Definition bit_timing_1_12_2_1_5 : list byte :=
  [Byte.x01; Byte.x00; Byte.x00; Byte.x00;
   Byte.x0c; Byte.x00; Byte.x00; Byte.x00;
   Byte.x02; Byte.x00; Byte.x00; Byte.x00;
   Byte.x01; Byte.x00; Byte.x00; Byte.x00;
   Byte.x05; Byte.x00; Byte.x00; Byte.x00].

(** Devices of the examples: all mode features at 80 MHz; FD only at
    80 MHz; no feature at all; GET_STATE only; a 40 MHz part. *)
Definition full_device : UsbDevice := simple_device 0x3FFF 80000000.
Definition fd_device : UsbDevice := simple_device Constants.GS_CAN_FEATURE_FD 80000000.
Definition plain_device : UsbDevice := simple_device 0 80000000.
Definition state_device : UsbDevice :=
  simple_device Constants.GS_CAN_FEATURE_GET_STATE 48000000.
Definition device_40MHz : UsbDevice := simple_device 0 40000000.

(** The session after [start] with every mode flag requested. *)
Definition started_session : GsUsb.world :=
  snd (GsUsb.start false full_device 0xFFFF fresh).

(** The capability [plain_device] reports at 25 MHz, a clock without table. *)
Definition capability_25MHz : DeviceCapability.t :=
  DeviceCapability.mk 0 25000000 1 16 1 8 4 1 1024 1
    None None None None None None None None.

Definition session_25MHz : GsUsb.world :=
  {| GsUsb.self :=
       {| GsUsb.capability := Some capability_25MHz;
          GsUsb.device_flags := 0;
          GsUsb.fd_mode := false |};
     GsUsb.trace := [] |}.

(** The capability [device_40MHz] reports, and the session that has
    fetched it. *)
Definition capability_40MHz : DeviceCapability.t :=
  DeviceCapability.mk 0 40000000 1 16 1 8 4 1 1024 1
    None None None None None None None None.

Definition session_40MHz : GsUsb.world :=
  {| GsUsb.self :=
       {| GsUsb.capability := Some capability_40MHz;
          GsUsb.device_flags := 0;
          GsUsb.fd_mode := false |};
     GsUsb.trace := [CtrlTransferIn 0xC1 GsUsb._GS_USB_BREQ_BT_CONST 0 0 40] |}.

(** The capability [plain_device] and [state_device] report. *)
Definition capability_plain : DeviceCapability.t :=
  DeviceCapability.mk 0 80000000 1 16 1 8 4 1 1024 1
    None None None None None None None None.

Definition capability_state : DeviceCapability.t :=
  DeviceCapability.mk Constants.GS_CAN_FEATURE_GET_STATE 48000000 1 16 1 8 4 1 1024 1
    None None None None None None None None.

Definition session_state : GsUsb.world :=
  {| GsUsb.self :=
       {| GsUsb.capability := Some capability_state;
          GsUsb.device_flags := 0;
          GsUsb.fd_mode := false |};
     GsUsb.trace := [CtrlTransferIn 0xC1 GsUsb._GS_USB_BREQ_BT_CONST 0 0 40] |}.

(** The classic echo frame padded to the 76 bytes of the FD layout, and a
    device that answers every bulk read with it. *)
Definition padded_echo_bytes : list byte := classic_echo_bytes ++ repeat Byte.x00 56.

Definition padding_device : UsbDevice :=
  {| on_reset := fun _ => Ok tt;
     on_is_kernel_driver_active := fun _ _ => Ok false;
     on_detach_kernel_driver := fun _ _ => Ok tt;
     on_ctrl_out := fun _ _ _ _ _ _ => Ok tt;
     on_ctrl_in := fun _ _ _ _ _ _ => Raise USBError;
     on_write := fun _ _ _ => Ok tt;
     on_read := fun _ _ _ _ => Ok padded_echo_bytes |}.

(** A device that reports every feature and rejects the MODE transfer. *)
Definition refusing_device : UsbDevice :=
  {| on_reset := fun _ => Ok tt;
     on_is_kernel_driver_active := fun _ _ => Ok false;
     on_detach_kernel_driver := fun _ _ => Ok tt;
     on_ctrl_out := fun _ _ _ _ _ _ => Raise USBError;
     on_ctrl_in := fun _ _ _ _ _ _ => Ok (bt_const_bytes 0x3FFF 80000000);
     on_write := fun _ _ _ => Ok tt;
     on_read := fun _ _ _ _ => Raise USBError |}.

(** The session [start] leaves on [refusing_device] when FD and hardware
    timestamps are requested. *)
Definition refused_session : GsUsb.world :=
  snd (GsUsb.start true refusing_device 0x110 fresh).

(** The ten nominal fields of a capability, in wire order. *)
Definition nominal_fields (c : DeviceCapability.t) : list Z :=
  [DeviceCapability.feature c; DeviceCapability.fclk_can c;
   DeviceCapability.tseg1_min c; DeviceCapability.tseg1_max c;
   DeviceCapability.tseg2_min c; DeviceCapability.tseg2_max c;
   DeviceCapability.sjw_max c; DeviceCapability.brp_min c;
   DeviceCapability.brp_max c; DeviceCapability.brp_inc c].

(** A BT_CONST_EXT answer: the BT_CONST answer followed by the data-phase
    limits. *)
Definition bt_const_ext_bytes (feature clk : Z) : list byte :=
  bt_const_bytes feature clk
    ++ le_split 4 1 ++ le_split 4 32 ++ le_split 4 1 ++ le_split 4 16
    ++ le_split 4 16 ++ le_split 4 1 ++ le_split 4 32 ++ le_split 4 1.

(** An FD device that answers BT_CONST and BT_CONST_EXT with the same
    feature word (all of bits 0 to 10). *)
Definition extended_device : UsbDevice :=
  {| on_reset := fun _ => Ok tt;
     on_is_kernel_driver_active := fun _ _ => Ok false;
     on_detach_kernel_driver := fun _ _ => Ok tt;
     on_ctrl_out := fun _ _ _ _ _ _ => Ok tt;
     on_ctrl_in := fun _ _ req _ _ _ =>
       if req =? GsUsb._GS_USB_BREQ_BT_CONST then Ok (bt_const_bytes 0x7FF 80000000)
       else if req =? GsUsb._GS_USB_BREQ_BT_CONST_EXT
            then Ok (bt_const_ext_bytes 0x7FF 80000000)
       else Raise USBError;
     on_write := fun _ _ _ => Ok tt;
     on_read := fun _ _ _ _ => Raise USBError |}.

(** The session after the first access to [device_capability_extended] on
    [extended_device], and the capability it returned. *)
Definition extended_session : GsUsb.world :=
  snd (GsUsb.device_capability_extended extended_device fresh).

Definition capability_extended : DeviceCapability.t :=
  DeviceCapability.mk 0x7FF 80000000 1 16 1 8 4 1 1024 1
    (Some 1) (Some 32) (Some 1) (Some 16) (Some 16) (Some 1) (Some 32) (Some 1).

(** The capability [fd_device] reports, and the session that has fetched
    it. *)
Definition capability_fd : DeviceCapability.t :=
  DeviceCapability.mk Constants.GS_CAN_FEATURE_FD 80000000 1 16 1 8 4 1 1024 1
    None None None None None None None None.

Definition session_fd_device : GsUsb.world :=
  {| GsUsb.self :=
       {| GsUsb.capability := Some capability_fd;
          GsUsb.device_flags := 0;
          GsUsb.fd_mode := false |};
     GsUsb.trace := [CtrlTransferIn 0xC1 GsUsb._GS_USB_BREQ_BT_CONST 0 0 40] |}.

(** A DEVICE_CONFIG answer: three reserved bytes, one channel (count minus
    one is 0), firmware version 2, hardware version 1; and a device that
    gives it. *)
Definition device_config_bytes : list byte :=
  [Byte.x00; Byte.x00; Byte.x00; Byte.x00] ++ le_split 4 2 ++ le_split 4 1.

Definition config_device : UsbDevice :=
  {| on_reset := fun _ => Ok tt;
     on_is_kernel_driver_active := fun _ _ => Ok false;
     on_detach_kernel_driver := fun _ _ => Ok tt;
     on_ctrl_out := fun _ _ _ _ _ _ => Ok tt;
     on_ctrl_in := fun _ _ _ _ _ _ => Ok device_config_bytes;
     on_write := fun _ _ _ => Ok tt;
     on_read := fun _ _ _ _ => Raise USBError |}.




(** A device whose features are listen-only and FD (0x101), and the session
    after [start] on it with every mode flag requested. *)
Definition listen_fd_device : UsbDevice := simple_device 0x101 80000000.

Definition listen_fd_session : GsUsb.world :=
  snd (GsUsb.start false listen_fd_device 0xFFFF fresh).

(** * Properties *)

(** ** struct: packing and unpacking are inverse *)

Section StructFacts.

Import Struct.

Lemma calcsize_app (cs1 cs2 : list code) :
  calcsize (cs1 ++ cs2) = (calcsize cs1 + calcsize cs2)%nat.
Proof.
  induction cs1 as [|c cs1 IH]; simpl; [reflexivity|].
  rewrite IH. lia.
Qed.

Lemma calcsize_repeat_B (n : nat) : calcsize (repeat B n) = n.
Proof. induction n as [|n IH]; simpl; [reflexivity | now rewrite IH]. Qed.

Lemma unpack_items_length (cs : list code) :
  forall bs, length (unpack_items cs bs) = length cs.
Proof.
  induction cs as [|c cs IH]; intros bs; simpl; [reflexivity|].
  now rewrite IH.
Qed.

Lemma unpack_items_app (cs1 cs2 : list code) :
  forall bs,
    unpack_items (cs1 ++ cs2) bs
    = unpack_items cs1 bs ++ unpack_items cs2 (skipn (calcsize cs1) bs).
Proof.
  induction cs1 as [|c cs1 IH]; intros bs; simpl; [reflexivity|].
  rewrite IH, skipn_skipn.
  now rewrite (Nat.add_comm (calcsize cs1)).
Qed.

(** A run of [B] items reads the bytes one by one. *)
Lemma unpack_items_B (n : nat) :
  forall bs, (n <= length bs)%nat ->
    unpack_items (repeat B n) bs = map byte.unsigned (firstn n bs).
Proof.
  induction n as [|n IH]; intros bs Hlen; [reflexivity|].
  destruct bs as [|b bs]; simpl in Hlen; [lia|].
  cbn [repeat unpack_items code_size firstn skipn map].
  rewrite IH by lia. f_equal.
  apply le_combine_1.
Qed.

Lemma fits_bound (c : code) (v : Z) :
  fits c v = true -> 0 <= v < 2 ^ (Z.of_nat (code_size c) * 8).
Proof.
  unfold fits. rewrite andb_true_iff, Z.leb_le, Z.ltb_lt.
  replace (8 * Z.of_nat (code_size c)) with (Z.of_nat (code_size c) * 8) by lia.
  tauto.
Qed.

(** What [pack] produces, [unpack] reads back; the buffer has the size of
    the format. *)
Lemma pack_items_unpack (cs : list code) :
  forall vs bs,
    pack_items cs vs = Ok bs ->
    length bs = calcsize cs /\ unpack_items cs bs = vs.
Proof.
  induction cs as [|c cs IH]; intros vs bs H.
  - destruct vs; simpl in H; [|discriminate].
    injection H as <-. split; reflexivity.
  - destruct vs as [|v vs]; simpl in H; [discriminate|].
    destruct (fits c v) eqn:Hfit; [|discriminate].
    destruct (pack_items cs vs) as [bs'|e] eqn:Hrest; simpl in H; [|discriminate].
    injection H as <-.
    destruct (IH _ _ Hrest) as [Hlen Hun].
    pose proof (length_le_split (code_size c) v) as Hsplit.
    split.
    + rewrite length_app, Hsplit, Hlen. reflexivity.
    + cbn [unpack_items].
      rewrite firstn_app, skipn_app, Hsplit, Nat.sub_diag.
      rewrite <- Hsplit at 1 3. rewrite firstn_all, skipn_all.
      cbn [firstn skipn app]. rewrite app_nil_r, Hun. f_equal.
      rewrite le_combine_split. apply Z.mod_small, fits_bound, Hfit.
Qed.

(** [pack] succeeds on as many values as the format has items, each in the
    range of its item. *)
Lemma pack_items_fits (cs : list code) :
  forall vs,
    Forall2 (fun c v => fits c v = true) cs vs ->
    exists bs, pack_items cs vs = Ok bs.
Proof.
  induction cs as [|c cs IH]; intros vs H; inversion H; subst.
  - now exists [].
  - destruct (IH _ H4) as [bs Hbs].
    simpl. rewrite H2, Hbs. simpl. eauto.
Qed.

Lemma Forall2_fits_B (vs : list Z) :
  Forall (fun v => 0 <= v < 256) vs ->
  Forall2 (fun c v => fits c v = true) (repeat B (length vs)) vs.
Proof.
  induction 1 as [|v vs Hv _ IH]; simpl; constructor; [|exact IH].
  unfold fits. apply andb_true_iff. rewrite Z.leb_le, Z.ltb_lt.
  change (2 ^ (8 * Z.of_nat (code_size B))) with 256. exact Hv.
Qed.

End StructFacts.

(** ** Frames: the four layouts *)

Section FrameFacts.

Import Struct.

Lemma calcsize_frame_layout (hw fd : bool) :
  Z.of_nat (calcsize (frame_layout hw fd)) = GsUsbFrame.sizeof hw fd.
Proof. destruct hw, fd; reflexivity. Qed.

(** [pack] in terms of the layout. *)
Lemma pack_layout (f : GsUsbFrame.t) (hw fd : bool) :
  GsUsbFrame.pack f hw fd = pack_items (frame_layout hw fd) (wire_values f hw fd).
Proof.
  unfold wire_values.
  destruct hw, fd; rewrite ?app_nil_r; reflexivity.
Qed.

(** [unpack_into] in terms of the layout: the size test of [unpack], then
    the attribute assignments. *)
Lemma unpack_into_layout (frame : GsUsbFrame.t) (bs : list byte) (hw fd : bool) :
  GsUsbFrame.unpack_into frame bs hw fd
  = if (length bs =? calcsize (frame_layout hw fd))%nat
    then Ok (frame_of_values frame (unpack_items (frame_layout hw fd) bs) hw fd)
    else Raise StructError.
Proof.
  unfold frame_of_values.
  destruct hw, fd; cbn [payload_size Nat.sub Nat.add repeat]; rewrite ?app_nil_r;
    unfold GsUsbFrame.unpack_into, Struct.unpack;
    match goal with
    | |- context [parse_format ?s] =>
        let r := eval vm_compute in (parse_format s) in
        change (parse_format s) with r
    end;
    match goal with
    | |- context [frame_layout ?a ?b] =>
        let r := eval vm_compute in (frame_layout a b) in
        change (frame_layout a b) with r
    end;
    cbv iota; destruct (length bs =? _)%nat; reflexivity.
Qed.

End FrameFacts.

Section RoundTrip.

Import Struct.

Variable f : GsUsbFrame.t.
Variables hw fd : bool.
Hypothesis Hfits : fits_wire f fd.

Lemma payload_length :
  length (firstn (payload_size fd) (GsUsbFrame.data f)) = payload_size fd.
Proof.
  destruct Hfits as (_ & _ & _ & _ & _ & _ & Hlen & _).
  rewrite length_firstn. lia.
Qed.

Lemma wire_values_fit :
  Forall2 (fun c v => fits c v = true) (frame_layout hw fd) (wire_values f hw fd).
Proof.
  destruct Hfits as (He & Hc & Hd & Hch & Hfl & Hr & Hlen & Hbytes).
  assert (HI : forall v, 0 <= v < 2 ^ 32 -> fits I v = true).
  { intros v Hv. unfold fits. apply andb_true_iff.
    rewrite Z.leb_le, Z.ltb_lt. exact Hv. }
  assert (HB : forall v, 0 <= v < 256 -> fits B v = true).
  { intros v Hv. unfold fits. apply andb_true_iff.
    rewrite Z.leb_le, Z.ltb_lt. exact Hv. }
  unfold frame_layout, wire_values, GsUsbFrame.header.
  repeat (apply Forall2_cons; [solve [apply HI; assumption | apply HB; assumption]|]).
  apply Forall2_app.
  - rewrite <- payload_length at 1. apply Forall2_fits_B, Hbytes.
  - destruct hw; constructor; [|constructor].
    apply HI. change 0xFFFFFFFF with (Z.ones 32).
    rewrite Z.land_ones by lia. apply Z.mod_pos_bound. lia.
Qed.

(** The values read back from the encoding of [f] rebuild [decoded]. *)
Lemma frame_of_wire_values (frame0 : GsUsbFrame.t) :
  frame_of_values frame0 (wire_values f hw fd) hw fd = decoded f frame0 hw fd.
Proof.
  pose proof payload_length as Hp.
  unfold frame_of_values, wire_values, decoded, GsUsbFrame.slice, GsUsbFrame.header.
  assert (Hslice :
    firstn (payload_size fd)
      (firstn (payload_size fd) (GsUsbFrame.data f)
         ++ (if hw then [Z.land (GsUsbFrame.timestamp_us f) 0xFFFFFFFF] else []))
    = firstn (payload_size fd) (GsUsbFrame.data f)).
  { rewrite firstn_app, Hp, Nat.sub_diag, firstn_O, app_nil_r.
    rewrite <- Hp at 1. apply firstn_all. }
  assert (Hts :
    nth (payload_size fd)
      (firstn (payload_size fd) (GsUsbFrame.data f)
         ++ [Z.land (GsUsbFrame.timestamp_us f) 0xFFFFFFFF]) 0
    = Z.land (GsUsbFrame.timestamp_us f) 0xFFFFFFFF).
  { rewrite app_nth2 by lia. rewrite Hp, Nat.sub_diag. reflexivity. }
  destruct hw; unfold GsUsbFrame.set_timestamp_us, GsUsbFrame.set_data,
    GsUsbFrame.set_header; cbn [GsUsbFrame.echo_id GsUsbFrame.can_id
    GsUsbFrame.can_dlc GsUsbFrame.channel GsUsbFrame.flags GsUsbFrame.reserved
    GsUsbFrame.data GsUsbFrame.timestamp_us app nth skipn Nat.add];
    match goal with
    | |- context [firstn ?k (firstn _ _ ++ _)] =>
        replace k with (payload_size fd) by lia
    end;
    rewrite Hslice; rewrite ?Hts; reflexivity.
Qed.

(** Encoding then decoding, for any target frame. *)
Lemma pack_unpack_into (frame0 : GsUsbFrame.t) :
  exists bs,
    GsUsbFrame.pack f hw fd = Ok bs /\
    Z.of_nat (length bs) = GsUsbFrame.sizeof hw fd /\
    GsUsbFrame.unpack_into frame0 bs hw fd = Ok (decoded f frame0 hw fd).
Proof.
  destruct (pack_items_fits _ _ wire_values_fit) as [bs Hbs].
  destruct (pack_items_unpack _ _ _ Hbs) as [Hlen Hun].
  exists bs. split; [|split].
  - rewrite pack_layout. exact Hbs.
  - rewrite Hlen. apply calcsize_frame_layout.
  - rewrite unpack_into_layout, Hlen, Nat.eqb_refl, Hun.
    f_equal. apply frame_of_wire_values.
Qed.

End RoundTrip.

Section Decoding.

Import Struct.

(** The payload [unpack_into] stores, read off the received buffer. *)
Lemma frame_of_values_data (frame : GsUsbFrame.t) (bs : list byte) (hw fd : bool) :
  length bs = calcsize (frame_layout hw fd) ->
  GsUsbFrame.data
    (frame_of_values frame (unpack_items (frame_layout hw fd) bs) hw fd)
  = map byte.unsigned (firstn (payload_size fd) (skipn 12 bs))
      ++ repeat 0 (64 - payload_size fd).
Proof.
  intros Hlen.
  assert (Hn : (12 + payload_size fd <= length bs)%nat).
  { rewrite Hlen. unfold frame_layout.
    rewrite !calcsize_app, calcsize_repeat_B. simpl. lia. }
  assert (Hdata :
    GsUsbFrame.data
      (frame_of_values frame (unpack_items (frame_layout hw fd) bs) hw fd)
    = GsUsbFrame.slice (unpack_items (frame_layout hw fd) bs) 6 (6 + payload_size fd)
        ++ repeat 0 (64 - payload_size fd)).
  { unfold frame_of_values. destruct hw; reflexivity. }
  rewrite Hdata. f_equal.
  remember (skipn 12 bs) as payload eqn:Hpayload.
  assert (Hp : (payload_size fd <= length payload)%nat)
    by (subst payload; rewrite length_skipn; lia).
  unfold frame_layout, GsUsbFrame.slice.
  rewrite unpack_items_app.
  change (skipn (calcsize [I; I; B; B; B; B]) bs) with (skipn 12 bs).
  rewrite <- Hpayload.
  rewrite skipn_app, unpack_items_length.
  rewrite (skipn_all2 (unpack_items _ bs))
    by (rewrite unpack_items_length; simpl; lia).
  cbn [length Nat.sub app skipn].
  rewrite unpack_items_app, unpack_items_B by exact Hp.
  replace (6 + payload_size fd - 6)%nat with (payload_size fd) by lia.
  rewrite firstn_app, length_map, length_firstn.
  replace (payload_size fd - Nat.min (payload_size fd) (length payload))%nat
    with 0%nat by lia.
  rewrite firstn_O, app_nil_r.
  apply firstn_all2. rewrite length_map, length_firstn. lia.
Qed.

End Decoding.

(** ** The claims *)

(** C1, as stated, fails: a classic frame from the constructor has an
    8-entry data list and comes back from the classic layout with 64
    entries; a timestamp is not carried by a layout without the timestamp
    field; and the FD layouts refuse a frame with an 8-entry data list. *)
Lemma roundtrip_not_identity :
  length (GsUsbFrame.data classic_frame) = 8%nat /\
  rbind (GsUsbFrame.pack classic_frame false false)
    (fun bs => GsUsbFrame.unpack_into GsUsbFrame.empty bs false false)
  = Ok (GsUsbFrame.mk 0 0x80000123 3 0 0 0 ([1; 2; 3] ++ repeat 0 61) 0) /\
  rbind (GsUsbFrame.pack classic_frame false false)
    (fun bs => GsUsbFrame.unpack_into GsUsbFrame.empty bs false false)
  <> Ok classic_frame /\
  GsUsbFrame.timestamp_us stamped_frame = 5 /\
  rbind (GsUsbFrame.pack stamped_frame false false)
    (fun bs =>
       rbind (GsUsbFrame.unpack_into GsUsbFrame.empty bs false false)
         (fun frame' => Ok (GsUsbFrame.timestamp_us frame')))
  = Ok 0 /\
  GsUsbFrame.pack classic_frame false true = Raise StructError /\
  GsUsbFrame.pack classic_frame true true = Raise StructError.
Proof.
  repeat split; try (vm_compute; reflexivity); vm_compute; discriminate.
Qed.

(** C1 (amended): for every frame whose header values are in the range of
    their wire fields and whose data list has a byte for each payload
    position of the layout, and for each of the four layouts, [pack]
    succeeds with 20, 24, 76 or 80 bytes and [unpack_into] on them gives the
    target the six header fields of the frame, the first 8 (classic) or 64
    (FD) data bytes padded with zeros to 64 entries, and the timestamp
    reduced to 32 bits when the layout has the field, the target's own
    timestamp otherwise.  The result is the original frame exactly when its
    data list already is that padded list and its timestamp is a 32-bit
    value (with the field) or the target's (without). *)
Theorem frame_roundtrip (f frame0 : GsUsbFrame.t) (hw_timestamp fd_mode : bool) :
  fits_wire f fd_mode ->
  exists bs,
    GsUsbFrame.pack f hw_timestamp fd_mode = Ok bs /\
    Z.of_nat (length bs) = GsUsbFrame.sizeof hw_timestamp fd_mode /\
    GsUsbFrame.unpack_into frame0 bs hw_timestamp fd_mode
    = Ok (decoded f frame0 hw_timestamp fd_mode) /\
    (decoded f frame0 hw_timestamp fd_mode = f <->
     GsUsbFrame.data f
     = firstn (payload_size fd_mode) (GsUsbFrame.data f)
         ++ repeat 0 (64 - payload_size fd_mode) /\
     if hw_timestamp then 0 <= GsUsbFrame.timestamp_us f < 2 ^ 32
     else GsUsbFrame.timestamp_us frame0 = GsUsbFrame.timestamp_us f).
Proof.
  intros Hfits.
  destruct (pack_unpack_into f hw_timestamp fd_mode Hfits frame0)
    as (bs & Hpack & Hlen & Hunpack).
  exists bs.
  split; [exact Hpack | split; [exact Hlen | split; [exact Hunpack|]]].
  split.
  - intros H. split.
    + rewrite <- H at 1. reflexivity.
    + apply (f_equal GsUsbFrame.timestamp_us) in H.
      cbn [decoded GsUsbFrame.timestamp_us] in H.
      destruct hw_timestamp; [|exact H].
      rewrite <- H. change 0xFFFFFFFF with (Z.ones 32).
      rewrite Z.land_ones by lia. apply Z.mod_pos_bound. lia.
  - intros [Hdata Hts]. unfold decoded. rewrite <- Hdata.
    assert (Hts' :
      (if hw_timestamp then Z.land (GsUsbFrame.timestamp_us f) 0xFFFFFFFF
       else GsUsbFrame.timestamp_us frame0) = GsUsbFrame.timestamp_us f).
    { destruct hw_timestamp; [|exact Hts].
      change 0xFFFFFFFF with (Z.ones 32).
      rewrite Z.land_ones by lia. apply Z.mod_small. exact Hts. }
    rewrite Hts'. destruct f; reflexivity.
Qed.

(** The amended C1 at a full FD frame, timestamp layout, fresh target. *)
Lemma frame_roundtrip_witness :
  fits_wire fd_frame true /\
  exists bs,
    GsUsbFrame.pack fd_frame true true = Ok bs /\
    Z.of_nat (length bs) = GsUsbFrame.sizeof true true /\
    GsUsbFrame.unpack_into GsUsbFrame.empty bs true true
    = Ok (decoded fd_frame GsUsbFrame.empty true true) /\
    (decoded fd_frame GsUsbFrame.empty true true = fd_frame <->
     GsUsbFrame.data fd_frame
     = firstn (payload_size true) (GsUsbFrame.data fd_frame)
         ++ repeat 0 (64 - payload_size true) /\
     0 <= GsUsbFrame.timestamp_us fd_frame < 2 ^ 32).
Proof.
  assert (H : fits_wire fd_frame true).
  { unfold fits_wire. vm_compute.
    repeat split; try discriminate; try (apply le_n);
      repeat constructor; discriminate. }
  split; [exact H|].
  exact (frame_roundtrip fd_frame GsUsbFrame.empty true true H).
Defined.

(** C10: after a successful [unpack_into], in each of the four layouts, the
    frame's data is a list of exactly 64 byte values: the 64 payload bytes of
    the buffer in the FD layouts, its 8 payload bytes followed by 56 zeros in
    the classic layouts. *)
Theorem unpack_into_data_64 (frame frame' : GsUsbFrame.t) (bs : list byte)
    (hw_timestamp fd_mode : bool) :
  GsUsbFrame.unpack_into frame bs hw_timestamp fd_mode = Ok frame' ->
  length (GsUsbFrame.data frame') = 64%nat /\
  Forall (fun b => 0 <= b < 256) (GsUsbFrame.data frame') /\
  GsUsbFrame.data frame'
  = if fd_mode then map byte.unsigned (firstn 64 (skipn 12 bs))
    else map byte.unsigned (firstn 8 (skipn 12 bs)) ++ repeat 0 56.
Proof.
  intros H. rewrite unpack_into_layout in H.
  destruct (length bs =? Struct.calcsize (frame_layout hw_timestamp fd_mode))%nat
    eqn:Hsize; [|discriminate].
  apply Nat.eqb_eq in Hsize.
  assert (Hframe :
    frame' = frame_of_values frame
               (Struct.unpack_items (frame_layout hw_timestamp fd_mode) bs)
               hw_timestamp fd_mode) by congruence.
  rewrite Hframe, (frame_of_values_data frame bs hw_timestamp fd_mode Hsize).
  assert (Hn : (12 + payload_size fd_mode <= length bs)%nat).
  { rewrite Hsize. unfold frame_layout.
    rewrite !calcsize_app, calcsize_repeat_B. simpl. lia. }
  split; [|split].
  - rewrite length_app, length_map, length_firstn, length_skipn, repeat_length.
    destruct fd_mode; cbn [payload_size] in *; lia.
  - apply Forall_app. split.
    + apply Forall_forall. intros v Hv. apply in_map_iff in Hv.
      destruct Hv as (b & <- & _). apply byte.unsigned_range.
    + apply Forall_forall. intros v Hv. apply repeat_spec in Hv. lia.
  - destruct fd_mode; cbn [payload_size Nat.sub repeat];
      [apply app_nil_r | reflexivity].
Qed.

(** C10 at the classic echo buffer. *)
Lemma unpack_into_data_64_witness :
  GsUsbFrame.unpack_into GsUsbFrame.empty classic_echo_bytes false false
  = Ok (decoded classic_frame GsUsbFrame.empty false false) /\
  length (GsUsbFrame.data (decoded classic_frame GsUsbFrame.empty false false))
  = 64%nat /\
  Forall (fun b => 0 <= b < 256)
    (GsUsbFrame.data (decoded classic_frame GsUsbFrame.empty false false)) /\
  GsUsbFrame.data (decoded classic_frame GsUsbFrame.empty false false)
  = map byte.unsigned (firstn 8 (skipn 12 classic_echo_bytes)) ++ repeat 0 56.
Proof.
  assert (H : GsUsbFrame.unpack_into GsUsbFrame.empty classic_echo_bytes false false
              = Ok (decoded classic_frame GsUsbFrame.empty false false))
    by (vm_compute; reflexivity).
  split; [exact H|].
  exact (unpack_into_data_64 GsUsbFrame.empty
           (decoded classic_frame GsUsbFrame.empty false false)
           classic_echo_bytes false false H).
Defined.

(** ** DLC and length *)

(** The loop stops at the first table entry that is at least [len], and
    falls through only when every entry is smaller. *)
Lemma len_to_dlc_loop_first (len : Z) (table : list Z) :
  forall start,
    match len_to_dlc_loop len start table with
    | Some dlc =>
        exists i, dlc = start + Z.of_nat i /\ (i < length table)%nat /\
                  len <= nth i table 0 /\
                  forall j, (j < i)%nat -> nth j table 0 < len
    | None => forall j, (j < length table)%nat -> nth j table 0 < len
    end.
Proof.
  induction table as [|dlen rest IH]; intros start; cbn [len_to_dlc_loop].
  - intros j Hj. simpl in Hj. lia.
  - rewrite Z.geb_leb. destruct (Z.leb_spec len dlen) as [Hle|Hgt].
    + exists 0%nat. cbn [nth length]. repeat split; try lia.
    + specialize (IH (start + 1)).
      destruct (len_to_dlc_loop len (start + 1) rest) as [dlc|].
      * destruct IH as (i & -> & Hi & Hnth & Hsmall).
        exists (S i). cbn [nth length]. repeat split; try lia.
        intros [|j] Hj; [exact Hgt | apply Hsmall; lia].
      * intros [|j] Hj; [exact Hgt | apply IH; simpl in Hj; lia].
Qed.

(** C2: for every length from 0 to 64, [len_to_dlc(length, fd=True)] is the
    smallest index of the table [0,1,2,3,4,5,6,7,8,12,16,20,24,32,48,64]
    whose entry is at least the length; for every length above 64 it is 15;
    and for every DLC d from 0 to 15, [dlc_to_len(d, True)] is entry d of
    that table and [len_to_dlc(dlc_to_len(d, True), True) = d].  Lengths 9,
    64 and 65 give DLC 9, 15 and 15. *)
Theorem len_to_dlc_fd_ceiling :
  let table := [0; 1; 2; 3; 4; 5; 6; 7; 8; 12; 16; 20; 24; 32; 48; 64] in
  (forall len, 0 <= len <= 64 ->
     exists i, len_to_dlc len true = Z.of_nat i /\ (i < 16)%nat /\
               len <= nth i table 0 /\
               forall j, (j < i)%nat -> nth j table 0 < len) /\
  (forall len, 64 < len -> len_to_dlc len true = 15) /\
  (forall d, 0 <= d <= 15 ->
     dlc_to_len d true = Ok (nth (Z.to_nat d) table 0) /\
     len_to_dlc (nth (Z.to_nat d) table 0) true = d) /\
  len_to_dlc 9 true = 9 /\ len_to_dlc 12 true = 9 /\ len_to_dlc 13 true = 10 /\
  len_to_dlc 64 true = 15 /\ len_to_dlc 65 true = 15.
Proof.
  intros table.
  assert (Htable : Constants.CANFD_DLC_TO_LEN = table) by reflexivity.
  split; [|split; [|split]].
  - intros len Hlen. unfold len_to_dlc.
    pose proof (len_to_dlc_loop_first len Constants.CANFD_DLC_TO_LEN 0) as H.
    destruct (len_to_dlc_loop len 0 Constants.CANFD_DLC_TO_LEN) as [dlc|].
    + destruct H as (i & -> & Hi & Hnth & Hsmall). rewrite Htable in *.
      exists i. repeat split; assumption.
    + specialize (H 15%nat). cbn in H. lia.
  - intros len Hlen. unfold len_to_dlc.
    pose proof (len_to_dlc_loop_first len Constants.CANFD_DLC_TO_LEN 0) as H.
    destruct (len_to_dlc_loop len 0 Constants.CANFD_DLC_TO_LEN) as [dlc|];
      [|reflexivity].
    destruct H as (i & _ & Hi & Hnth & _). exfalso.
    cbn [length Constants.CANFD_DLC_TO_LEN] in Hi.
    do 16 (destruct i as [|i]; [cbn in Hnth; lia|]). lia.
  - intros d Hd.
    assert (H : In d [0; 1; 2; 3; 4; 5; 6; 7; 8; 9; 10; 11; 12; 13; 14; 15])
      by (simpl; lia).
    simpl in H.
    repeat (destruct H as [<-|H]; [split; reflexivity|]).
    contradiction.
  - repeat split.
Qed.

(** C2 at length 13 (DLC 10, 16 bytes), length 100 and DLC 12 (24 bytes). *)
Lemma len_to_dlc_fd_ceiling_witness :
  (exists i, len_to_dlc 13 true = Z.of_nat i /\ (i < 16)%nat /\
             13 <= nth i [0; 1; 2; 3; 4; 5; 6; 7; 8; 12; 16; 20; 24; 32; 48; 64] 0 /\
             forall j, (j < i)%nat ->
               nth j [0; 1; 2; 3; 4; 5; 6; 7; 8; 12; 16; 20; 24; 32; 48; 64] 0 < 13) /\
  len_to_dlc 100 true = 15 /\
  dlc_to_len 12 true = Ok 24 /\ len_to_dlc 24 true = 12.
Proof.
  destruct len_to_dlc_fd_ceiling as (Hceil & Hclamp & Hinv & _).
  split; [|split].
  - apply (Hceil 13). lia.
  - apply (Hclamp 100). lia.
  - apply (Hinv 12). lia.
Defined.

(** ** Identifier flags *)

(** Masking with a single flag keeps that flag or nothing. *)
Lemma land_pow2 (x k : Z) :
  0 <= k -> Z.land x (2 ^ k) = if Z.testbit x k then 2 ^ k else 0.
Proof.
  intros Hk. apply Z.bits_inj'. intros n Hn.
  rewrite Z.land_spec, Z.pow2_bits_eqb by exact Hk.
  destruct (Z.eqb_spec k n) as [->|Hne].
  - destruct (Z.testbit x n); [|now rewrite Z.bits_0].
    now rewrite Z.pow2_bits_true.
  - rewrite andb_false_r.
    destruct (Z.testbit x k); [|now rewrite Z.bits_0].
    rewrite Z.pow2_bits_eqb by exact Hk. symmetry. now apply Z.eqb_neq.
Qed.

(** Testing a flag with [&] reads one bit. *)
Lemma land_pow2_testbit (x k : Z) :
  0 <= k -> negb (Z.land x (2 ^ k) =? 0) = Z.testbit x k.
Proof.
  intros Hk. rewrite land_pow2 by exact Hk.
  assert (0 < 2 ^ k) by (apply Z.pow_pos_nonneg; lia).
  destruct (Z.testbit x k); [|reflexivity].
  apply negb_true_iff, Z.eqb_neq. lia.
Qed.

Lemma land_pow2_eqb (x k : Z) :
  0 <= k -> (Z.land x (2 ^ k) =? 2 ^ k) = Z.testbit x k.
Proof.
  intros Hk. rewrite land_pow2 by exact Hk.
  assert (0 < 2 ^ k) by (apply Z.pow_pos_nonneg; lia).
  destruct (Z.testbit x k); [apply Z.eqb_refl | apply Z.eqb_neq; lia].
Qed.

(** C3, as stated, fails: with the extended bit clear the identifier is
    still masked to 29 bits, not to 11. *)
Lemma arbitration_id_not_masked_to_11_bits :
  GsUsbFrame.is_extended_id wide_standard_frame = false /\
  GsUsbFrame.arbitration_id wide_standard_frame = 0x12345 /\
  Z.land (GsUsbFrame.can_id wide_standard_frame) Constants.CAN_SFF_MASK = 0x345 /\
  GsUsbFrame.arbitration_id wide_standard_frame
  <> Z.land (GsUsbFrame.can_id wide_standard_frame) Constants.CAN_SFF_MASK.
Proof. repeat split. vm_compute. discriminate. Qed.

(** C3 (amended): for every can_id, the frame is extended iff bit 31 is
    set, a remote request iff bit 30 is set, an error frame iff bit 29 is
    set, and the arbitration value is the low 29 bits of can_id whether or
    not the extended bit is set.  0x80000123 gives 0x123 with the extended
    flag, 0x40000123 gives 0x123 with the remote flag. *)
Theorem can_id_flags (f : GsUsbFrame.t) :
  GsUsbFrame.is_extended_id f = Z.testbit (GsUsbFrame.can_id f) 31 /\
  GsUsbFrame.is_remote_frame f = Z.testbit (GsUsbFrame.can_id f) 30 /\
  GsUsbFrame.is_error_frame f = Z.testbit (GsUsbFrame.can_id f) 29 /\
  GsUsbFrame.arbitration_id f = GsUsbFrame.can_id f mod 2 ^ 29 /\
  (GsUsbFrame.arbitration_id (GsUsbFrame.init 0x80000123 [] false false) = 0x123 /\
   GsUsbFrame.is_extended_id (GsUsbFrame.init 0x80000123 [] false false) = true) /\
  (GsUsbFrame.arbitration_id (GsUsbFrame.init 0x40000123 [] false false) = 0x123 /\
   GsUsbFrame.is_remote_frame (GsUsbFrame.init 0x40000123 [] false false) = true).
Proof.
  unfold GsUsbFrame.is_extended_id, GsUsbFrame.is_remote_frame,
    GsUsbFrame.is_error_frame, GsUsbFrame.arbitration_id.
  change Constants.CAN_EFF_FLAG with (2 ^ 31).
  change Constants.CAN_RTR_FLAG with (2 ^ 30).
  change Constants.CAN_ERR_FLAG with (2 ^ 29).
  change Constants.CAN_EFF_MASK with (Z.ones 29).
  rewrite !land_pow2_testbit by lia.
  rewrite Z.land_ones by lia.
  repeat split.
Qed.

(** ** The driver *)

Section MonadFacts.

Import GsUsb.

Lemma bind_ok {A B : Type} (m : M A) (k : A -> M B) (w w1 : world) (a : A) :
  m w = (Ok a, w1) -> bind m k w = k a w1.
Proof. intros H. unfold bind. now rewrite H. Qed.

Lemma bind_raise {A B : Type} (m : M A) (k : A -> M B) (w w1 : world) (e : exn) :
  m w = (Raise e, w1) -> bind m k w = (Raise e, w1).
Proof. intros H. unfold bind. now rewrite H. Qed.

Lemma bind_inv_ok {A B : Type} (m : M A) (k : A -> M B) (w w' : world) (b : B) :
  bind m k w = (Ok b, w') ->
  exists a w1, m w = (Ok a, w1) /\ k a w1 = (Ok b, w').
Proof.
  unfold bind. destruct (m w) as [[a|e] w1]; intros H.
  - now exists a, w1.
  - discriminate.
Qed.

(** A transport call leaves the attributes alone and extends the trace by
    itself. *)
Lemma transport_inv {A : Type} (c : usb_call)
    (answer : list usb_call -> result A) (w w' : world) (r : result A) :
  transport c answer w = (r, w') ->
  r = answer (trace w) /\ self w' = self w /\ trace w' = trace w ++ [c].
Proof. unfold transport. intros H. injection H as <- <-. now repeat split. Qed.

Variable gs_usb : UsbDevice.

(** Once cached, the capability is served without a transfer. *)
Lemma device_capability_cached (w : world) (cap : DeviceCapability.t) :
  capability (self w) = Some cap ->
  device_capability gs_usb w = (Ok cap, w).
Proof.
  intros H. unfold device_capability, bind, get_self. now rewrite H.
Qed.

(** A successful access leaves the capability cached and touches nothing
    else; the only transfer it can issue is BT_CONST, on a session that has
    no capability yet. *)
Lemma device_capability_ok (w w1 : world) (cap : DeviceCapability.t) :
  device_capability gs_usb w = (Ok cap, w1) ->
  capability (self w1) = Some cap /\
  device_flags (self w1) = device_flags (self w) /\
  fd_mode (self w1) = fd_mode (self w) /\
  (w1 = w \/
   capability (self w) = None /\
   trace w1 = trace w ++ [CtrlTransferIn 0xC1 _GS_USB_BREQ_BT_CONST 0 0 40]).
Proof.
  unfold device_capability, bind, get_self.
  destruct (capability (self w)) as [c|] eqn:Hc.
  - unfold ret. intros H. injection H as -> ->. now repeat split; auto.
  - unfold ctrl_transfer_in, transport, lift, set_capability, bind, get_self,
      put_self, ret.
    destruct (on_ctrl_in gs_usb (trace w) 193 _GS_USB_BREQ_BT_CONST 0 0 40)
      as [data|e]; [|discriminate].
    destruct (DeviceCapability.unpack data) as [c|e]; [|discriminate].
    cbn [self trace]. intros H. injection H as -> <-. cbn [self trace].
    now repeat split; auto.
Qed.

Lemma device_capability_again (w w1 : world) (cap : DeviceCapability.t) :
  device_capability gs_usb w = (Ok cap, w1) ->
  device_capability gs_usb w1 = (Ok cap, w1).
Proof.
  intros H. apply device_capability_cached.
  now destruct (device_capability_ok _ _ _ H) as (Hc & _).
Qed.

End MonadFacts.

(** ** start: the effective mode flags *)

Lemma driver_supported_mask_bits (i : Z) :
  Z.testbit driver_supported_mask i = true <-> In i [0; 1; 3; 4; 8].
Proof.
  change driver_supported_mask with 283. split.
  - intros H.
    destruct (Z.lt_ge_cases i 0) as [Hneg|Hpos].
    { rewrite Z.testbit_neg_r in H by exact Hneg. discriminate. }
    destruct (Z.lt_ge_cases 8 i) as [Hbig|Hsmall].
    { rewrite Z.bits_above_log2 in H; [discriminate | lia | exact Hbig]. }
    assert (Hi : In i [0; 1; 2; 3; 4; 5; 6; 7; 8]) by (simpl; lia).
    simpl in Hi.
    repeat (destruct Hi as [<-|Hi]; [first [discriminate H | simpl; tauto]|]).
    contradiction.
  - simpl. intros [<-|[<-|[<-|[<-|[<-|[]]]]]]; reflexivity.
Qed.

Lemma land_driver_supported_mask_range (x : Z) :
  0 <= Z.land x driver_supported_mask < 2 ^ 32.
Proof.
  change driver_supported_mask with (Z.land 283 (Z.ones 9)).
  rewrite Z.land_assoc, Z.land_ones by lia.
  pose proof (Z.mod_pos_bound (Z.land x 283) (2 ^ 9)). lia.
Qed.

(** The MODE payload: two little-endian 32-bit words. *)
Lemma DeviceMode_pack (mode flags : Z) :
  0 <= mode < 2 ^ 32 -> 0 <= flags < 2 ^ 32 ->
  DeviceMode.pack (DeviceMode.mk mode flags)
  = Ok (le_split 4 mode ++ le_split 4 flags).
Proof.
  intros Hm Hf. unfold DeviceMode.pack, Struct.pack.
  change (Struct.parse_format "<II") with (Some [Struct.I; Struct.I]).
  cbn [Struct.pack_items DeviceMode.mode DeviceMode.flags].
  assert (HI : forall v, 0 <= v < 2 ^ 32 -> Struct.fits Struct.I v = true).
  { intros v Hv. unfold Struct.fits. apply andb_true_iff.
    rewrite Z.leb_le, Z.ltb_lt. exact Hv. }
  rewrite (HI _ Hm), (HI _ Hf). cbn [rbind Struct.code_size].
  now rewrite app_nil_r.
Qed.

(** A capability fetched by the access is the decoding of the device's
    answer to BT_CONST. *)
Lemma device_capability_fetch (dev : UsbDevice) (w w1 : GsUsb.world)
    (cap : DeviceCapability.t) :
  GsUsb.device_capability dev w = (Ok cap, w1) ->
  GsUsb.capability (GsUsb.self w) = None ->
  exists data,
    on_ctrl_in dev (GsUsb.trace w) 0xC1 4 0 0 40 = Ok data /\
    DeviceCapability.unpack data = Ok cap /\
    GsUsb.trace w1 = GsUsb.trace w ++ [CtrlTransferIn 0xC1 4 0 0 40].
Proof.
  unfold GsUsb.device_capability, GsUsb.bind, GsUsb.get_self.
  intros H Hnone. rewrite Hnone in H.
  unfold GsUsb.ctrl_transfer_in, GsUsb.transport, GsUsb.lift,
    GsUsb.set_capability, GsUsb.bind, GsUsb.get_self, GsUsb.put_self,
    GsUsb.ret in H.
  change GsUsb._GS_USB_BREQ_BT_CONST with 4 in H.
  destruct (on_ctrl_in dev (GsUsb.trace w) 193 4 0 0 40) as [data|e];
    [|discriminate].
  destruct (DeviceCapability.unpack data) as [c|e] eqn:Hunpack; [|discriminate].
  cbn [GsUsb.self GsUsb.trace] in H. injection H as -> <-.
  exists data. now repeat split.
Qed.

(** The feature word of a decoded BT_CONST answer is its first
    little-endian 32-bit word, and the answer has 40 bytes. *)
Lemma DeviceCapability_unpack_feature (data : list byte) (cap : DeviceCapability.t) :
  DeviceCapability.unpack data = Ok cap ->
  length data = 40%nat /\
  DeviceCapability.feature cap = le_combine (firstn 4 data).
Proof.
  unfold DeviceCapability.unpack, Struct.unpack.
  change (Struct.parse_format "<10I") with (Some (repeat Struct.I 10)).
  cbv beta iota.
  destruct (Nat.eqb_spec (length data) (Struct.calcsize (repeat Struct.I 10)))
    as [Hlen|]; [|discriminate].
  cbn [rbind]. intros H. injection H as <-. split; [exact Hlen | reflexivity].
Qed.

(** C4: when [start] returns, the flags it recorded in [device_flags] and
    sent in the MODE transfer (request 2, mode 1) are
    requested & features & 0x11B.  The features are the feature word of the
    capability the session held before the call or, when it held none, the
    first 32-bit word of the 40 bytes the device answered to the BT_CONST
    transfer (request 4) that [start] issued just before MODE.  The driver
    mask 0x11B is exactly bits 0 (listen-only), 1 (loop-back), 3 (one-shot),
    4 (hardware timestamp) and 8 (FD); the order of the two masks does not
    matter, and every flag forwarded was requested, is a device feature and
    is in the driver mask. *)
Theorem start_effective_flags (windows : bool) (dev : UsbDevice) (requested : Z)
    (w w' : GsUsb.world) :
  GsUsb.start windows dev requested w = (Ok tt, w') ->
  exists cap pre,
    GsUsb.capability (GsUsb.self w') = Some cap /\
    (GsUsb.capability (GsUsb.self w) = Some cap \/
     GsUsb.capability (GsUsb.self w) = None /\
     exists before data,
       pre = before ++ [CtrlTransferIn 0xC1 4 0 0 40] /\
       on_ctrl_in dev before 0xC1 4 0 0 40 = Ok data /\
       length data = 40%nat /\
       DeviceCapability.feature cap = le_combine (firstn 4 data)) /\
    let eff := Z.land (Z.land requested (DeviceCapability.feature cap)) 0x11B in
    GsUsb.device_flags (GsUsb.self w') = eff /\
    GsUsb.fd_mode (GsUsb.self w') = Z.testbit eff 8 /\
    GsUsb.trace w'
    = pre ++ [CtrlTransferOut 0x41 2 0 0 (le_split 4 1 ++ le_split 4 eff)] /\
    eff = Z.land (Z.land requested 0x11B) (DeviceCapability.feature cap) /\
    (forall i, Z.testbit eff i = true ->
       Z.testbit requested i = true /\
       Z.testbit (DeviceCapability.feature cap) i = true /\
       In i [0; 1; 3; 4; 8]) /\
    (forall i, Z.testbit 0x11B i = true <-> In i [0; 1; 3; 4; 8]).
Proof.
  unfold GsUsb.start. intros H.
  apply bind_inv_ok in H as ([] & w1 & Hreset & H).
  apply bind_inv_ok in H as ([] & w2 & Hkernel & H).
  apply bind_inv_ok in H as (cap & w3 & Hcap & H).
  fold driver_supported_mask in H.
  change 0x11B with driver_supported_mask.
  set (eff := Z.land (Z.land requested (DeviceCapability.feature cap))
                driver_supported_mask) in *.
  pose proof (land_driver_supported_mask_range
                (Z.land requested (DeviceCapability.feature cap))) as Hrange.
  fold eff in Hrange.
  (* the attributes are untouched up to the capability access *)
  assert (Hself1 : GsUsb.self w1 = GsUsb.self w).
  { now destruct (transport_inv _ _ _ _ _ Hreset) as (_ & Hs & _). }
  assert (Hself2 : GsUsb.self w2 = GsUsb.self w1).
  { destruct windows; cbn [negb] in Hkernel.
    - unfold GsUsb.ret in Hkernel. now injection Hkernel as <-.
    - apply bind_inv_ok in Hkernel as (active & w1' & Hactive & Hdetach).
      destruct (transport_inv _ _ _ _ _ Hactive) as (_ & Hs1 & _).
      destruct active.
      + destruct (transport_inv _ _ _ _ _ Hdetach) as (_ & Hs2 & _). congruence.
      + unfold GsUsb.ret in Hdetach. injection Hdetach as <-. exact Hs1. }
  destruct (device_capability_ok dev _ _ _ Hcap) as (Hcached & _ & _ & _).
  (* the rest of the method runs on [w3] *)
  unfold GsUsb.bind at 1, GsUsb.set_device_flags, GsUsb.bind at 1,
    GsUsb.get_self, GsUsb.put_self in H.
  unfold GsUsb.bind at 1, GsUsb.set_fd_mode, GsUsb.bind at 1,
    GsUsb.get_self, GsUsb.put_self in H.
  cbn [GsUsb.self GsUsb.trace GsUsb.capability GsUsb.device_flags GsUsb.fd_mode] in H.
  rewrite DeviceMode_pack in H by (unfold GsUsb.GS_CAN_MODE_START; lia).
  unfold GsUsb.bind at 1, GsUsb.lift in H.
  destruct (transport_inv _ _ _ _ _ H) as (_ & Hs' & Ht').
  cbn [GsUsb.self GsUsb.trace] in Hs', Ht'.
  exists cap, (GsUsb.trace w3). rewrite Hs', Ht'.
  cbn [GsUsb.capability GsUsb.device_flags GsUsb.fd_mode].
  split; [exact Hcached|]. split.
  { destruct (GsUsb.capability (GsUsb.self w)) as [c|] eqn:Hc.
    - left.
      assert (Hc2 : GsUsb.capability (GsUsb.self w2) = Some c) by congruence.
      rewrite (device_capability_cached dev _ _ Hc2) in Hcap. congruence.
    - right. split; [reflexivity|].
      assert (Hc2 : GsUsb.capability (GsUsb.self w2) = None) by congruence.
      destruct (device_capability_fetch dev _ _ _ Hcap Hc2)
        as (data & Hanswer & Hunpack & Ht3).
      destruct (DeviceCapability_unpack_feature _ _ Hunpack) as [Hlen Hfeature].
      exists (GsUsb.trace w2), data. now repeat split. }
  split; [reflexivity|]. split.
  { change Constants.GS_CAN_MODE_FD with (2 ^ 8). apply land_pow2_eqb. lia. }
  split; [reflexivity|]. split.
  { unfold eff. rewrite <- !Z.land_assoc. f_equal. apply Z.land_comm. }
  split; [|exact driver_supported_mask_bits].
  intros i Hi. unfold eff in Hi. rewrite !Z.land_spec, !andb_true_iff in Hi.
  destruct Hi as [[Hreq Hfeat] Hmask].
  repeat split; try assumption. now apply driver_supported_mask_bits.
Qed.

(** C4 on a fresh session, every mode flag requested (0xFFFF): a device
    that answers BT_CONST with the features 0x101 (listen-only and FD) gets
    0x101 recorded and sent, after the BT_CONST transfer whose answer starts
    with the word 0x101; a device with the features 0x3FFF gets the five
    driver flags 0x11B. *)
Lemma start_effective_flags_witness :
  GsUsb.start false listen_fd_device 0xFFFF fresh = (Ok tt, listen_fd_session) /\
  GsUsb.device_flags (GsUsb.self listen_fd_session) = 0x101 /\
  GsUsb.fd_mode (GsUsb.self listen_fd_session) = true /\
  GsUsb.trace listen_fd_session
  = [DevReset; DevIsKernelDriverActive 0; DevDetachKernelDriver 0;
     CtrlTransferIn 0xC1 4 0 0 40;
     CtrlTransferOut 0x41 2 0 0
       [Byte.x01; Byte.x00; Byte.x00; Byte.x00;
        Byte.x01; Byte.x01; Byte.x00; Byte.x00]] /\
  on_ctrl_in listen_fd_device
    [DevReset; DevIsKernelDriverActive 0; DevDetachKernelDriver 0] 0xC1 4 0 0 40
  = Ok (bt_const_bytes 0x101 80000000) /\
  le_combine (firstn 4 (bt_const_bytes 0x101 80000000)) = 0x101 /\
  GsUsb.start false full_device 0xFFFF fresh = (Ok tt, started_session) /\
  GsUsb.device_flags (GsUsb.self started_session) = 0x11B /\
  GsUsb.trace started_session
  = [DevReset; DevIsKernelDriverActive 0; DevDetachKernelDriver 0;
     CtrlTransferIn 0xC1 4 0 0 40;
     CtrlTransferOut 0x41 2 0 0 (le_split 4 1 ++ le_split 4 0x11B)] /\
  exists cap pre,
    GsUsb.capability (GsUsb.self listen_fd_session) = Some cap /\
    (GsUsb.capability (GsUsb.self fresh) = Some cap \/
     GsUsb.capability (GsUsb.self fresh) = None /\
     exists before data,
       pre = before ++ [CtrlTransferIn 0xC1 4 0 0 40] /\
       on_ctrl_in listen_fd_device before 0xC1 4 0 0 40 = Ok data /\
       length data = 40%nat /\
       DeviceCapability.feature cap = le_combine (firstn 4 data)) /\
    let eff := Z.land (Z.land 0xFFFF (DeviceCapability.feature cap)) 0x11B in
    GsUsb.device_flags (GsUsb.self listen_fd_session) = eff /\
    GsUsb.fd_mode (GsUsb.self listen_fd_session) = Z.testbit eff 8 /\
    GsUsb.trace listen_fd_session
    = pre ++ [CtrlTransferOut 0x41 2 0 0 (le_split 4 1 ++ le_split 4 eff)] /\
    eff = Z.land (Z.land 0xFFFF 0x11B) (DeviceCapability.feature cap) /\
    (forall i, Z.testbit eff i = true ->
       Z.testbit 0xFFFF i = true /\
       Z.testbit (DeviceCapability.feature cap) i = true /\
       In i [0; 1; 3; 4; 8]) /\
    (forall i, Z.testbit 0x11B i = true <-> In i [0; 1; 3; 4; 8]).
Proof.
  assert (H : GsUsb.start false listen_fd_device 0xFFFF fresh
              = (Ok tt, listen_fd_session))
    by (vm_compute; reflexivity).
  split; [exact H|].
  do 8 (split; [vm_compute; reflexivity|]).
  exact (start_effective_flags false listen_fd_device 0xFFFF fresh
           listen_fd_session H).
Defined.

(** ** Bit timing *)

Section BitTiming.

Import GsUsb.

Variable gs_usb : UsbDevice.

(** A bitrate the table does not list falls through every test of the
    chain. *)
Ltac unlisted H :=
  repeat match goal with
         | |- context [?b =? ?c] =>
             destruct (Z.eqb_spec b c) as [->|_];
             [exfalso; apply H; simpl; tauto|]
         end;
  reflexivity.

Lemma set_bitrate_48MHz_unlisted (bitrate prop_seg sjw : Z) (w : world) :
  ~ In bitrate nominal_bitrates ->
  set_bitrate_48MHz gs_usb bitrate prop_seg sjw w = (Ok false, w).
Proof. intros H. unfold set_bitrate_48MHz. unlisted H. Qed.

Lemma set_bitrate_80MHz_unlisted (bitrate prop_seg sjw : Z) (w : world) :
  ~ In bitrate nominal_bitrates ->
  set_bitrate_80MHz gs_usb bitrate prop_seg sjw w = (Ok false, w).
Proof. intros H. unfold set_bitrate_80MHz. unlisted H. Qed.

Lemma set_bitrate_40MHz_unlisted (bitrate prop_seg sjw : Z) (w : world) :
  ~ In bitrate nominal_bitrates ->
  set_bitrate_40MHz gs_usb bitrate prop_seg sjw w = (Ok false, w).
Proof. intros H. unfold set_bitrate_40MHz. unlisted H. Qed.

Lemma set_data_bitrate_80MHz_unlisted (bitrate prop_seg sjw : Z) (w : world) :
  ~ In bitrate data_bitrates_80MHz ->
  set_data_bitrate_80MHz gs_usb bitrate prop_seg sjw w = (Ok false, w).
Proof. intros H. unfold set_data_bitrate_80MHz. unlisted H. Qed.

Lemma set_data_bitrate_40MHz_unlisted (bitrate prop_seg sjw : Z) (w : world) :
  ~ In bitrate data_bitrates_40MHz ->
  set_data_bitrate_40MHz gs_usb bitrate prop_seg sjw w = (Ok false, w).
Proof. intros H. unfold set_data_bitrate_40MHz. unlisted H. Qed.

(** [set_bitrate] without a table entry: [False], and nothing beyond the
    capability access has happened. *)
Lemma set_bitrate_unsupported (bitrate : Z) (sample_point : Q)
    (w w1 : world) (cap : DeviceCapability.t) :
  device_capability gs_usb w = (Ok cap, w1) ->
  ~ In (DeviceCapability.fclk_can cap) [48000000; 80000000; 40000000] \/
  ~ (sample_point == sample_point_87_5)%Q \/
  ~ In bitrate nominal_bitrates ->
  set_bitrate gs_usb bitrate sample_point w = (Ok false, w1).
Proof.
  intros Hcap Hno.
  pose proof (device_capability_again gs_usb _ _ _ Hcap) as Hagain.
  assert (Hlisted :
    forall clk,
      (DeviceCapability.fclk_can cap =? clk)
        && Qeq_bool sample_point sample_point_87_5 = true ->
      In clk [48000000; 80000000; 40000000] ->
      ~ In bitrate nominal_bitrates).
  { intros clk Htest Hin. apply andb_true_iff in Htest as [Hclk Hsp].
    apply Z.eqb_eq in Hclk. apply Qeq_bool_iff in Hsp.
    destruct Hno as [Hno|[Hno|Hno]]; [|contradiction|exact Hno].
    exfalso. apply Hno. now rewrite Hclk. }
  unfold set_bitrate. cbv zeta.
  rewrite (bind_ok _ _ _ _ _ Hcap).
  destruct ((DeviceCapability.fclk_can cap =? 48000000)
            && Qeq_bool sample_point sample_point_87_5) eqn:E48.
  { apply set_bitrate_48MHz_unlisted, (Hlisted _ E48). simpl. tauto. }
  rewrite (bind_ok _ _ _ _ _ Hagain).
  destruct ((DeviceCapability.fclk_can cap =? 80000000)
            && Qeq_bool sample_point sample_point_87_5) eqn:E80.
  { apply set_bitrate_80MHz_unlisted, (Hlisted _ E80). simpl. tauto. }
  rewrite (bind_ok _ _ _ _ _ Hagain).
  destruct ((DeviceCapability.fclk_can cap =? 40000000)
            && Qeq_bool sample_point sample_point_87_5) eqn:E40.
  { apply set_bitrate_40MHz_unlisted, (Hlisted _ E40). simpl. tauto. }
  reflexivity.
Qed.

(** [set_data_bitrate] on a device without the FD feature. *)
Lemma set_data_bitrate_no_fd (bitrate : Z) (sample_point : Q)
    (w w1 : world) (cap : DeviceCapability.t) :
  device_capability gs_usb w = (Ok cap, w1) ->
  Z.testbit (DeviceCapability.feature cap) 8 = false ->
  set_data_bitrate gs_usb bitrate sample_point w = (Ok false, w1).
Proof.
  intros Hcap Hfd. unfold set_data_bitrate.
  rewrite (bind_ok _ _ _ _ _ Hcap).
  change Constants.GS_CAN_FEATURE_FD with (2 ^ 8).
  rewrite land_pow2, Hfd by lia. reflexivity.
Qed.

(** [set_data_bitrate] without a table entry. *)
Lemma set_data_bitrate_unsupported (bitrate : Z) (sample_point : Q)
    (w w1 : world) (cap : DeviceCapability.t) :
  device_capability gs_usb w = (Ok cap, w1) ->
  ~ In (DeviceCapability.fclk_can cap) [80000000; 40000000] \/
  (DeviceCapability.fclk_can cap = 80000000 /\ ~ In bitrate data_bitrates_80MHz) \/
  (DeviceCapability.fclk_can cap = 40000000 /\ ~ In bitrate data_bitrates_40MHz) ->
  set_data_bitrate gs_usb bitrate sample_point w = (Ok false, w1).
Proof.
  intros Hcap Hno.
  pose proof (device_capability_again gs_usb _ _ _ Hcap) as Hagain.
  unfold set_data_bitrate.
  rewrite (bind_ok _ _ _ _ _ Hcap).
  destruct (Z.land (DeviceCapability.feature cap) Constants.GS_CAN_FEATURE_FD =? 0);
    [reflexivity|].
  cbv zeta. rewrite (bind_ok _ _ _ _ _ Hagain).
  destruct (Z.eqb_spec (DeviceCapability.fclk_can cap) 80000000) as [H80|H80].
  { apply set_data_bitrate_80MHz_unlisted.
    destruct Hno as [Hno|[[_ Hno]|[Hclk _]]]; [|exact Hno|lia].
    exfalso. apply Hno. rewrite H80. simpl. tauto. }
  rewrite (bind_ok _ _ _ _ _ Hagain).
  destruct (Z.eqb_spec (DeviceCapability.fclk_can cap) 40000000) as [H40|H40].
  { apply set_data_bitrate_40MHz_unlisted.
    destruct Hno as [Hno|[[Hclk _]|[_ Hno]]]; [|lia|exact Hno].
    exfalso. apply Hno. rewrite H40. simpl. tauto. }
  reflexivity.
Qed.

(** The 40 MHz table at 500 kbit/s. *)
Lemma set_bitrate_40MHz_500000 (w w1 : world) (cap : DeviceCapability.t) :
  device_capability gs_usb w = (Ok cap, w1) ->
  DeviceCapability.fclk_can cap = 40000000 ->
  set_bitrate gs_usb 500000 sample_point_87_5 w
  = bind (set_timing gs_usb 1 12 2 1 5) (fun _ => ret true) w1.
Proof.
  intros Hcap Hclk.
  pose proof (device_capability_again gs_usb _ _ _ Hcap) as Hagain.
  unfold set_bitrate. cbv zeta.
  rewrite (bind_ok _ _ _ _ _ Hcap), Hclk. cbn [Z.eqb Pos.eqb andb].
  rewrite (bind_ok _ _ _ _ _ Hagain), Hclk. cbn [Z.eqb Pos.eqb andb].
  rewrite (bind_ok _ _ _ _ _ Hagain), Hclk. reflexivity.
Qed.

End BitTiming.

(** C5, as stated, fails for the data phase: [set_data_bitrate] never looks
    at its sample point, so a sample point of 50 percent, which no table
    entry has, still configures 2 Mbit/s on an 80 MHz FD device. *)
Lemma set_data_bitrate_ignores_sample_point :
  ~ (50 # 1 == GsUsb.sample_point_75_0)%Q /\
  fst (GsUsb.set_data_bitrate fd_device 2000000 (50 # 1) fresh) = Ok true /\
  GsUsb.trace (snd (GsUsb.set_data_bitrate fd_device 2000000 (50 # 1) fresh))
  = [CtrlTransferIn 0xC1 GsUsb._GS_USB_BREQ_BT_CONST 0 0 40;
     CtrlTransferOut 0x41 GsUsb._GS_USB_BREQ_DATA_BITTIMING 0 0
       (le_split 4 1 ++ le_split 4 4 ++ le_split 4 2 ++ le_split 4 1 ++ le_split 4 5)].
Proof.
  split; [|split]; try (vm_compute; reflexivity).
  intros H. vm_compute in H. discriminate.
Qed.

(** C5 (amended): once the capability is available, [set_bitrate] returns
    [False] when the clock is not 48, 80 or 40 MHz, or the sample point is
    not 87.5, or the bitrate is not one of the ten listed; [set_data_bitrate]
    returns [False] when the clock is not 80 or 40 MHz or the bitrate is not
    listed for the clock, whatever the sample point.  In both cases the
    session is the one the capability access left: no BITTIMING or
    DATA_BITTIMING transfer, at most the BT_CONST fetch of a session without
    cached capability. *)
Theorem unsupported_timing_is_refused (dev : UsbDevice) (bitrate : Z)
    (sample_point : Q) (w w1 : GsUsb.world) (cap : DeviceCapability.t) :
  GsUsb.device_capability dev w = (Ok cap, w1) ->
  (~ In (DeviceCapability.fclk_can cap) [48000000; 80000000; 40000000] \/
   ~ (sample_point == GsUsb.sample_point_87_5)%Q \/
   ~ In bitrate nominal_bitrates ->
   GsUsb.set_bitrate dev bitrate sample_point w = (Ok false, w1)) /\
  (~ In (DeviceCapability.fclk_can cap) [80000000; 40000000] \/
   (DeviceCapability.fclk_can cap = 80000000 /\ ~ In bitrate data_bitrates_80MHz) \/
   (DeviceCapability.fclk_can cap = 40000000 /\ ~ In bitrate data_bitrates_40MHz) ->
   GsUsb.set_data_bitrate dev bitrate sample_point w = (Ok false, w1)) /\
  (w1 = w \/
   GsUsb.capability (GsUsb.self w) = None /\
   GsUsb.trace w1
   = GsUsb.trace w ++ [CtrlTransferIn 0xC1 GsUsb._GS_USB_BREQ_BT_CONST 0 0 40]).
Proof.
  intros Hcap. split; [|split].
  - apply set_bitrate_unsupported, Hcap.
  - apply set_data_bitrate_unsupported, Hcap.
  - now destruct (device_capability_ok dev _ _ _ Hcap) as (_ & _ & _ & H).
Qed.

(** The amended C5 on a 25 MHz device at 500 kbit/s, sample point 87.5, and
    2 Mbit/s data rate. *)
Lemma unsupported_timing_is_refused_witness :
  GsUsb.device_capability plain_device session_25MHz
  = (Ok capability_25MHz, session_25MHz) /\
  GsUsb.set_bitrate plain_device 500000 GsUsb.sample_point_87_5 session_25MHz
  = (Ok false, session_25MHz) /\
  GsUsb.set_data_bitrate plain_device 2000000 GsUsb.sample_point_87_5 session_25MHz
  = (Ok false, session_25MHz).
Proof.
  assert (H : GsUsb.device_capability plain_device session_25MHz
              = (Ok capability_25MHz, session_25MHz)) by reflexivity.
  destruct (unsupported_timing_is_refused plain_device 500000
              GsUsb.sample_point_87_5 _ _ _ H) as (Hnom & _ & _).
  destruct (unsupported_timing_is_refused plain_device 2000000
              GsUsb.sample_point_87_5 _ _ _ H) as (_ & Hdata & _).
  split; [exact H|]. split.
  - apply Hnom. left. simpl. intros [E|[E|[E|[]]]]; discriminate E.
  - apply Hdata. left. simpl. intros [E|[E|[]]]; discriminate E.
Defined.

(** C6: on a device whose clock is 40000000 Hz, [set_bitrate(500000, 87.5)]
    - the sample point being the number 175/2 - calls
    [set_timing(1, 12, 2, 1, 5)]; that call sends, as control transfer
    0x41 with request 1 (BITTIMING), the encoding of the bit timing, which is
    the 20 bytes of the five little-endian 32-bit words 1, 12, 2, 1, 5; the
    method returns [True] when the device accepts the transfer. *)
Theorem set_bitrate_40MHz_500k (dev : UsbDevice) (w w1 : GsUsb.world)
    (cap : DeviceCapability.t) :
  GsUsb.device_capability dev w = (Ok cap, w1) ->
  DeviceCapability.fclk_can cap = 40000000 ->
  let payload :=
    [Byte.x01; Byte.x00; Byte.x00; Byte.x00;
     Byte.x0c; Byte.x00; Byte.x00; Byte.x00;
     Byte.x02; Byte.x00; Byte.x00; Byte.x00;
     Byte.x01; Byte.x00; Byte.x00; Byte.x00;
     Byte.x05; Byte.x00; Byte.x00; Byte.x00] in
  let sent :=
    {| GsUsb.self := GsUsb.self w1;
       GsUsb.trace := GsUsb.trace w1 ++ [CtrlTransferOut 0x41 1 0 0 payload] |} in
  GsUsb.set_bitrate dev 500000 (175 # 2) w
  = GsUsb.bind (GsUsb.set_timing dev 1 12 2 1 5) (fun _ => GsUsb.ret true) w1 /\
  GsUsb.set_timing dev 1 12 2 1 5 w1
  = (on_ctrl_out dev (GsUsb.trace w1) 0x41 1 0 0 payload, sent) /\
  DeviceBitTiming.pack (DeviceBitTiming.mk 1 12 2 1 5) = Ok payload /\
  payload
  = le_split 4 1 ++ le_split 4 12 ++ le_split 4 2 ++ le_split 4 1 ++ le_split 4 5 /\
  length payload = 20%nat /\
  (on_ctrl_out dev (GsUsb.trace w1) 0x41 1 0 0 payload = Ok tt ->
   GsUsb.set_bitrate dev 500000 (175 # 2) w = (Ok true, sent)) /\
  (forall e,
     on_ctrl_out dev (GsUsb.trace w1) 0x41 1 0 0 payload = Raise e ->
     GsUsb.set_bitrate dev 500000 (175 # 2) w = (Raise e, sent)).
Proof.
  intros Hcap Hclk payload sent.
  pose proof (set_bitrate_40MHz_500000 dev w w1 cap Hcap Hclk) as Hset.
  change GsUsb.sample_point_87_5 with (175 # 2)%Q in Hset.
  assert (Htiming :
    GsUsb.set_timing dev 1 12 2 1 5 w1
    = (on_ctrl_out dev (GsUsb.trace w1) 0x41 1 0 0 payload, sent)) by reflexivity.
  split; [exact Hset|]. split; [exact Htiming|].
  split; [reflexivity|]. split; [reflexivity|]. split; [reflexivity|].
  split.
  - intros Haccept. rewrite Hset. unfold GsUsb.bind.
    now rewrite Htiming, Haccept.
  - intros e Hrefuse. rewrite Hset. unfold GsUsb.bind.
    now rewrite Htiming, Hrefuse.
Qed.

(** C6 on a device that answers BT_CONST with a clock of 40 MHz, from a
    fresh session: the capability fetch, then the BITTIMING transfer. *)
Lemma set_bitrate_40MHz_500k_witness :
  GsUsb.device_capability device_40MHz fresh = (Ok capability_40MHz, session_40MHz) /\
  DeviceCapability.fclk_can capability_40MHz = 40000000 /\
  GsUsb.set_bitrate device_40MHz 500000 (175 # 2) fresh
  = (Ok true,
     {| GsUsb.self := GsUsb.self session_40MHz;
        GsUsb.trace :=
          [CtrlTransferIn 0xC1 4 0 0 40;
           CtrlTransferOut 0x41 1 0 0
             [Byte.x01; Byte.x00; Byte.x00; Byte.x00;
              Byte.x0c; Byte.x00; Byte.x00; Byte.x00;
              Byte.x02; Byte.x00; Byte.x00; Byte.x00;
              Byte.x01; Byte.x00; Byte.x00; Byte.x00;
              Byte.x05; Byte.x00; Byte.x00; Byte.x00]] |}).
Proof.
  assert (H : GsUsb.device_capability device_40MHz fresh
              = (Ok capability_40MHz, session_40MHz)) by (vm_compute; reflexivity).
  split; [exact H|]. split; [reflexivity|].
  apply (set_bitrate_40MHz_500k device_40MHz fresh session_40MHz capability_40MHz
           H eq_refl).
  reflexivity.
Defined.

(** C9, as stated, fails on a session that has not fetched the capability:
    the call fetches it with BT_CONST and caches it, so the session is not
    what it was. *)
Lemma set_data_bitrate_fills_capability :
  GsUsb.capability (GsUsb.self fresh) = None /\
  GsUsb.set_data_bitrate plain_device 2000000 GsUsb.sample_point_75_0 fresh
  = (Ok false,
     {| GsUsb.self :=
          {| GsUsb.capability := Some capability_plain;
             GsUsb.device_flags := 0;
             GsUsb.fd_mode := false |};
        GsUsb.trace := [CtrlTransferIn 0xC1 GsUsb._GS_USB_BREQ_BT_CONST 0 0 40] |}) /\
  GsUsb.self (snd (GsUsb.set_data_bitrate plain_device 2000000
                     GsUsb.sample_point_75_0 fresh))
  <> GsUsb.self fresh.
Proof.
  split; [reflexivity|]. split; [vm_compute; reflexivity|].
  vm_compute. discriminate.
Qed.

(** C9 (amended): for every bitrate and sample point, if the feature word
    of the capability lacks the FD bit, [set_data_bitrate] returns [False]
    right after the capability access: no table is consulted and no
    DATA_BITTIMING transfer is issued; [device_flags] and [fd_mode] are
    unchanged; a cached capability is unchanged and nothing is transferred,
    while a session without one has fetched it with one BT_CONST transfer
    and now caches it. *)
Theorem set_data_bitrate_requires_fd (dev : UsbDevice) (bitrate : Z)
    (sample_point : Q) (w w1 : GsUsb.world) (cap : DeviceCapability.t) :
  GsUsb.device_capability dev w = (Ok cap, w1) ->
  Z.land (DeviceCapability.feature cap) Constants.GS_CAN_FEATURE_FD = 0 ->
  GsUsb.set_data_bitrate dev bitrate sample_point w = (Ok false, w1) /\
  GsUsb.device_flags (GsUsb.self w1) = GsUsb.device_flags (GsUsb.self w) /\
  GsUsb.fd_mode (GsUsb.self w1) = GsUsb.fd_mode (GsUsb.self w) /\
  GsUsb.capability (GsUsb.self w1) = Some cap /\
  (w1 = w \/
   GsUsb.capability (GsUsb.self w) = None /\
   GsUsb.trace w1
   = GsUsb.trace w ++ [CtrlTransferIn 0xC1 GsUsb._GS_USB_BREQ_BT_CONST 0 0 40]).
Proof.
  intros Hcap Hfd.
  destruct (device_capability_ok dev _ _ _ Hcap) as (Hc & Hflags & Hmode & Hw).
  split; [|now repeat split].
  apply set_data_bitrate_no_fd with (cap := cap); [exact Hcap|].
  change Constants.GS_CAN_FEATURE_FD with (2 ^ 8) in Hfd.
  rewrite land_pow2 in Hfd by lia.
  destruct (Z.testbit (DeviceCapability.feature cap) 8); [discriminate|reflexivity].
Qed.

(** The amended C9 on a device without FD, fresh session. *)
Lemma set_data_bitrate_requires_fd_witness :
  GsUsb.device_capability device_40MHz fresh = (Ok capability_40MHz, session_40MHz) /\
  Z.land (DeviceCapability.feature capability_40MHz) Constants.GS_CAN_FEATURE_FD = 0 /\
  GsUsb.set_data_bitrate device_40MHz 2000000 GsUsb.sample_point_75_0 fresh
  = (Ok false, session_40MHz).
Proof.
  assert (H : GsUsb.device_capability device_40MHz fresh
              = (Ok capability_40MHz, session_40MHz)) by (vm_compute; reflexivity).
  split; [exact H|]. split; [reflexivity|].
  exact (proj1 (set_data_bitrate_requires_fd device_40MHz 2000000
                  GsUsb.sample_point_75_0 fresh session_40MHz capability_40MHz
                  H eq_refl)).
Defined.

(** ** get_state *)

(** C8, as stated, fails twice: on a session that has not fetched the
    capability the refusal is preceded by a BT_CONST transfer, and the
    GET_STATE transfer carries the channel in its value field (third
    argument), with index 0. *)
Lemma get_state_transfers :
  GsUsb.get_state plain_device 0 fresh
  = (Raise (ValueError "Device does not support GET_STATE"),
     {| GsUsb.self :=
          {| GsUsb.capability := Some capability_plain;
             GsUsb.device_flags := 0;
             GsUsb.fd_mode := false |};
        GsUsb.trace := [CtrlTransferIn 0xC1 GsUsb._GS_USB_BREQ_BT_CONST 0 0 40] |}) /\
  GsUsb.trace (snd (GsUsb.get_state state_device 1 session_state))
  = [CtrlTransferIn 0xC1 GsUsb._GS_USB_BREQ_BT_CONST 0 0 40;
     CtrlTransferIn 0xC1 GsUsb._GS_USB_BREQ_GET_STATE 1 0 12] /\
  CtrlTransferIn 0xC1 GsUsb._GS_USB_BREQ_GET_STATE 1 0 12
  <> CtrlTransferIn 0xC1 GsUsb._GS_USB_BREQ_GET_STATE 0 1 12.
Proof.
  split; [vm_compute; reflexivity|]. split; [vm_compute; reflexivity|].
  discriminate.
Qed.

(** C8 (amended): for every channel, once the capability is available,
    [get_state] on a device whose feature word lacks the GET_STATE bit
    raises [ValueError] without any transfer beyond the capability access
    (none at all when the capability is cached, one BT_CONST fetch
    otherwise); when the bit is present, every call issues a GET_STATE
    control transfer of 12 bytes with value = channel and index = 0, caches
    nothing, and returns the three little-endian 32-bit words of the answer
    as state, receive and transmit error counters. *)
Theorem get_state_behaviour (dev : UsbDevice) (channel : Z)
    (w w1 : GsUsb.world) (cap : DeviceCapability.t) :
  GsUsb.device_capability dev w = (Ok cap, w1) ->
  (Z.land (DeviceCapability.feature cap) Constants.GS_CAN_FEATURE_GET_STATE = 0 ->
   GsUsb.get_state dev channel w
   = (Raise (ValueError "Device does not support GET_STATE"), w1)) /\
  (Z.land (DeviceCapability.feature cap) Constants.GS_CAN_FEATURE_GET_STATE <> 0 ->
   GsUsb.get_state dev channel w
   = (rbind (on_ctrl_in dev (GsUsb.trace w1) 0xC1 GsUsb._GS_USB_BREQ_GET_STATE
               channel 0 12)
        DeviceState.unpack,
      {| GsUsb.self := GsUsb.self w1;
         GsUsb.trace :=
           GsUsb.trace w1
             ++ [CtrlTransferIn 0xC1 GsUsb._GS_USB_BREQ_GET_STATE channel 0 12] |})) /\
  (w1 = w \/
   GsUsb.capability (GsUsb.self w) = None /\
   GsUsb.trace w1
   = GsUsb.trace w ++ [CtrlTransferIn 0xC1 GsUsb._GS_USB_BREQ_BT_CONST 0 0 40]) /\
  (forall data, length data = 12%nat ->
     DeviceState.unpack data
     = Ok (DeviceState.mk (le_combine (firstn 4 data))
             (le_combine (firstn 4 (skipn 4 data)))
             (le_combine (firstn 4 (skipn 8 data))))).
Proof.
  intros Hcap.
  assert (Hsup :
    GsUsb.supports_get_state dev w
    = (Ok (negb (Z.land (DeviceCapability.feature cap)
                   Constants.GS_CAN_FEATURE_GET_STATE =? 0)), w1)).
  { unfold GsUsb.supports_get_state. now rewrite (bind_ok _ _ _ _ _ Hcap). }
  split; [|split; [|split]].
  - intros Hno. unfold GsUsb.get_state.
    rewrite (bind_ok _ _ _ _ _ Hsup), Hno. reflexivity.
  - intros Hyes. unfold GsUsb.get_state.
    rewrite (bind_ok _ _ _ _ _ Hsup).
    apply Z.eqb_neq in Hyes. rewrite Hyes. cbn [negb].
    unfold GsUsb.bind, GsUsb.ctrl_transfer_in, GsUsb.transport, GsUsb.lift.
    now destruct (on_ctrl_in dev (GsUsb.trace w1) 193 GsUsb._GS_USB_BREQ_GET_STATE
                    channel 0 12).
  - now destruct (device_capability_ok dev _ _ _ Hcap) as (_ & _ & _ & H).
  - intros data Hlen. unfold DeviceState.unpack, Struct.unpack.
    change (Struct.parse_format "<3I") with (Some [Struct.I; Struct.I; Struct.I]).
    rewrite Hlen. cbn [Struct.calcsize fold_right Struct.code_size Nat.add Nat.eqb].
    cbn [rbind Struct.unpack_items nth Struct.code_size].
    now rewrite skipn_skipn.
Qed.

(** The amended C8 on a device with GET_STATE, channel 1. *)
Lemma get_state_behaviour_witness :
  GsUsb.device_capability state_device session_state
  = (Ok capability_state, session_state) /\
  Z.land (DeviceCapability.feature capability_state)
    Constants.GS_CAN_FEATURE_GET_STATE <> 0 /\
  GsUsb.get_state state_device 1 session_state
  = (rbind (on_ctrl_in state_device (GsUsb.trace session_state) 0xC1
              GsUsb._GS_USB_BREQ_GET_STATE 1 0 12)
       DeviceState.unpack,
     {| GsUsb.self := GsUsb.self session_state;
        GsUsb.trace :=
          GsUsb.trace session_state
            ++ [CtrlTransferIn 0xC1 GsUsb._GS_USB_BREQ_GET_STATE 1 0 12] |}) /\
  fst (GsUsb.get_state state_device 1 session_state) = Ok (DeviceState.mk 1 96 3).
Proof.
  assert (H : GsUsb.device_capability state_device session_state
              = (Ok capability_state, session_state)) by reflexivity.
  assert (Hbit : Z.land (DeviceCapability.feature capability_state)
                   Constants.GS_CAN_FEATURE_GET_STATE <> 0)
    by (vm_compute; discriminate).
  split; [exact H|]. split; [exact Hbit|]. split.
  - exact (proj1 (proj2 (get_state_behaviour state_device 1 session_state
                           session_state capability_state H)) Hbit).
  - vm_compute. reflexivity.
Defined.

(** ** read *)

Section Reading.

Import Struct.

(** The flags attribute after decoding is the byte at offset 10. *)
Lemma frame_of_values_flags (frame : GsUsbFrame.t) (bs : list byte) (hw fd : bool) :
  length bs = calcsize (frame_layout hw fd) ->
  GsUsbFrame.flags
    (frame_of_values frame (unpack_items (frame_layout hw fd) bs) hw fd)
  = byte.unsigned (nth 10 bs Byte.x00).
Proof.
  intros Hlen.
  assert (Hflags :
    GsUsbFrame.flags
      (frame_of_values frame (unpack_items (frame_layout hw fd) bs) hw fd)
    = nth 4 (unpack_items (frame_layout hw fd) bs) 0).
  { unfold frame_of_values. destruct hw; reflexivity. }
  rewrite Hflags. unfold frame_layout. rewrite unpack_items_app.
  assert (H11 : (11 <= length bs)%nat).
  { rewrite Hlen. unfold frame_layout. rewrite !calcsize_app. simpl. lia. }
  do 11 (destruct bs as [|? bs]; [simpl in H11; lia|]).
  cbn [unpack_items code_size firstn skipn app nth].
  apply le_combine_1.
Qed.


(** [read], by the answer of the device to the bulk read. *)
Lemma read_by_answer (dev : UsbDevice) (frame : GsUsbFrame.t) (timeout_ms : Z)
    (w : GsUsb.world) :
  let hw := GsUsb.hw_timestamps (GsUsb.self w) in
  let size := GsUsbFrame.sizeof hw (GsUsb.fd_mode (GsUsb.self w)) in
  let w' := {| GsUsb.self := GsUsb.self w;
               GsUsb.trace := GsUsb.trace w ++ [BulkRead 0x81 size timeout_ms] |} in
  GsUsb.read dev frame timeout_ms w
  = match on_read dev (GsUsb.trace w) 0x81 size timeout_ms with
    | Ok data =>
        (rbind (GsUsbFrame.unpack_into frame data hw (GsUsb.is_fd_frame data))
           (fun frame' => Ok (true, frame')), w')
    | Raise USBError => (Ok (false, frame), w')
    | Raise e => (Raise e, w')
    end.
Proof.
  intros hw size w'.
  unfold GsUsb.read, GsUsb.bind, GsUsb.get_self, GsUsb.catch, GsUsb.usb_read,
    GsUsb.transport, GsUsb.lift, GsUsb.ret, GsUsb.raise.
  fold hw. fold size. fold w'.
  destruct (on_read dev (GsUsb.trace w) 129 size timeout_ms) as [data|[]];
    try reflexivity.
  now destruct (GsUsbFrame.unpack_into frame data hw (GsUsb.is_fd_frame data)).
Qed.


End Reading.




(** A buffer of FD size whose flags byte has the FD bit clear is sent to the
    classic layout, whose [unpack] refuses the 76 bytes: [read] raises and
    the frame is not populated. *)
Example read_fd_sized_classic_buffer :
  length padded_echo_bytes = 76%nat /\
  GsUsb.is_fd_frame padded_echo_bytes = false /\
  fst (GsUsb.read padding_device GsUsbFrame.empty 100 fd_session)
  = Raise StructError.
Proof. repeat split; vm_compute; reflexivity. Qed.

(** * Further properties of the codec and the driver *)

(** ** struct: the converse directions *)

Section StructConverse.

Import Struct.

Lemma fits_iff (c : code) (v : Z) :
  fits c v = true <-> 0 <= v < 2 ^ (Z.of_nat (code_size c) * 8).
Proof.
  split; [apply fits_bound|].
  intros H. unfold fits. apply andb_true_iff. rewrite Z.leb_le, Z.ltb_lt.
  replace (8 * Z.of_nat (code_size c)) with (Z.of_nat (code_size c) * 8) by lia.
  exact H.
Qed.

(** [pack] refuses exactly with [struct.error]. *)
Lemma pack_items_error (cs : list code) :
  forall vs e, pack_items cs vs = Raise e -> e = StructError.
Proof.
  induction cs as [|c cs IH]; intros vs e H; destruct vs as [|v vs];
    simpl in H; try congruence.
  destruct (fits c v); [|congruence].
  destruct (pack_items cs vs) eqn:Hrest; simpl in H; [discriminate|].
  injection H as <-. eapply IH, Hrest.
Qed.

(** A successful [pack] had a value in range for every item. *)
Lemma pack_items_ok_fits (cs : list code) :
  forall vs bs,
    pack_items cs vs = Ok bs ->
    Forall2 (fun c v => fits c v = true) cs vs.
Proof.
  induction cs as [|c cs IH]; intros vs bs H; destruct vs as [|v vs];
    simpl in H; try discriminate; [constructor|].
  destruct (fits c v) eqn:Hfit; [|discriminate].
  destruct (pack_items cs vs) eqn:Hrest; simpl in H; [|discriminate].
  constructor; [exact Hfit | eapply IH, Hrest].
Qed.

(** Every unpacked value is in the range of its item. *)
Lemma unpack_items_fit (cs : list code) :
  forall bs, Forall2 (fun c v => fits c v = true) cs (unpack_items cs bs).
Proof.
  induction cs as [|c cs IH]; intros bs; simpl; constructor; [|apply IH].
  apply fits_iff.
  pose proof (le_combine_bound (firstn (code_size c) bs)) as Hb.
  pose proof (length_firstn (code_size c) bs) as Hl.
  assert (2 ^ (8 * Z.of_nat (length (firstn (code_size c) bs)))
          <= 2 ^ (Z.of_nat (code_size c) * 8))
    by (apply Z.pow_le_mono_r; lia).
  lia.
Qed.

(** What [unpack] read from a buffer of the right size, [pack] writes back. *)
Lemma unpack_items_pack (cs : list code) :
  forall bs,
    length bs = calcsize cs ->
    pack_items cs (unpack_items cs bs) = Ok bs.
Proof.
  induction cs as [|c cs IH]; intros bs Hlen.
  - destruct bs; [reflexivity | discriminate].
  - cbn [unpack_items pack_items]. cbn [calcsize fold_right] in Hlen.
    fold (calcsize cs) in Hlen.
    assert (Hfit : fits c (le_combine (firstn (code_size c) bs)) = true).
    { pose proof (unpack_items_fit [c] bs) as H. inversion H; subst. assumption. }
    rewrite Hfit, IH by (rewrite length_skipn; lia).
    cbn [rbind]. f_equal.
    assert (Hk : length (firstn (code_size c) bs) = code_size c)
      by (rewrite length_firstn; lia).
    rewrite <- Hk at 1. rewrite split_le_combine.
    apply firstn_skipn.
Qed.

Lemma Forall2_app_same_length {A B : Type} (P : A -> B -> Prop)
    (xs1 xs2 : list A) (ys1 ys2 : list B) :
  length xs1 = length ys1 ->
  Forall2 P (xs1 ++ xs2) (ys1 ++ ys2) ->
  Forall2 P xs1 ys1 /\ Forall2 P xs2 ys2.
Proof.
  revert ys1. induction xs1 as [|x xs1 IH]; intros [|y ys1] Hlen H;
    try discriminate.
  - split; [constructor | exact H].
  - simpl in H. inversion H; subst.
    destruct (IH ys1) as [H1 H2]; [simpl in Hlen; lia | assumption|].
    split; [constructor|]; assumption.
Qed.

Lemma Forall2_nth_fits (cs : list code) (vs : list Z) (i : nat) :
  Forall2 (fun c v => fits c v = true) cs vs ->
  (i < length cs)%nat ->
  fits (nth i cs B) (nth i vs 0) = true.
Proof.
  intros H. revert i. induction H as [|c v cs vs Hcv _ IH]; intros i Hi.
  - simpl in Hi. lia.
  - destruct i as [|i]; [exact Hcv|]. apply IH. simpl in Hi. lia.
Qed.

Lemma Forall2_B_bytes (n : nat) (vs : list Z) :
  Forall2 (fun c v => fits c v = true) (repeat B n) vs ->
  Forall (fun v => 0 <= v < 256) vs.
Proof.
  revert vs. induction n as [|n IH]; intros vs H; inversion H; subst;
    constructor.
  - match goal with Hf : fits B _ = true |- _ => apply fits_bound in Hf end.
    assumption.
  - apply IH. assumption.
Qed.

End StructConverse.

(** ** pack and unpack_into: when they succeed *)

Section PackConverse.

Import Struct.

(** A frame that [pack] accepted fits the wire. *)
Lemma pack_ok_fits_wire (f : GsUsbFrame.t) (hw fd : bool) (bs : list byte) :
  GsUsbFrame.pack f hw fd = Ok bs -> fits_wire f fd.
Proof.
  rewrite pack_layout. intros H.
  apply pack_items_ok_fits in H.
  unfold frame_layout, wire_values, GsUsbFrame.header in H.
  cbn [app] in H.
  repeat match type of H with
         | Forall2 _ (_ :: _) (_ :: _) =>
             let Hhd := fresh "Hhd" in
             let Htl := fresh "Htl" in
             apply Forall2_cons_iff in H as [Hhd Htl];
             apply fits_bound in Hhd;
             change (2 ^ (Z.of_nat (code_size I) * 8)) with (2 ^ 32) in Hhd;
             change (2 ^ (Z.of_nat (code_size B) * 8)) with 256 in Hhd;
             rename Htl into H
         end.
  assert (Hlen :
    length (firstn (payload_size fd) (GsUsbFrame.data f)) = payload_size fd).
  { apply Forall2_length in H.
    rewrite !length_app, repeat_length in H.
    destruct hw; cbn [length] in H; lia. }
  apply Forall2_app_same_length in H as [Hpayload _];
    [|now rewrite repeat_length].
  apply Forall2_B_bytes in Hpayload.
  rewrite length_firstn in Hlen.
  unfold fits_wire. repeat split; try lia; assumption.
Qed.

End PackConverse.

Section DecodeEncode.

Import Struct.

(** The values [pack] takes from a decoded frame are the values [unpack]
    produced. *)
Lemma wire_values_of_values (frame : GsUsbFrame.t) (bs : list byte) (hw fd : bool) :
  wire_values
    (frame_of_values frame (unpack_items (frame_layout hw fd) bs) hw fd) hw fd
  = unpack_items (frame_layout hw fd) bs.
Proof.
  unfold frame_layout.
  rewrite unpack_items_app, (unpack_items_app (repeat B (payload_size fd))).
  change (calcsize [I; I; B; B; B; B]) with 12%nat.
  remember (unpack_items (repeat B (payload_size fd)) (skipn 12 bs)) as U2 eqn:HU2.
  assert (Hlen2 : length U2 = payload_size fd)
    by (subst U2; rewrite unpack_items_length; apply repeat_length).
  remember (skipn (calcsize (repeat B (payload_size fd))) (skipn 12 bs)) as rest.
  assert (Hpayload : forall tl,
    firstn (payload_size fd)
      (firstn (payload_size fd) (U2 ++ tl) ++ repeat 0 (64 - payload_size fd))
    = U2).
  { intros tl. rewrite firstn_app, firstn_firstn, Nat.min_id.
    rewrite (firstn_app _ U2), Hlen2, Nat.sub_diag, firstn_O, app_nil_r.
    rewrite <- Hlen2 at 1 2 3. rewrite firstn_all, Hlen2.
    rewrite Nat.sub_diag, firstn_O. apply app_nil_r. }
  unfold wire_values, frame_of_values, GsUsbFrame.slice, GsUsbFrame.header.
  cbn [unpack_items code_size].
  destruct hw; unfold GsUsbFrame.set_timestamp_us, GsUsbFrame.set_data,
    GsUsbFrame.set_header; cbn [GsUsbFrame.echo_id GsUsbFrame.can_id
    GsUsbFrame.can_dlc GsUsbFrame.channel GsUsbFrame.flags GsUsbFrame.reserved
    GsUsbFrame.data GsUsbFrame.timestamp_us app nth skipn Nat.add];
    match goal with
    | |- context [firstn ?k (U2 ++ ?tl)] =>
        replace k with (payload_size fd) by lia
    end;
    rewrite Hpayload; cbn [unpack_items code_size]; repeat f_equal.
  rewrite app_nth2, Hlen2, Nat.sub_diag by lia. cbn [nth].
  change 0xFFFFFFFF with (Z.ones 32). rewrite Z.land_ones by lia.
  apply Z.mod_small.
  pose proof (le_combine_bound (firstn 4 rest)) as Hb.
  pose proof (length_firstn 4 rest) as Hl.
  assert (2 ^ (8 * Z.of_nat (length (firstn 4 rest))) <= 2 ^ 32)
    by (apply Z.pow_le_mono_r; lia).
  lia.
Qed.

(** The header of a decoded frame is in the range of the wire fields. *)
Lemma frame_of_values_fits (frame : GsUsbFrame.t) (bs : list byte) (hw fd : bool) :
  length bs = calcsize (frame_layout hw fd) ->
  fits_wire (frame_of_values frame (unpack_items (frame_layout hw fd) bs) hw fd) true.
Proof.
  intros Hlen.
  pose proof (frame_of_values_data frame bs hw fd Hlen) as Hdata.
  pose proof (unpack_items_fit (frame_layout hw fd) bs) as Hfit.
  assert (Hn : (12 + payload_size fd <= length bs)%nat).
  { rewrite Hlen. unfold frame_layout.
    rewrite !calcsize_app, calcsize_repeat_B. simpl. lia. }
  assert (Hfield : forall i c,
    (i < 6)%nat -> nth i (frame_layout hw fd) B = c ->
    0 <= nth i (unpack_items (frame_layout hw fd) bs) 0
      < 2 ^ (Z.of_nat (code_size c) * 8)).
  { intros i c Hi <-. apply fits_bound, Forall2_nth_fits; [exact Hfit|].
    unfold frame_layout. rewrite length_app. simpl. lia. }
  pose proof (Hfield 0%nat I ltac:(lia) eq_refl) as He.
  pose proof (Hfield 1%nat I ltac:(lia) eq_refl) as Hc.
  pose proof (Hfield 2%nat B ltac:(lia) eq_refl) as Hd.
  pose proof (Hfield 3%nat B ltac:(lia) eq_refl) as Hch.
  pose proof (Hfield 4%nat B ltac:(lia) eq_refl) as Hfl.
  pose proof (Hfield 5%nat B ltac:(lia) eq_refl) as Hr.
  change (2 ^ (Z.of_nat (code_size I) * 8)) with (2 ^ 32) in He, Hc.
  change (2 ^ (Z.of_nat (code_size B) * 8)) with 256 in Hd, Hch, Hfl, Hr.
  assert (Hhdr :
    forall u,
      GsUsbFrame.echo_id (frame_of_values frame u hw fd) = nth 0 u 0 /\
      GsUsbFrame.can_id (frame_of_values frame u hw fd) = nth 1 u 0 /\
      GsUsbFrame.can_dlc (frame_of_values frame u hw fd) = nth 2 u 0 /\
      GsUsbFrame.channel (frame_of_values frame u hw fd) = nth 3 u 0 /\
      GsUsbFrame.flags (frame_of_values frame u hw fd) = nth 4 u 0 /\
      GsUsbFrame.reserved (frame_of_values frame u hw fd) = nth 5 u 0).
  { intros u. unfold frame_of_values. destruct hw; repeat split. }
  destruct (Hhdr (unpack_items (frame_layout hw fd) bs))
    as (He' & Hc' & Hd' & Hch' & Hfl' & Hr').
  assert (Hbytes :
    Forall (fun b => 0 <= b < 256)
      (GsUsbFrame.data
         (frame_of_values frame (unpack_items (frame_layout hw fd) bs) hw fd))).
  { rewrite Hdata. apply Forall_app. split.
    - apply Forall_forall. intros v Hv. apply in_map_iff in Hv.
      destruct Hv as (b & <- & _). apply byte.unsigned_range.
    - apply Forall_forall. intros v Hv. apply repeat_spec in Hv. lia. }
  assert (Hlen64 :
    length (GsUsbFrame.data
              (frame_of_values frame (unpack_items (frame_layout hw fd) bs) hw fd))
    = 64%nat).
  { rewrite Hdata, length_app, length_map, length_firstn, length_skipn,
      repeat_length.
    destruct fd; cbn [payload_size] in *; lia. }
  unfold fits_wire. rewrite He', Hc', Hd', Hch', Hfl', Hr'.
  repeat split; try lia.
  - cbn [payload_size]. lia.
  - rewrite <- (firstn_skipn (payload_size true)) in Hbytes.
    now apply Forall_app in Hbytes.
Qed.

End DecodeEncode.

Lemma fits_wire_fd_classic (f : GsUsbFrame.t) :
  fits_wire f true -> fits_wire f false.
Proof.
  unfold fits_wire. cbn [payload_size].
  intros (He & Hc & Hd & Hch & Hfl & Hr & Hlen & Hbytes).
  repeat split; try lia.
  replace (firstn 8 (GsUsbFrame.data f))
    with (firstn 8 (firstn 64 (GsUsbFrame.data f)))
    by (rewrite firstn_firstn; reflexivity).
  rewrite <- (firstn_skipn 8 (firstn 64 (GsUsbFrame.data f))) in Hbytes.
  now apply Forall_app in Hbytes.
Qed.

(** X1: [pack] succeeds exactly on the frames that fit the wire of the
    layout, and then gives as many bytes as [__sizeof__] says; on every other
    frame it raises [struct.error]. *)
Theorem pack_accepts_exactly (f : GsUsbFrame.t) (hw_timestamp fd_mode : bool) :
  (fits_wire f fd_mode ->
   exists bs,
     GsUsbFrame.pack f hw_timestamp fd_mode = Ok bs /\
     Z.of_nat (length bs) = GsUsbFrame.sizeof hw_timestamp fd_mode) /\
  (~ fits_wire f fd_mode ->
   GsUsbFrame.pack f hw_timestamp fd_mode = Raise StructError).
Proof.
  split.
  - intros Hfits.
    destruct (pack_unpack_into f hw_timestamp fd_mode Hfits f)
      as (bs & Hpack & Hlen & _).
    now exists bs.
  - intros Hno.
    destruct (GsUsbFrame.pack f hw_timestamp fd_mode) as [bs|e] eqn:Hpack.
    + exfalso. apply Hno. eapply pack_ok_fits_wire, Hpack.
    + rewrite pack_layout in Hpack.
      now rewrite (pack_items_error _ _ _ Hpack).
Qed.

(** X1 at the constructor's classic frame: accepted by the classic layout,
    refused by the FD layout. *)
Lemma pack_accepts_exactly_witness :
  (exists bs,
     GsUsbFrame.pack classic_frame false false = Ok bs /\
     Z.of_nat (length bs) = GsUsbFrame.sizeof false false) /\
  GsUsbFrame.pack classic_frame false true = Raise StructError.
Proof.
  split.
  - apply (proj1 (pack_accepts_exactly classic_frame false false)).
    unfold fits_wire. vm_compute.
    repeat split; try discriminate; try (apply le_n);
      repeat constructor; discriminate.
  - apply (proj2 (pack_accepts_exactly classic_frame false true)).
    intros (_ & _ & _ & _ & _ & _ & Hlen & _).
    vm_compute in Hlen. lia.
Defined.

(** X2: [unpack_into] succeeds exactly on buffers of the size of the layout
    and raises [struct.error] on every other buffer; the frame it leaves has
    every header field in the range of its wire field and 64 data bytes, so
    it fits every layout, and its timestamp is a 32-bit value read from the
    buffer when the layout has the field, the frame's previous timestamp
    otherwise. *)
Theorem unpack_into_accepts_exactly (frame : GsUsbFrame.t) (bs : list byte)
    (hw_timestamp fd_mode : bool) :
  (Z.of_nat (length bs) = GsUsbFrame.sizeof hw_timestamp fd_mode ->
   exists frame',
     GsUsbFrame.unpack_into frame bs hw_timestamp fd_mode = Ok frame' /\
     fits_wire frame' true /\ fits_wire frame' false /\
     if hw_timestamp then 0 <= GsUsbFrame.timestamp_us frame' < 2 ^ 32
     else GsUsbFrame.timestamp_us frame' = GsUsbFrame.timestamp_us frame) /\
  (Z.of_nat (length bs) <> GsUsbFrame.sizeof hw_timestamp fd_mode ->
   GsUsbFrame.unpack_into frame bs hw_timestamp fd_mode = Raise StructError).
Proof.
  rewrite unpack_into_layout, <- calcsize_frame_layout. split.
  - intros Hlen. apply Nat2Z.inj in Hlen.
    rewrite Hlen, Nat.eqb_refl. eexists. split; [reflexivity|].
    pose proof (frame_of_values_fits frame bs hw_timestamp fd_mode Hlen) as Hfits.
    split; [exact Hfits|]. split; [apply fits_wire_fd_classic, Hfits|].
    destruct hw_timestamp; [|reflexivity].
    assert (Hts : forall u,
      GsUsbFrame.timestamp_us (frame_of_values frame u true fd_mode)
      = nth (6 + payload_size fd_mode) u 0) by reflexivity.
    rewrite Hts.
    change (2 ^ 32) with (2 ^ (Z.of_nat (Struct.code_size Struct.I) * 8)).
    apply fits_bound.
    replace Struct.I
      with (nth (6 + payload_size fd_mode) (frame_layout true fd_mode) Struct.B)
      at 1 by (destruct fd_mode; reflexivity).
    apply Forall2_nth_fits; [apply unpack_items_fit|].
    destruct fd_mode; simpl; lia.
  - intros Hlen.
    destruct (Nat.eqb_spec (length bs)
                (Struct.calcsize (frame_layout hw_timestamp fd_mode)));
      [|reflexivity].
    exfalso. apply Hlen. now f_equal.
Qed.

(** X2 at the classic echo buffer: accepted by the classic layout, refused
    by the classic layout with timestamp. *)
Lemma unpack_into_accepts_exactly_witness :
  (exists frame',
     GsUsbFrame.unpack_into GsUsbFrame.empty classic_echo_bytes false false
     = Ok frame' /\
     fits_wire frame' true /\ fits_wire frame' false /\
     GsUsbFrame.timestamp_us frame' = GsUsbFrame.timestamp_us GsUsbFrame.empty) /\
  GsUsbFrame.unpack_into GsUsbFrame.empty classic_echo_bytes true false
  = Raise StructError.
Proof.
  split.
  - apply (proj1 (unpack_into_accepts_exactly GsUsbFrame.empty classic_echo_bytes
                    false false)).
    reflexivity.
  - apply (proj2 (unpack_into_accepts_exactly GsUsbFrame.empty classic_echo_bytes
                    true false)).
    vm_compute. discriminate.
Defined.

(** X3: decoding a buffer and encoding the decoded frame in the same layout
    gives the buffer back, byte for byte, in each of the four layouts. *)
Theorem unpack_then_pack (frame frame' : GsUsbFrame.t) (bs : list byte)
    (hw_timestamp fd_mode : bool) :
  GsUsbFrame.unpack_into frame bs hw_timestamp fd_mode = Ok frame' ->
  GsUsbFrame.pack frame' hw_timestamp fd_mode = Ok bs.
Proof.
  rewrite unpack_into_layout.
  destruct (Nat.eqb_spec (length bs)
              (Struct.calcsize (frame_layout hw_timestamp fd_mode))) as [Hlen|];
    [|discriminate].
  intros H.
  assert (Hframe :
    frame' = frame_of_values frame
               (Struct.unpack_items (frame_layout hw_timestamp fd_mode) bs)
               hw_timestamp fd_mode) by congruence.
  rewrite Hframe, pack_layout, wire_values_of_values.
  apply unpack_items_pack, Hlen.
Qed.

(** X3 at the classic echo buffer. *)
Lemma unpack_then_pack_witness :
  GsUsbFrame.unpack_into GsUsbFrame.empty classic_echo_bytes false false
  = Ok (decoded classic_frame GsUsbFrame.empty false false) /\
  GsUsbFrame.pack (decoded classic_frame GsUsbFrame.empty false false) false false
  = Ok classic_echo_bytes.
Proof.
  assert (H : GsUsbFrame.unpack_into GsUsbFrame.empty classic_echo_bytes false false
              = Ok (decoded classic_frame GsUsbFrame.empty false false))
    by (vm_compute; reflexivity).
  split; [exact H|].
  exact (unpack_then_pack _ _ _ _ _ H).
Defined.

(** ** DLC, length and the constructor *)

Lemma dlc_to_len_table (i : nat) :
  (i < 16)%nat ->
  dlc_to_len (Z.of_nat i) true = Ok (nth i Constants.CANFD_DLC_TO_LEN 0) /\
  Z.of_nat i <= nth i Constants.CANFD_DLC_TO_LEN 0 <= 64.
Proof.
  intros Hi.
  do 16 (destruct i as [|i]; [split; [reflexivity | cbn; lia]|]).
  lia.
Qed.

Lemma CANFD_DLC_TO_LEN_increasing (i j : nat) :
  (i <= j)%nat -> (j < 16)%nat ->
  nth i Constants.CANFD_DLC_TO_LEN 0 <= nth j Constants.CANFD_DLC_TO_LEN 0.
Proof.
  intros Hij Hj.
  assert (Hstep : forall k, (S k < 16)%nat ->
            nth k Constants.CANFD_DLC_TO_LEN 0
            <= nth (S k) Constants.CANFD_DLC_TO_LEN 0).
  { intros k Hk.
    do 15 (destruct k as [|k]; [cbn; lia|]). lia. }
  induction Hij as [|j Hij IH]; [lia|].
  specialize (IH ltac:(lia)). specialize (Hstep j Hj). lia.
Qed.

(** The DLC the constructor computes from a data length. *)
Lemma len_to_dlc_of_length (n : nat) (fd : bool) :
  exists i,
    len_to_dlc (Z.of_nat n) fd = Z.of_nat i /\
    (i <= if fd then 15 else 8)%nat /\
    if fd then
      ((n <= 64)%nat ->
       Z.of_nat n <= nth i Constants.CANFD_DLC_TO_LEN 0 /\
       forall j, (j < i)%nat -> nth j Constants.CANFD_DLC_TO_LEN 0 < Z.of_nat n) /\
      ((64 < n)%nat -> i = 15%nat)
    else i = Nat.min n 8.
Proof.
  destruct fd; unfold len_to_dlc.
  - pose proof (len_to_dlc_loop_first (Z.of_nat n) Constants.CANFD_DLC_TO_LEN 0) as H.
    destruct (len_to_dlc_loop (Z.of_nat n) 0 Constants.CANFD_DLC_TO_LEN) as [dlc|].
    + destruct H as (i & -> & Hi & Hnth & Hsmall).
      cbn [length Constants.CANFD_DLC_TO_LEN] in Hi.
      exists i. repeat split; try lia; try assumption.
      intros Hbig. exfalso.
      destruct (dlc_to_len_table i Hi) as [_ Hb]. lia.
    + exists 15%nat. repeat split; try lia.
      * specialize (H 15%nat). cbn in H. lia.
      * specialize (H 15%nat). cbn in H. lia.
  - exists (Nat.min n 8). repeat split; lia.
Qed.

(** X4: a negative DLC is not refused by [dlc_to_len]: in FD mode the table
    is read from its end for [-16 <= dlc < 0] and [IndexError] is raised
    below [-16]; a DLC from 0 to 15 gives its table entry, which is at least
    the DLC, at most 64 and grows with the DLC; a DLC of 16 or more gives 64;
    in classic mode the result is [min(dlc, 8)] for every integer. *)
Theorem dlc_to_len_cases (dlc : Z) :
  (16 <= dlc -> dlc_to_len dlc true = Ok 64) /\
  (0 <= dlc < 16 ->
   exists l, dlc_to_len dlc true = Ok l /\ dlc <= l <= 64 /\
     forall dlc' l', dlc <= dlc' < 16 -> dlc_to_len dlc' true = Ok l' -> l <= l') /\
  (-16 <= dlc < 0 -> dlc_to_len dlc true = dlc_to_len (dlc + 16) true) /\
  (dlc < -16 -> dlc_to_len dlc true = Raise IndexError) /\
  dlc_to_len dlc false = Ok (Z.min dlc 8).
Proof.
  split; [|split; [|split; [|split]]].
  - intros H. unfold dlc_to_len. cbn [length Constants.CANFD_DLC_TO_LEN].
    destruct (Z.ltb_spec dlc (Z.of_nat 16)); [lia | reflexivity].
  - intros H.
    destruct (dlc_to_len_table (Z.to_nat dlc) ltac:(lia)) as [Hl Hb].
    rewrite Z2Nat.id in Hl, Hb by lia.
    eexists. split; [exact Hl|]. split; [exact Hb|].
    intros dlc' l' H' Hl'.
    destruct (dlc_to_len_table (Z.to_nat dlc') ltac:(lia)) as [Hl2 _].
    rewrite Z2Nat.id in Hl2 by lia.
    assert (l' = nth (Z.to_nat dlc') Constants.CANFD_DLC_TO_LEN 0) by congruence.
    subst l'. apply CANFD_DLC_TO_LEN_increasing; lia.
  - intros H.
    assert (Hin : In dlc [-16; -15; -14; -13; -12; -11; -10; -9;
                          -8; -7; -6; -5; -4; -3; -2; -1]) by (simpl; lia).
    simpl in Hin.
    repeat (destruct Hin as [<-|Hin]; [reflexivity|]). contradiction.
  - intros H. unfold dlc_to_len, py_index.
    cbn [length Constants.CANFD_DLC_TO_LEN].
    destruct (Z.ltb_spec dlc (Z.of_nat 16)); [|lia].
    destruct (Z.leb_spec 0 dlc); [lia|]. cbn [andb].
    destruct (Z.leb_spec (- Z.of_nat 16) dlc); [lia | reflexivity].
  - reflexivity.
Qed.

(** X4 at DLC 9, DLC 200, DLC -1 and DLC -17. *)
Lemma dlc_to_len_cases_witness :
  dlc_to_len 200 true = Ok 64 /\
  (exists l, dlc_to_len 9 true = Ok l /\ 9 <= l <= 64) /\
  dlc_to_len (-1) true = dlc_to_len 15 true /\
  dlc_to_len (-17) true = Raise IndexError.
Proof.
  split; [|split; [|split]].
  - apply (proj1 (dlc_to_len_cases 200)). lia.
  - destruct (proj1 (proj2 (dlc_to_len_cases 9)) ltac:(lia)) as (l & Hl & Hb & _).
    exists l. split; assumption.
  - apply (proj1 (proj2 (proj2 (dlc_to_len_cases (-1))))). lia.
  - apply (proj1 (proj2 (proj2 (proj2 (dlc_to_len_cases (-17)))))). lia.
Defined.

Section Constructor.

Variable can_id : Z.
Variable data : list Z.
Variables fd brs : bool.

(** The data list the constructor stores: the given data cut to the frame's
    maximum and padded with zeros to it. *)
Lemma init_data :
  GsUsbFrame.data (GsUsbFrame.init can_id data fd brs)
  = firstn (payload_size fd) data ++ repeat 0 (payload_size fd - length data) /\
  length (GsUsbFrame.data (GsUsbFrame.init can_id data fd brs)) = payload_size fd.
Proof.
  assert (Hdata :
    GsUsbFrame.data (GsUsbFrame.init can_id data fd brs)
    = firstn (payload_size fd) data ++ repeat 0 (payload_size fd - length data)).
  { unfold GsUsbFrame.init. cbn [GsUsbFrame.data].
    assert (Hmax : (if fd then Constants.CANFD_MAX_DLEN else 8)
                   = Z.of_nat (payload_size fd)) by (destruct fd; reflexivity).
    rewrite Hmax.
    replace (Z.to_nat (Z.min (Z.of_nat (length data)) (Z.of_nat (payload_size fd))))
      with (Nat.min (length data) (payload_size fd)) by lia.
    replace (Z.to_nat (Z.of_nat (payload_size fd)
                       - Z.min (Z.of_nat (length data)) (Z.of_nat (payload_size fd))))
      with (payload_size fd - length data)%nat by lia.
    f_equal.
    destruct (Nat.le_ge_cases (length data) (payload_size fd)) as [Hle|Hge].
    - rewrite Nat.min_l by exact Hle.
      now rewrite firstn_all, firstn_all2 by exact Hle.
    - now rewrite Nat.min_r by exact Hge. }
  split; [exact Hdata|].
  rewrite Hdata, length_app, length_firstn, repeat_length. lia.
Qed.

Lemma init_flags :
  GsUsbFrame.is_fd (GsUsbFrame.init can_id data fd brs) = fd /\
  GsUsbFrame.is_brs (GsUsbFrame.init can_id data fd brs) = brs && fd /\
  0 <= GsUsbFrame.flags (GsUsbFrame.init can_id data fd brs) < 256.
Proof. destruct fd, brs; repeat split; cbn; lia. Qed.

(** A frame from the constructor fits the wire of its own frame type when
    the identifier is a 32-bit value and the data are bytes. *)
Lemma init_fits_wire :
  0 <= can_id < 2 ^ 32 ->
  Forall (fun b => 0 <= b < 256) data ->
  fits_wire (GsUsbFrame.init can_id data fd brs) fd.
Proof.
  intros Hid Hbytes.
  destruct init_data as [Hdata Hlen].
  destruct init_flags as (_ & _ & Hflags).
  destruct (len_to_dlc_of_length (length data) fd) as (i & Hdlc & Hi & _).
  unfold fits_wire. rewrite Hlen.
  change (GsUsbFrame.echo_id (GsUsbFrame.init can_id data fd brs)) with 0.
  change (GsUsbFrame.can_id (GsUsbFrame.init can_id data fd brs)) with can_id.
  change (GsUsbFrame.channel (GsUsbFrame.init can_id data fd brs)) with 0.
  change (GsUsbFrame.reserved (GsUsbFrame.init can_id data fd brs)) with 0.
  change (GsUsbFrame.can_dlc (GsUsbFrame.init can_id data fd brs))
    with (len_to_dlc (Z.of_nat (length data)) fd).
  rewrite Hdlc.
  split; [lia|]. split; [exact Hid|].
  split; [destruct fd; lia|].
  split; [lia|]. split; [exact Hflags|]. split; [lia|].
  split; [lia|].
  rewrite <- Hlen at 1. rewrite firstn_all, Hdata.
  apply Forall_app. split.
  - rewrite <- (firstn_skipn (payload_size fd)) in Hbytes.
    now apply Forall_app in Hbytes.
  - apply Forall_forall. intros v Hv. apply repeat_spec in Hv. lia.
Qed.

End Constructor.

(** X5: for every identifier, data list and pair of flags, the constructor
    stores the data cut to the frame's maximum (64 with [fd], else 8) and
    padded with zeros to exactly that many entries; the frame reports
    [is_fd = fd] and [is_brs = brs and fd]; and [data_length] never raises on
    it and lies between the number of data entries kept and the maximum, so
    the payload the DLC announces holds all the data kept. *)
Theorem init_invariants (can_id : Z) (data : list Z) (fd brs : bool) :
  GsUsbFrame.data (GsUsbFrame.init can_id data fd brs)
  = firstn (payload_size fd) data ++ repeat 0 (payload_size fd - length data) /\
  length (GsUsbFrame.data (GsUsbFrame.init can_id data fd brs)) = payload_size fd /\
  GsUsbFrame.is_fd (GsUsbFrame.init can_id data fd brs) = fd /\
  GsUsbFrame.is_brs (GsUsbFrame.init can_id data fd brs) = brs && fd /\
  exists l,
    GsUsbFrame.data_length (GsUsbFrame.init can_id data fd brs) = Ok l /\
    Z.of_nat (Nat.min (length data) (payload_size fd)) <= l
      <= Z.of_nat (payload_size fd).
Proof.
  destruct (init_data can_id data fd brs) as [Hdata Hlen].
  destruct (init_flags can_id data fd brs) as (Hfd & Hbrs & _).
  split; [exact Hdata|]. split; [exact Hlen|].
  split; [exact Hfd|]. split; [exact Hbrs|].
  unfold GsUsbFrame.data_length. rewrite Hfd.
  cbn [GsUsbFrame.init GsUsbFrame.can_dlc].
  destruct (len_to_dlc_of_length (length data) fd) as (i & Hdlc & Hi & Hrest).
  rewrite Hdlc. destruct fd; cbn [payload_size].
  - destruct (dlc_to_len_table i ltac:(lia)) as [Hl Hb].
    eexists. split; [exact Hl|]. split; [|lia].
    destruct Hrest as [Hsmall Hbig].
    destruct (Nat.le_gt_cases (length data) 64) as [Hle|Hgt].
    + destruct (Hsmall Hle) as [Hge _]. lia.
    + rewrite (Hbig Hgt). cbn. lia.
  - subst i. exists (Z.min (Z.of_nat (Nat.min (length data) 8)) 8).
    split; [reflexivity | lia].
Qed.

(** X6: a frame built by the constructor from a 32-bit identifier and byte
    data is accepted by [pack] in the layouts of its own frame type, and
    [from_bytes] on the result gives the frame back with its data padded
    with zeros to 64 entries - the very same frame when it was built with
    [fd]. *)
Theorem init_pack_from_bytes (can_id : Z) (data : list Z) (fd brs hw_timestamp : bool) :
  0 <= can_id < 2 ^ 32 ->
  Forall (fun b => 0 <= b < 256) data ->
  exists bs,
    GsUsbFrame.pack (GsUsbFrame.init can_id data fd brs) hw_timestamp fd = Ok bs /\
    GsUsbFrame.from_bytes bs hw_timestamp fd
    = Ok (GsUsbFrame.set_data (GsUsbFrame.init can_id data fd brs)
            (GsUsbFrame.data (GsUsbFrame.init can_id data fd brs)
               ++ repeat 0 (64 - payload_size fd))) /\
    (fd = true ->
     GsUsbFrame.from_bytes bs hw_timestamp fd
     = Ok (GsUsbFrame.init can_id data fd brs)).
Proof.
  intros Hid Hbytes.
  pose proof (init_fits_wire can_id data fd brs Hid Hbytes) as Hfits.
  destruct (init_data can_id data fd brs) as [_ Hlen].
  destruct (pack_unpack_into _ hw_timestamp fd Hfits GsUsbFrame.empty)
    as (bs & Hpack & _ & Hunpack).
  assert (Hdecoded :
    decoded (GsUsbFrame.init can_id data fd brs) GsUsbFrame.empty hw_timestamp fd
    = GsUsbFrame.set_data (GsUsbFrame.init can_id data fd brs)
        (GsUsbFrame.data (GsUsbFrame.init can_id data fd brs)
           ++ repeat 0 (64 - payload_size fd))).
  { unfold decoded, GsUsbFrame.set_data.
    rewrite <- Hlen at 1. rewrite firstn_all.
    f_equal. destruct hw_timestamp; reflexivity. }
  exists bs. unfold GsUsbFrame.from_bytes. rewrite Hunpack, Hdecoded.
  split; [exact Hpack|]. split; [reflexivity|].
  intros ->. cbn [payload_size Nat.sub repeat]. rewrite app_nil_r.
  reflexivity.
Qed.

(** X6 at an FD frame of 12 bytes with bit-rate switch. *)
Lemma init_pack_from_bytes_witness :
  exists bs,
    GsUsbFrame.pack (GsUsbFrame.init 0x123 (repeat 0xAB 12) true true) true true
    = Ok bs /\
    GsUsbFrame.from_bytes bs true true
    = Ok (GsUsbFrame.init 0x123 (repeat 0xAB 12) true true).
Proof.
  destruct (init_pack_from_bytes 0x123 (repeat 0xAB 12) true true true)
    as (bs & Hpack & _ & Hsame).
  - lia.
  - apply Forall_forall. intros v Hv. apply repeat_spec in Hv. lia.
  - exists bs. split; [exact Hpack | exact (Hsame eq_refl)].
Defined.

(** ** send, read and stop *)

(** [unpack_into] on a buffer of another size raises [struct.error]. *)
Lemma unpack_into_layout_size (frame : GsUsbFrame.t) (bs : list byte) (hw fd : bool) :
  GsUsbFrame.sizeof hw fd = Z.of_nat (length bs) \/
  GsUsbFrame.unpack_into frame bs hw fd = Raise StructError.
Proof.
  rewrite unpack_into_layout, <- calcsize_frame_layout.
  destruct (Nat.eqb_spec (length bs) (Struct.calcsize (frame_layout hw fd)));
    [left; now f_equal | right; reflexivity].
Qed.

(** The layout [read] picks for an encoded frame is the frame's own FD
    flag, whatever layout encoded it. *)
Lemma is_fd_frame_of_pack (f : GsUsbFrame.t) (hw fd : bool) (data : list byte) :
  GsUsbFrame.pack f hw fd = Ok data ->
  GsUsb.is_fd_frame data = GsUsbFrame.is_fd f.
Proof.
  intros Hpack.
  pose proof (pack_ok_fits_wire f hw fd data Hpack) as Hfits.
  destruct (pack_unpack_into f hw fd Hfits f) as (bs & Hbs & Hlen & Hunpack).
  assert (bs = data) by congruence. subst bs.
  rewrite unpack_into_layout in Hunpack.
  rewrite <- calcsize_frame_layout in Hlen. apply Nat2Z.inj in Hlen.
  rewrite Hlen, Nat.eqb_refl in Hunpack.
  assert (Hflags : byte.unsigned (nth 10 data Byte.x00) = GsUsbFrame.flags f).
  { rewrite <- (frame_of_values_flags f data hw fd Hlen).
    assert (Hframe :
      frame_of_values f (Struct.unpack_items (frame_layout hw fd) data) hw fd
      = decoded f f hw fd) by congruence.
    now rewrite Hframe. }
  unfold GsUsb.is_fd_frame.
  assert (H11 : (11 <=? length data)%nat = true).
  { apply Nat.leb_le. rewrite Hlen. unfold frame_layout.
    rewrite !calcsize_app. simpl. lia. }
  now rewrite H11, Hflags.
Qed.

(** X7: [send] writes the encoding of the frame in the session's layout to
    endpoint 0x02 and returns [True] when the device accepts it, raising what
    the write raises otherwise; a frame that does not fit the wire of the
    session's layout raises [struct.error] before any transfer - so in an
    FD-active session every frame with fewer than 64 data entries, such as a
    frame built without [fd], is refused. *)
Theorem send_behaviour (dev : UsbDevice) (frame : GsUsbFrame.t) (w : GsUsb.world) :
  (forall payload,
     GsUsbFrame.pack frame (GsUsb.hw_timestamps (GsUsb.self w))
       (GsUsb.fd_mode (GsUsb.self w)) = Ok payload ->
     GsUsb.send dev frame w
     = (rbind (on_write dev (GsUsb.trace w) 0x02 payload) (fun _ => Ok true),
        {| GsUsb.self := GsUsb.self w;
           GsUsb.trace := GsUsb.trace w ++ [BulkWrite 0x02 payload] |})) /\
  (~ fits_wire frame (GsUsb.fd_mode (GsUsb.self w)) ->
   GsUsb.send dev frame w = (Raise StructError, w)) /\
  (GsUsb.fd_mode (GsUsb.self w) = true ->
   (length (GsUsbFrame.data frame) < 64)%nat ->
   GsUsb.send dev frame w = (Raise StructError, w)).
Proof.
  assert (Hrefused :
    ~ fits_wire frame (GsUsb.fd_mode (GsUsb.self w)) ->
    GsUsb.send dev frame w = (Raise StructError, w)).
  { intros Hno. unfold GsUsb.send, GsUsb.bind, GsUsb.get_self, GsUsb.lift.
    destruct (GsUsbFrame.pack frame (GsUsb.hw_timestamps (GsUsb.self w))
                (GsUsb.fd_mode (GsUsb.self w))) as [bs|e] eqn:Hpack.
    - exfalso. apply Hno. eapply pack_ok_fits_wire, Hpack.
    - rewrite pack_layout in Hpack.
      now rewrite (pack_items_error _ _ _ Hpack). }
  split; [|split; [exact Hrefused|]].
  - intros payload Hpack.
    unfold GsUsb.send, GsUsb.bind, GsUsb.get_self, GsUsb.lift, GsUsb.usb_write,
      GsUsb.transport, GsUsb.ret.
    rewrite Hpack.
    now destruct (on_write dev (GsUsb.trace w) 2 payload).
  - intros Hfd Hshort. apply Hrefused. rewrite Hfd.
    intros (_ & _ & _ & _ & _ & _ & Hlen & _). cbn [payload_size] in Hlen. lia.
Qed.

(** X7 on the constructor's classic frame: sent in a classic session,
    refused in an FD-active one. *)
Lemma send_behaviour_witness :
  GsUsb.send plain_device classic_frame fresh
  = (Ok true,
     {| GsUsb.self := GsUsb.self fresh;
        GsUsb.trace := [BulkWrite 0x02 classic_echo_bytes] |}) /\
  GsUsb.send plain_device classic_frame fd_session = (Raise StructError, fd_session).
Proof.
  split.
  - apply (proj1 (send_behaviour plain_device classic_frame fresh)
             classic_echo_bytes).
    vm_compute. reflexivity.
  - apply (proj2 (proj2 (send_behaviour plain_device classic_frame fd_session))).
    + reflexivity.
    + vm_compute. lia.
Defined.

(** X8: when a bulk read returns the encoding of a frame in the session's
    layout - what [send] wrote - [read] decodes it to that frame if the
    frame's FD flag agrees with the session's FD mode, and raises
    [struct.error] if it does not, because [read] takes the layout from the
    frame's flag and the sizes of the two layouts differ. *)
Theorem read_back_sent (dev : UsbDevice) (f frame : GsUsbFrame.t) (timeout_ms : Z)
    (w : GsUsb.world) (payload : list byte) :
  let hw := GsUsb.hw_timestamps (GsUsb.self w) in
  let fd := GsUsb.fd_mode (GsUsb.self w) in
  let w' := {| GsUsb.self := GsUsb.self w;
               GsUsb.trace :=
                 GsUsb.trace w
                   ++ [BulkRead 0x81 (GsUsbFrame.sizeof hw fd) timeout_ms] |} in
  GsUsbFrame.pack f hw fd = Ok payload ->
  on_read dev (GsUsb.trace w) 0x81 (GsUsbFrame.sizeof hw fd) timeout_ms
  = Ok payload ->
  (GsUsbFrame.is_fd f = fd ->
   GsUsb.read dev frame timeout_ms w = (Ok (true, decoded f frame hw fd), w')) /\
  (GsUsbFrame.is_fd f <> fd ->
   GsUsb.read dev frame timeout_ms w = (Raise StructError, w')).
Proof.
  intros hw fd w' Hpack Hanswer.
  pose proof (read_by_answer dev frame timeout_ms w) as Hread.
  cbv zeta in Hread. fold hw fd in Hread. fold w' in Hread.
  rewrite Hanswer, (is_fd_frame_of_pack f hw fd payload Hpack) in Hread.
  pose proof (pack_ok_fits_wire f hw fd payload Hpack) as Hfits.
  destruct (pack_unpack_into f hw fd Hfits frame) as (bs & Hbs & Hlen & Hunpack).
  assert (bs = payload) by congruence. subst bs.
  split.
  - intros Hsame. rewrite Hread, Hsame, Hunpack. reflexivity.
  - intros Hdiff. rewrite Hread.
    destruct (unpack_into_layout_size frame payload hw (GsUsbFrame.is_fd f))
      as [Hsize|Hraise].
    + exfalso. rewrite Hlen in Hsize.
      destruct hw, fd, (GsUsbFrame.is_fd f); try discriminate Hsize;
        now apply Hdiff.
    + now rewrite Hraise.
Qed.

(** X8 on the classic echo in a classic session, and on a frame with its FD
    flag clear encoded in the FD layout of an FD-active session. *)
Lemma read_back_sent_witness :
  GsUsb.read plain_device GsUsbFrame.empty 100 fresh
  = (Ok (true, decoded classic_frame GsUsbFrame.empty false false),
     {| GsUsb.self := GsUsb.self fresh;
        GsUsb.trace := [BulkRead 0x81 20 100] |}) /\
  GsUsb.read padding_device GsUsbFrame.empty 100 fd_session
  = (Raise StructError,
     {| GsUsb.self := GsUsb.self fd_session;
        GsUsb.trace := [BulkRead 0x81 76 100] |}).
Proof.
  split.
  - apply (proj1 (read_back_sent plain_device classic_frame GsUsbFrame.empty 100
                    fresh classic_echo_bytes ltac:(vm_compute; reflexivity)
                    eq_refl)).
    reflexivity.
  - apply (proj2 (read_back_sent padding_device
                    (decoded classic_frame GsUsbFrame.empty false false)
                    GsUsbFrame.empty 100 fd_session padded_echo_bytes
                    ltac:(vm_compute; reflexivity) eq_refl)).
    vm_compute. discriminate.
Defined.

(** X9: [stop] sends one MODE transfer whose payload is eight zero bytes
    (mode RESET, flags 0); it returns normally when the device accepts the
    transfer and also when the transfer raises [USBError], and lets any other
    exception through; it changes none of the session's attributes, so
    [device_flags] and [fd_mode] keep the values of the last [start]. *)
Theorem stop_behaviour (dev : UsbDevice) (w : GsUsb.world) :
  let payload := repeat Byte.x00 8 in
  let w' :=
    {| GsUsb.self := GsUsb.self w;
       GsUsb.trace :=
         GsUsb.trace w
           ++ [CtrlTransferOut 0x41 GsUsb._GS_USB_BREQ_MODE 0 0 payload] |} in
  GsUsb.stop dev w
  = match on_ctrl_out dev (GsUsb.trace w) 0x41 GsUsb._GS_USB_BREQ_MODE 0 0 payload with
    | Ok _ => (Ok tt, w')
    | Raise USBError => (Ok tt, w')
    | Raise e => (Raise e, w')
    end.
Proof.
  intros payload w'.
  unfold GsUsb.stop, GsUsb.bind, GsUsb.lift, GsUsb.catch, GsUsb.ctrl_transfer_out,
    GsUsb.transport, GsUsb.ret, GsUsb.raise.
  change (DeviceMode.pack (DeviceMode.mk GsUsb.GS_CAN_MODE_RESET 0))
    with (Ok payload).
  cbv iota. fold w'.
  now destruct (on_ctrl_out dev (GsUsb.trace w) 65 GsUsb._GS_USB_BREQ_MODE 0 0 payload)
    as [[]|[]].
Qed.

(** ** The capability cache *)

(** X10: an access to [device_capability] that raises has found no cached
    capability, has issued one BT_CONST transfer and has cached nothing, so
    the next access asks the device again; it raises either what the
    transfer raised or [struct.error] for an answer that is not 40 bytes
    long. *)
Theorem device_capability_failure (dev : UsbDevice) (w w1 : GsUsb.world) (e : exn) :
  GsUsb.device_capability dev w = (Raise e, w1) ->
  GsUsb.capability (GsUsb.self w) = None /\
  GsUsb.self w1 = GsUsb.self w /\
  GsUsb.trace w1
  = GsUsb.trace w ++ [CtrlTransferIn 0xC1 GsUsb._GS_USB_BREQ_BT_CONST 0 0 40] /\
  (on_ctrl_in dev (GsUsb.trace w) 0xC1 GsUsb._GS_USB_BREQ_BT_CONST 0 0 40 = Raise e \/
   exists data,
     on_ctrl_in dev (GsUsb.trace w) 0xC1 GsUsb._GS_USB_BREQ_BT_CONST 0 0 40 = Ok data /\
     length data <> 40%nat /\ e = StructError).
Proof.
  unfold GsUsb.device_capability, GsUsb.bind, GsUsb.get_self.
  destruct (GsUsb.capability (GsUsb.self w)) as [c|] eqn:Hc.
  - unfold GsUsb.ret. discriminate.
  - unfold GsUsb.ctrl_transfer_in, GsUsb.transport, GsUsb.lift,
      GsUsb.set_capability, GsUsb.bind, GsUsb.get_self, GsUsb.put_self, GsUsb.ret.
    destruct (on_ctrl_in dev (GsUsb.trace w) 193 GsUsb._GS_USB_BREQ_BT_CONST 0 0 40)
      as [data|e'] eqn:Hanswer.
    + unfold DeviceCapability.unpack, Struct.unpack.
      change (Struct.parse_format "<10I") with (Some (repeat Struct.I 10)).
      cbv beta iota.
      destruct (Nat.eqb_spec (length data) (Struct.calcsize (repeat Struct.I 10)))
        as [Hlen|Hlen]; cbn [rbind]; cbv beta iota; [discriminate|].
      change (Struct.calcsize (repeat Struct.I 10)) with 40%nat in Hlen.
      intros H. injection H as <- <-.
      repeat split. right. exists data. now repeat split.
    + intros H. injection H as <- <-. repeat split. now left.
Qed.

(** X10 on a device that rejects every control read. *)
Lemma device_capability_failure_witness :
  GsUsb.device_capability silent_device fresh
  = (Raise USBError,
     {| GsUsb.self := GsUsb.self fresh;
        GsUsb.trace := [CtrlTransferIn 0xC1 GsUsb._GS_USB_BREQ_BT_CONST 0 0 40] |}) /\
  GsUsb.capability (GsUsb.self fresh) = None /\
  on_ctrl_in silent_device (GsUsb.trace fresh) 0xC1 GsUsb._GS_USB_BREQ_BT_CONST 0 0 40
  = Raise USBError.
Proof.
  assert (H : GsUsb.device_capability silent_device fresh
              = (Raise USBError,
                 {| GsUsb.self := GsUsb.self fresh;
                    GsUsb.trace :=
                      [CtrlTransferIn 0xC1 GsUsb._GS_USB_BREQ_BT_CONST 0 0 40] |}))
    by reflexivity.
  split; [exact H|].
  destruct (device_capability_failure silent_device fresh _ USBError H)
    as (Hnone & _ & _ & _).
  split; [exact Hnone | reflexivity].
Defined.

(** ** start, step by step *)

Section StartSteps.

Import GsUsb.

Variable windows : bool.
Variable gs_usb : UsbDevice.

Lemma bind_inv_raise {A B : Type} (m : M A) (k : A -> M B) (w w' : world) (e : exn) :
  bind m k w = (Raise e, w') ->
  m w = (Raise e, w') \/ exists a w1, m w = (Ok a, w1) /\ k a w1 = (Raise e, w').
Proof.
  unfold bind. destruct (m w) as [[a|e'] w1]; intros H.
  - right. now exists a, w1.
  - left. injection H as -> ->. reflexivity.
Qed.

(** The kernel-driver step of [start]: nothing on Windows, a query and
    possibly a detach elsewhere; the attributes are not touched. *)
Lemma kernel_step_inv (w1 w2 : world) (r : result unit) :
  (if negb windows then
     bind (usb_is_kernel_driver_active gs_usb 0)
       (fun active =>
          if active then usb_detach_kernel_driver gs_usb 0 else ret tt)
   else ret tt) w1 = (r, w2) ->
  self w2 = self w1 /\
  exists kernel,
    trace w2 = trace w1 ++ kernel /\
    (windows = true /\ kernel = [] \/
     windows = false /\
     (kernel = [DevIsKernelDriverActive 0] \/
      kernel = [DevIsKernelDriverActive 0; DevDetachKernelDriver 0])).
Proof.
  destruct windows; cbn [negb].
  - unfold ret. intros H. injection H as <- <-.
    split; [reflexivity|]. exists []. rewrite app_nil_r. auto.
  - unfold bind.
    destruct (usb_is_kernel_driver_active gs_usb 0 w1) as [[active|e] w1'] eqn:Hq.
    + destruct (transport_inv _ _ _ _ _ Hq) as (_ & Hs & Ht).
      destruct active.
      * intros Hd. destruct (transport_inv _ _ _ _ _ Hd) as (_ & Hs2 & Ht2).
        split; [congruence|].
        exists [DevIsKernelDriverActive 0; DevDetachKernelDriver 0].
        rewrite Ht2, Ht, <- app_assoc. auto.
      * unfold ret. intros H. injection H as <- <-.
        split; [exact Hs|]. exists [DevIsKernelDriverActive 0]. auto.
    + destruct (transport_inv _ _ _ _ _ Hq) as (_ & Hs & Ht).
      intros H. injection H as <- <-.
      split; [exact Hs|]. exists [DevIsKernelDriverActive 0]. auto.
Qed.

(** A failed capability access leaves the attributes as they were. *)
Lemma device_capability_raise_self (w w1 : world) (e : exn) :
  device_capability gs_usb w = (Raise e, w1) -> self w1 = self w.
Proof.
  unfold device_capability, bind, get_self.
  destruct (capability (self w)) as [c|].
  - unfold ret. discriminate.
  - unfold ctrl_transfer_in, transport, lift, set_capability, bind, get_self,
      put_self, ret.
    destruct (on_ctrl_in gs_usb (trace w) 193 _GS_USB_BREQ_BT_CONST 0 0 40)
      as [data|e'].
    + destruct (DeviceCapability.unpack data) as [c|e'']; [discriminate|].
      intros H. now injection H as <- <-.
    + intros H. now injection H as <- <-.
Qed.

(** The part of [start] after the capability access. *)
Lemma start_tail (requested : Z) (cap : DeviceCapability.t) (w3 : world) :
  let eff :=
    Z.land (Z.land requested (DeviceCapability.feature cap)) driver_supported_mask in
  let payload := le_split 4 GS_CAN_MODE_START ++ le_split 4 eff in
  bind (set_device_flags eff)
    (fun _ =>
       bind (set_fd_mode (Z.land eff Constants.GS_CAN_MODE_FD
                          =? Constants.GS_CAN_MODE_FD))
         (fun _ =>
            bind (lift (DeviceMode.pack (DeviceMode.mk GS_CAN_MODE_START eff)))
              (fun payload =>
                 ctrl_transfer_out gs_usb 0x41 _GS_USB_BREQ_MODE 0 0 payload))) w3
  = (on_ctrl_out gs_usb (trace w3) 0x41 _GS_USB_BREQ_MODE 0 0 payload,
     {| self :=
          {| capability := capability (self w3);
             device_flags := eff;
             fd_mode := Z.testbit eff 8 |};
        trace :=
          trace w3 ++ [CtrlTransferOut 0x41 _GS_USB_BREQ_MODE 0 0 payload] |}).
Proof.
  intros eff payload.
  pose proof (land_driver_supported_mask_range
                (Z.land requested (DeviceCapability.feature cap))) as Hrange.
  fold eff in Hrange.
  unfold bind at 1, set_device_flags, bind at 1, get_self, put_self.
  unfold bind at 1, set_fd_mode, bind at 1, get_self, put_self.
  cbn [self trace capability device_flags fd_mode].
  rewrite DeviceMode_pack by (unfold GS_CAN_MODE_START; lia).
  unfold bind, lift, ctrl_transfer_out, transport. cbn [self trace].
  fold payload.
  change Constants.GS_CAN_MODE_FD with (2 ^ 8).
  rewrite land_pow2_eqb by lia. reflexivity.
Qed.

End StartSteps.

(** X11: a [start] that returns has called the device in this order: reset;
    on a platform other than Windows the kernel-driver query, followed by a
    detach or not, and on Windows neither; the BT_CONST fetch if and only if
    the session had no cached capability; and last the MODE transfer. *)
Theorem start_transfers (windows : bool) (dev : UsbDevice) (requested : Z)
    (w w' : GsUsb.world) :
  GsUsb.start windows dev requested w = (Ok tt, w') ->
  exists kernel fetch payload,
    GsUsb.trace w'
    = GsUsb.trace w ++ [DevReset] ++ kernel ++ fetch
        ++ [CtrlTransferOut 0x41 GsUsb._GS_USB_BREQ_MODE 0 0 payload] /\
    (windows = true /\ kernel = [] \/
     windows = false /\
     (kernel = [DevIsKernelDriverActive 0] \/
      kernel = [DevIsKernelDriverActive 0; DevDetachKernelDriver 0])) /\
    (GsUsb.capability (GsUsb.self w) <> None /\ fetch = [] \/
     GsUsb.capability (GsUsb.self w) = None /\
     fetch = [CtrlTransferIn 0xC1 GsUsb._GS_USB_BREQ_BT_CONST 0 0 40]).
Proof.
  unfold GsUsb.start. intros H.
  apply bind_inv_ok in H as ([] & w1 & Hreset & H).
  apply bind_inv_ok in H as ([] & w2 & Hkernel & H).
  apply bind_inv_ok in H as (cap & w3 & Hcap & H).
  cbv zeta in H. fold driver_supported_mask in H.
  pose proof (start_tail dev requested cap w3) as Htail. cbv zeta in Htail.
  rewrite Htail in H. clear Htail.
  injection H as _ <-. cbn [GsUsb.trace].
  destruct (transport_inv _ _ _ _ _ Hreset) as (_ & Hs1 & Ht1).
  destruct (kernel_step_inv windows dev _ _ _ Hkernel) as (Hs2 & kernel & Ht2 & Hk).
  destruct (device_capability_ok dev _ _ _ Hcap) as (Hc3 & _ & _ & Hw3).
  exists kernel.
  destruct Hw3 as [->|[Hnone Ht3]].
  - exists []. eexists. split; [|split; [exact Hk|]].
    + rewrite Ht2, Ht1, <- !app_assoc. reflexivity.
    + left. split; [|reflexivity]. rewrite <- Hs1, <- Hs2, Hc3. discriminate.
  - exists [CtrlTransferIn 0xC1 GsUsb._GS_USB_BREQ_BT_CONST 0 0 40].
    eexists. split; [|split; [exact Hk|]].
    + rewrite Ht3, Ht2, Ht1, <- !app_assoc. reflexivity.
    + right. split; [|reflexivity]. now rewrite <- Hs1, <- Hs2.
Qed.

(** X11 on a fresh session, not on Windows, with a device whose kernel
    driver is active. *)
Lemma start_transfers_witness :
  GsUsb.start false full_device 0xFFFF fresh = (Ok tt, started_session) /\
  exists kernel fetch payload,
    GsUsb.trace started_session
    = GsUsb.trace fresh ++ [DevReset] ++ kernel ++ fetch
        ++ [CtrlTransferOut 0x41 GsUsb._GS_USB_BREQ_MODE 0 0 payload] /\
    (false = true /\ kernel = [] \/
     false = false /\
     (kernel = [DevIsKernelDriverActive 0] \/
      kernel = [DevIsKernelDriverActive 0; DevDetachKernelDriver 0])) /\
    (GsUsb.capability (GsUsb.self fresh) <> None /\ fetch = [] \/
     GsUsb.capability (GsUsb.self fresh) = None /\
     fetch = [CtrlTransferIn 0xC1 GsUsb._GS_USB_BREQ_BT_CONST 0 0 40]).
Proof.
  assert (H : GsUsb.start false full_device 0xFFFF fresh = (Ok tt, started_session))
    by (vm_compute; reflexivity).
  split; [exact H|].
  exact (start_transfers false full_device 0xFFFF fresh started_session H).
Defined.

(** X12: a [start] that raises has either left [device_flags] and [fd_mode]
    as they were, or has failed in its last step, the MODE transfer: then
    the exception is the one the transfer raised and the session already
    records the new effective flags and FD mode, although the device was not
    started. *)
Theorem start_failure (windows : bool) (dev : UsbDevice) (requested : Z)
    (w w' : GsUsb.world) (e : exn) :
  GsUsb.start windows dev requested w = (Raise e, w') ->
  (GsUsb.device_flags (GsUsb.self w') = GsUsb.device_flags (GsUsb.self w) /\
   GsUsb.fd_mode (GsUsb.self w') = GsUsb.fd_mode (GsUsb.self w)) \/
  (exists cap t,
     let eff :=
       Z.land (Z.land requested (DeviceCapability.feature cap))
         driver_supported_mask in
     let payload := le_split 4 GsUsb.GS_CAN_MODE_START ++ le_split 4 eff in
     GsUsb.capability (GsUsb.self w') = Some cap /\
     GsUsb.device_flags (GsUsb.self w') = eff /\
     GsUsb.fd_mode (GsUsb.self w') = Z.testbit eff 8 /\
     GsUsb.trace w'
     = t ++ [CtrlTransferOut 0x41 GsUsb._GS_USB_BREQ_MODE 0 0 payload] /\
     on_ctrl_out dev t 0x41 GsUsb._GS_USB_BREQ_MODE 0 0 payload = Raise e).
Proof.
  unfold GsUsb.start. intros H.
  apply bind_inv_raise in H as [Hreset|([] & w1 & Hreset & H)].
  { left. destruct (transport_inv _ _ _ _ _ Hreset) as (_ & -> & _). auto. }
  destruct (transport_inv _ _ _ _ _ Hreset) as (_ & Hs1 & _).
  apply bind_inv_raise in H as [Hkernel|([] & w2 & Hkernel & H)].
  { left. destruct (kernel_step_inv windows dev _ _ _ Hkernel) as (-> & _).
    rewrite Hs1. auto. }
  destruct (kernel_step_inv windows dev _ _ _ Hkernel) as (Hs2 & _).
  apply bind_inv_raise in H as [Hcap|(cap & w3 & Hcap & H)].
  { left. rewrite (device_capability_raise_self dev _ _ _ Hcap), Hs2, Hs1. auto. }
  right.
  cbv zeta in H. fold driver_supported_mask in H.
  pose proof (start_tail dev requested cap w3) as Htail. cbv zeta in Htail.
  rewrite Htail in H. clear Htail.
  destruct (device_capability_ok dev _ _ _ Hcap) as (Hc3 & _).
  injection H as Hanswer <-.
  exists cap, (GsUsb.trace w3). cbv zeta.
  cbn [GsUsb.self GsUsb.trace GsUsb.capability GsUsb.device_flags GsUsb.fd_mode].
  now repeat split.
Qed.

(** X12 on a device that rejects MODE: the flags are recorded all the same. *)
Lemma start_failure_witness :
  GsUsb.start true refusing_device 0x110 fresh = (Raise USBError, refused_session) /\
  GsUsb.device_flags (GsUsb.self refused_session) = 0x110 /\
  GsUsb.fd_mode (GsUsb.self refused_session) = true /\
  ((GsUsb.device_flags (GsUsb.self refused_session)
    = GsUsb.device_flags (GsUsb.self fresh) /\
    GsUsb.fd_mode (GsUsb.self refused_session) = GsUsb.fd_mode (GsUsb.self fresh)) \/
   (exists cap t,
      let eff :=
        Z.land (Z.land 0x110 (DeviceCapability.feature cap)) driver_supported_mask in
      let payload := le_split 4 GsUsb.GS_CAN_MODE_START ++ le_split 4 eff in
      GsUsb.capability (GsUsb.self refused_session) = Some cap /\
      GsUsb.device_flags (GsUsb.self refused_session) = eff /\
      GsUsb.fd_mode (GsUsb.self refused_session) = Z.testbit eff 8 /\
      GsUsb.trace refused_session
      = t ++ [CtrlTransferOut 0x41 GsUsb._GS_USB_BREQ_MODE 0 0 payload] /\
      on_ctrl_out refusing_device t 0x41 GsUsb._GS_USB_BREQ_MODE 0 0 payload
      = Raise USBError)).
Proof.
  assert (H : GsUsb.start true refusing_device 0x110 fresh
              = (Raise USBError, refused_session)) by (vm_compute; reflexivity).
  split; [exact H|]. split; [vm_compute; reflexivity|].
  split; [vm_compute; reflexivity|].
  exact (start_failure true refusing_device 0x110 fresh refused_session USBError H).
Defined.

(** ** Capabilities on the wire *)

Section CapabilityDecoding.

Import Struct.

(** [unpack] reads a prefix of the buffer only. *)
Lemma unpack_items_firstn (cs : list code) :
  forall bs n, (calcsize cs <= n)%nat ->
    unpack_items cs (firstn n bs) = unpack_items cs bs.
Proof.
  induction cs as [|c cs IH]; intros bs n Hn; [reflexivity|].
  cbn [calcsize fold_right] in Hn. fold (calcsize cs) in Hn.
  cbn [unpack_items].
  rewrite firstn_firstn, Nat.min_l by lia.
  rewrite skipn_firstn_comm, IH by lia. reflexivity.
Qed.

Lemma unpack_10I (bs : list byte) :
  DeviceCapability.unpack bs
  = if (length bs =? 40)%nat
    then
      let u := unpack_items (repeat I 10) bs in
      Ok (DeviceCapability.mk (nth 0 u 0) (nth 1 u 0) (nth 2 u 0) (nth 3 u 0)
            (nth 4 u 0) (nth 5 u 0) (nth 6 u 0) (nth 7 u 0) (nth 8 u 0)
            (nth 9 u 0) None None None None None None None None)
    else Raise StructError.
Proof.
  unfold DeviceCapability.unpack, Struct.unpack.
  change (parse_format "<10I") with (Some (repeat I 10)). cbv beta iota.
  change (calcsize (repeat I 10)) with 40%nat.
  now destruct (length bs =? 40)%nat.
Qed.

Lemma unpack_18I (bs : list byte) :
  DeviceCapability.unpack_extended bs
  = if (length bs =? 72)%nat
    then
      let u := unpack_items (repeat I 18) bs in
      Ok (DeviceCapability.mk (nth 0 u 0) (nth 1 u 0) (nth 2 u 0) (nth 3 u 0)
            (nth 4 u 0) (nth 5 u 0) (nth 6 u 0) (nth 7 u 0) (nth 8 u 0)
            (nth 9 u 0)
            (Some (nth 10 u 0)) (Some (nth 11 u 0)) (Some (nth 12 u 0))
            (Some (nth 13 u 0)) (Some (nth 14 u 0)) (Some (nth 15 u 0))
            (Some (nth 16 u 0)) (Some (nth 17 u 0)))
    else Raise StructError.
Proof.
  unfold DeviceCapability.unpack_extended, Struct.unpack.
  change (parse_format "<18I") with (Some (repeat I 18)). cbv beta iota.
  change (calcsize (repeat I 18)) with 72%nat.
  now destruct (length bs =? 72)%nat.
Qed.

(** The first ten words of an extended answer are its nominal part. *)
Lemma unpack_items_18_10 (bs : list byte) (i : nat) :
  (i < 10)%nat ->
  nth i (unpack_items (repeat I 18) bs) 0
  = nth i (unpack_items (repeat I 10) (firstn 40 bs)) 0.
Proof.
  intros Hi.
  change (repeat I 18) with (repeat I 10 ++ repeat I 8).
  rewrite unpack_items_app, app_nth1
    by (rewrite unpack_items_length, repeat_length; exact Hi).
  now rewrite unpack_items_firstn by (simpl; lia).
Qed.

End CapabilityDecoding.

(** X13: [DeviceCapability.unpack] accepts exactly the buffers of 40 bytes
    and gives a capability without data-phase timing whose feature word and
    clock are the first two little-endian 32-bit words;
    [DeviceCapability.unpack_extended] accepts exactly the buffers of 72
    bytes and gives a capability with data-phase timing whose ten nominal
    fields are those [unpack] reads from the first 40 bytes; every other
    buffer raises [struct.error]. *)
Theorem capability_decoding (bs : list byte) :
  (length bs = 40%nat ->
   exists c,
     DeviceCapability.unpack bs = Ok c /\
     DeviceCapability.has_fd_timing c = false /\
     DeviceCapability.feature c = le_combine (firstn 4 bs) /\
     DeviceCapability.fclk_can c = le_combine (firstn 4 (skipn 4 bs))) /\
  (length bs <> 40%nat -> DeviceCapability.unpack bs = Raise StructError) /\
  (length bs = 72%nat ->
   exists c c0,
     DeviceCapability.unpack_extended bs = Ok c /\
     DeviceCapability.has_fd_timing c = true /\
     DeviceCapability.unpack (firstn 40 bs) = Ok c0 /\
     nominal_fields c = nominal_fields c0) /\
  (length bs <> 72%nat -> DeviceCapability.unpack_extended bs = Raise StructError).
Proof.
  split; [|split; [|split]].
  - intros Hlen. rewrite unpack_10I, Hlen. cbv zeta. cbn [Nat.eqb].
    eexists. split; [reflexivity|]. repeat split.
  - intros Hlen. rewrite unpack_10I.
    now destruct (Nat.eqb_spec (length bs) 40).
  - intros Hlen. rewrite unpack_18I, unpack_10I, Hlen.
    rewrite length_firstn, Hlen. cbn [Nat.min Nat.eqb]. cbv zeta.
    eexists. eexists. split; [reflexivity|]. split; [reflexivity|].
    split; [reflexivity|].
    unfold nominal_fields.
    cbn [DeviceCapability.feature DeviceCapability.fclk_can
         DeviceCapability.tseg1_min DeviceCapability.tseg1_max
         DeviceCapability.tseg2_min DeviceCapability.tseg2_max
         DeviceCapability.sjw_max DeviceCapability.brp_min
         DeviceCapability.brp_max DeviceCapability.brp_inc].
    rewrite !unpack_items_18_10 by lia. reflexivity.
  - intros Hlen. rewrite unpack_18I.
    now destruct (Nat.eqb_spec (length bs) 72).
Qed.

(** X13 at a BT_CONST answer and at the extended answer that begins with
    it. *)
Lemma capability_decoding_witness :
  (exists c,
     DeviceCapability.unpack (bt_const_bytes 0x5FF 80000000) = Ok c /\
     DeviceCapability.has_fd_timing c = false /\
     DeviceCapability.feature c = le_combine (firstn 4 (bt_const_bytes 0x5FF 80000000)) /\
     DeviceCapability.fclk_can c
     = le_combine (firstn 4 (skipn 4 (bt_const_bytes 0x5FF 80000000)))) /\
  DeviceCapability.unpack (bt_const_ext_bytes 0x5FF 80000000) = Raise StructError /\
  (exists c c0,
     DeviceCapability.unpack_extended (bt_const_ext_bytes 0x5FF 80000000) = Ok c /\
     DeviceCapability.has_fd_timing c = true /\
     DeviceCapability.unpack (firstn 40 (bt_const_ext_bytes 0x5FF 80000000)) = Ok c0 /\
     nominal_fields c = nominal_fields c0) /\
  DeviceCapability.unpack_extended (bt_const_bytes 0x5FF 80000000)
  = Raise StructError.
Proof.
  split; [|split; [|split]].
  - apply (proj1 (capability_decoding (bt_const_bytes 0x5FF 80000000))).
    reflexivity.
  - apply (proj1 (proj2 (capability_decoding (bt_const_ext_bytes 0x5FF 80000000)))).
    vm_compute. discriminate.
  - apply (proj1 (proj2 (proj2
             (capability_decoding (bt_const_ext_bytes 0x5FF 80000000))))).
    reflexivity.
  - apply (proj2 (proj2 (proj2 (capability_decoding (bt_const_bytes 0x5FF 80000000))))).
    vm_compute. discriminate.
Defined.

Section ExtendedCapability.

Import GsUsb.

Variable gs_usb : UsbDevice.

(** With an extended capability in the cache, nothing is transferred. *)
Lemma device_capability_extended_cached (w : world) (c : DeviceCapability.t) :
  capability (self w) = Some c ->
  DeviceCapability.has_fd_timing c = true ->
  device_capability_extended gs_usb w
  = (Ok (if Z.land (DeviceCapability.feature c)
              Constants.GS_CAN_FEATURE_BT_CONST_EXT =? 0
         then None else Some c), w).
Proof.
  intros Hc Hfd. unfold device_capability_extended.
  rewrite (bind_ok _ _ _ _ _ (device_capability_cached gs_usb w c Hc)).
  destruct (Z.land (DeviceCapability.feature c)
              Constants.GS_CAN_FEATURE_BT_CONST_EXT =? 0); [reflexivity|].
  unfold bind, get_self. now rewrite Hc, Hfd.
Qed.

(** What a successful extended access leaves behind. *)
Lemma device_capability_extended_some (w w1 : world) (c : DeviceCapability.t) :
  device_capability_extended gs_usb w = (Ok (Some c), w1) ->
  DeviceCapability.has_fd_timing c = true /\ capability (self w1) = Some c.
Proof.
  unfold device_capability_extended. intros H.
  apply bind_inv_ok in H as (cap & w0 & Hcap & H).
  destruct (device_capability_ok gs_usb _ _ _ Hcap) as (Hc0 & _).
  destruct (Z.land (DeviceCapability.feature cap)
              Constants.GS_CAN_FEATURE_BT_CONST_EXT =? 0).
  { unfold ret in H. discriminate. }
  unfold bind at 1, get_self in H. rewrite Hc0 in H.
  destruct (DeviceCapability.has_fd_timing cap) eqn:Hfd.
  - unfold ret in H. injection H as <- <-. now split.
  - apply bind_inv_ok in H as (data & w2 & _ & H).
    apply bind_inv_ok in H as (c' & w2' & Hunpack & H).
    unfold lift in Hunpack. injection Hunpack as Hunpack <-.
    apply bind_inv_ok in H as ([] & w3 & Hset & H).
    unfold ret in H. injection H as <- <-.
    unfold set_capability, bind, get_self, put_self in Hset.
    injection Hset as <-. cbn [self capability]. split; [|reflexivity].
    rewrite unpack_18I in Hunpack.
    destruct (length data =? 72)%nat; [|discriminate].
    cbv zeta in Hunpack. injection Hunpack as <-. reflexivity.
Qed.

End ExtendedCapability.

(** X14: [device_capability_extended] returns [None] without a BT_CONST_EXT
    transfer when the feature word lacks the BT_CONST_EXT bit.  When it
    returns a capability, that capability has data-phase timing and has
    replaced the cached one, so [device_capability] returns it from then on;
    a further extended access transfers nothing and is decided by the
    feature word of that capability: the same capability if it has the
    BT_CONST_EXT bit, [None] if it does not. *)
Theorem device_capability_extended_cache (dev : UsbDevice) (w w1 : GsUsb.world) :
  (forall cap,
     GsUsb.device_capability dev w = (Ok cap, w1) ->
     Z.land (DeviceCapability.feature cap) Constants.GS_CAN_FEATURE_BT_CONST_EXT = 0 ->
     GsUsb.device_capability_extended dev w = (Ok None, w1)) /\
  (forall c,
     GsUsb.device_capability_extended dev w = (Ok (Some c), w1) ->
     DeviceCapability.has_fd_timing c = true /\
     GsUsb.device_capability dev w1 = (Ok c, w1) /\
     GsUsb.device_capability_extended dev w1
     = (Ok (if Z.land (DeviceCapability.feature c)
                 Constants.GS_CAN_FEATURE_BT_CONST_EXT =? 0
            then None else Some c), w1)).
Proof.
  split.
  - intros cap Hcap Hbit. unfold GsUsb.device_capability_extended.
    now rewrite (bind_ok _ _ _ _ _ Hcap), Hbit.
  - intros c H.
    destruct (device_capability_extended_some dev _ _ _ H) as [Hfd Hc].
    split; [exact Hfd|]. split.
    + apply device_capability_cached, Hc.
    + apply device_capability_extended_cached; assumption.
Qed.

(** X14 on a device without the extended feature, and on an FD device from
    a fresh session. *)
Lemma device_capability_extended_cache_witness :
  GsUsb.device_capability_extended device_40MHz fresh = (Ok None, session_40MHz) /\
  GsUsb.device_capability_extended extended_device fresh
  = (Ok (Some capability_extended), extended_session) /\
  GsUsb.trace extended_session
  = [CtrlTransferIn 0xC1 GsUsb._GS_USB_BREQ_BT_CONST 0 0 40;
     CtrlTransferIn 0xC1 GsUsb._GS_USB_BREQ_BT_CONST_EXT 0 0 72] /\
  GsUsb.device_capability extended_device extended_session
  = (Ok capability_extended, extended_session) /\
  GsUsb.device_capability_extended extended_device extended_session
  = (Ok (Some capability_extended), extended_session).
Proof.
  assert (H0 : GsUsb.device_capability device_40MHz fresh
               = (Ok capability_40MHz, session_40MHz)) by (vm_compute; reflexivity).
  assert (H1 : GsUsb.device_capability_extended extended_device fresh
               = (Ok (Some capability_extended), extended_session))
    by (vm_compute; reflexivity).
  destruct (proj2 (device_capability_extended_cache extended_device fresh
                     extended_session) capability_extended H1)
    as (_ & Hcap & Hagain).
  split.
  { exact (proj1 (device_capability_extended_cache device_40MHz fresh session_40MHz)
             capability_40MHz H0 eq_refl). }
  split; [exact H1|]. split; [vm_compute; reflexivity|].
  split; [exact Hcap | exact Hagain].
Defined.

(** ** The timing tables *)

Section Tables.

Import GsUsb.

Variable gs_usb : UsbDevice.

(** With sample point 87.5, [set_bitrate] is the table of the clock. *)
Lemma set_bitrate_at_clock (bitrate : Z) (w w1 : world) (cap : DeviceCapability.t) :
  device_capability gs_usb w = (Ok cap, w1) ->
  (DeviceCapability.fclk_can cap = 48000000 ->
   set_bitrate gs_usb bitrate sample_point_87_5 w
   = set_bitrate_48MHz gs_usb bitrate 1 1 w1) /\
  (DeviceCapability.fclk_can cap = 80000000 ->
   set_bitrate gs_usb bitrate sample_point_87_5 w
   = set_bitrate_80MHz gs_usb bitrate 1 1 w1) /\
  (DeviceCapability.fclk_can cap = 40000000 ->
   set_bitrate gs_usb bitrate sample_point_87_5 w
   = set_bitrate_40MHz gs_usb bitrate 1 1 w1).
Proof.
  intros Hcap.
  pose proof (device_capability_again gs_usb _ _ _ Hcap) as Hagain.
  repeat split; intros Hclk; unfold set_bitrate; cbv zeta;
    rewrite (bind_ok _ _ _ _ _ Hcap), Hclk; cbn [Z.eqb Pos.eqb andb];
    try reflexivity;
    rewrite (bind_ok _ _ _ _ _ Hagain), Hclk; cbn [Z.eqb Pos.eqb andb];
    try reflexivity;
    rewrite (bind_ok _ _ _ _ _ Hagain), Hclk; reflexivity.
Qed.

(** On an FD device [set_data_bitrate] is the table of the clock, for every
    sample point. *)
Lemma set_data_bitrate_at_clock (bitrate : Z) (sample_point : Q) (w w1 : world)
    (cap : DeviceCapability.t) :
  device_capability gs_usb w = (Ok cap, w1) ->
  Z.land (DeviceCapability.feature cap) Constants.GS_CAN_FEATURE_FD <> 0 ->
  (DeviceCapability.fclk_can cap = 80000000 ->
   set_data_bitrate gs_usb bitrate sample_point w
   = set_data_bitrate_80MHz gs_usb bitrate 1 1 w1) /\
  (DeviceCapability.fclk_can cap = 40000000 ->
   set_data_bitrate gs_usb bitrate sample_point w
   = set_data_bitrate_40MHz gs_usb bitrate 1 1 w1).
Proof.
  intros Hcap Hfd.
  pose proof (device_capability_again gs_usb _ _ _ Hcap) as Hagain.
  apply Z.eqb_neq in Hfd.
  split; intros Hclk; unfold set_data_bitrate;
    rewrite (bind_ok _ _ _ _ _ Hcap), Hfd; cbv zeta;
    rewrite (bind_ok _ _ _ _ _ Hagain), Hclk; cbn [Z.eqb Pos.eqb];
    try reflexivity;
    rewrite (bind_ok _ _ _ _ _ Hagain), Hclk; reflexivity.
Qed.

End Tables.

(** One entry of a table: the chain reduces to the call of the timing
    method, and the numbers of the entry are checked. *)
Ltac table_entry :=
  do 3 eexists; split; [reflexivity|];
  repeat split; try reflexivity; try lia.

(** X15: for every clock and bitrate of the nominal tables (48, 80 or
    40 MHz; the ten bitrates from 10 kbit/s to 1 Mbit/s), [set_bitrate] with
    sample point 87.5 calls [set_timing] once, with prop_seg = 1, sjw = 1 and
    values for which the clock divided by brp times the number of time
    quanta (1 + prop_seg + phase_seg1 + phase_seg2) is the bitrate - exactly
    so for every bitrate but 83333, rounded down for 83333; the values are in
    the ranges the docstring of [set_timing] gives (phase_seg1 1..15,
    phase_seg2 1..8, brp 1..1024), and the sample point they give lies
    between 86 and 90 percent. *)
Theorem nominal_table_consistent (dev : UsbDevice) (bitrate : Z)
    (w w1 : GsUsb.world) (cap : DeviceCapability.t) :
  GsUsb.device_capability dev w = (Ok cap, w1) ->
  In (DeviceCapability.fclk_can cap) [48000000; 80000000; 40000000] ->
  In bitrate nominal_bitrates ->
  exists phase_seg1 phase_seg2 brp,
    GsUsb.set_bitrate dev bitrate GsUsb.sample_point_87_5 w
    = GsUsb.bind (GsUsb.set_timing dev 1 phase_seg1 phase_seg2 1 brp)
        (fun _ => GsUsb.ret true) w1 /\
    DeviceCapability.fclk_can cap / (brp * (2 + phase_seg1 + phase_seg2)) = bitrate /\
    (bitrate <> 83333 ->
     brp * (2 + phase_seg1 + phase_seg2) * bitrate = DeviceCapability.fclk_can cap) /\
    1 <= phase_seg1 <= 15 /\ 1 <= phase_seg2 <= 8 /\ 1 <= brp <= 1024 /\
    86 * (2 + phase_seg1 + phase_seg2) <= 100 * (2 + phase_seg1)
      <= 90 * (2 + phase_seg1 + phase_seg2).
Proof.
  intros Hcap Hclk Hbitrate.
  destruct (set_bitrate_at_clock dev bitrate w w1 cap Hcap) as (H48 & H80 & H40).
  unfold nominal_bitrates in Hbitrate. simpl in Hclk, Hbitrate.
  destruct Hclk as [Hclk|[Hclk|[Hclk|[]]]]; symmetry in Hclk.
  - rewrite (H48 Hclk), Hclk. clear H48 H80 H40.
    repeat (destruct Hbitrate as [<-|Hbitrate]; [table_entry|]). contradiction.
  - rewrite (H80 Hclk), Hclk. clear H48 H80 H40.
    repeat (destruct Hbitrate as [<-|Hbitrate]; [table_entry|]). contradiction.
  - rewrite (H40 Hclk), Hclk. clear H48 H80 H40.
    repeat (destruct Hbitrate as [<-|Hbitrate]; [table_entry|]). contradiction.
Qed.

(** X15 on the 40 MHz device at 250 kbit/s. *)
Lemma nominal_table_consistent_witness :
  GsUsb.device_capability device_40MHz fresh = (Ok capability_40MHz, session_40MHz) /\
  exists phase_seg1 phase_seg2 brp,
    GsUsb.set_bitrate device_40MHz 250000 GsUsb.sample_point_87_5 fresh
    = GsUsb.bind (GsUsb.set_timing device_40MHz 1 phase_seg1 phase_seg2 1 brp)
        (fun _ => GsUsb.ret true) session_40MHz /\
    DeviceCapability.fclk_can capability_40MHz
      / (brp * (2 + phase_seg1 + phase_seg2)) = 250000 /\
    (250000 <> 83333 ->
     brp * (2 + phase_seg1 + phase_seg2) * 250000
     = DeviceCapability.fclk_can capability_40MHz) /\
    1 <= phase_seg1 <= 15 /\ 1 <= phase_seg2 <= 8 /\ 1 <= brp <= 1024 /\
    86 * (2 + phase_seg1 + phase_seg2) <= 100 * (2 + phase_seg1)
      <= 90 * (2 + phase_seg1 + phase_seg2).
Proof.
  assert (H : GsUsb.device_capability device_40MHz fresh
              = (Ok capability_40MHz, session_40MHz)) by (vm_compute; reflexivity).
  split; [exact H|].
  apply (nominal_table_consistent device_40MHz 250000 fresh session_40MHz
           capability_40MHz H).
  - simpl. tauto.
  - unfold nominal_bitrates. simpl. tauto.
Defined.

(** X16: on a device with the FD feature, for every clock and bitrate of the
    data-phase tables (80 MHz: 2, 4, 5, 8 Mbit/s; 40 MHz: these and
    10 Mbit/s) and for every sample point, [set_data_bitrate] calls
    [set_data_timing] once, with prop_seg = 1, sjw = 1 and values for which
    brp times the number of time quanta times the bitrate is exactly the
    clock; the sample point they give lies between 75 and 80 percent. *)
Theorem data_table_consistent (dev : UsbDevice) (bitrate : Z) (sample_point : Q)
    (w w1 : GsUsb.world) (cap : DeviceCapability.t) :
  GsUsb.device_capability dev w = (Ok cap, w1) ->
  Z.land (DeviceCapability.feature cap) Constants.GS_CAN_FEATURE_FD <> 0 ->
  (DeviceCapability.fclk_can cap = 80000000 /\ In bitrate data_bitrates_80MHz) \/
  (DeviceCapability.fclk_can cap = 40000000 /\ In bitrate data_bitrates_40MHz) ->
  exists phase_seg1 phase_seg2 brp,
    GsUsb.set_data_bitrate dev bitrate sample_point w
    = GsUsb.bind (GsUsb.set_data_timing dev 1 phase_seg1 phase_seg2 1 brp)
        (fun _ => GsUsb.ret true) w1 /\
    brp * (2 + phase_seg1 + phase_seg2) * bitrate = DeviceCapability.fclk_can cap /\
    1 <= phase_seg1 /\ 1 <= phase_seg2 /\ 1 <= brp /\
    75 * (2 + phase_seg1 + phase_seg2) <= 100 * (2 + phase_seg1)
      <= 80 * (2 + phase_seg1 + phase_seg2).
Proof.
  intros Hcap Hfd Hentry.
  destruct (set_data_bitrate_at_clock dev bitrate sample_point w w1 cap Hcap Hfd)
    as (H80 & H40).
  destruct Hentry as [[Hclk Hbitrate]|[Hclk Hbitrate]].
  - rewrite (H80 Hclk), Hclk. clear H80 H40.
    unfold data_bitrates_80MHz in Hbitrate. simpl in Hbitrate.
    repeat (destruct Hbitrate as [<-|Hbitrate]; [table_entry|]). contradiction.
  - rewrite (H40 Hclk), Hclk. clear H80 H40.
    unfold data_bitrates_40MHz in Hbitrate. simpl in Hbitrate.
    repeat (destruct Hbitrate as [<-|Hbitrate]; [table_entry|]). contradiction.
Qed.

(** X16 on the 80 MHz FD device at 8 Mbit/s, asked with sample point 75. *)
Lemma data_table_consistent_witness :
  GsUsb.device_capability fd_device fresh = (Ok capability_fd, session_fd_device) /\
  Z.land (DeviceCapability.feature capability_fd) Constants.GS_CAN_FEATURE_FD <> 0 /\
  exists phase_seg1 phase_seg2 brp,
    GsUsb.set_data_bitrate fd_device 8000000 GsUsb.sample_point_75_0 fresh
    = GsUsb.bind (GsUsb.set_data_timing fd_device 1 phase_seg1 phase_seg2 1 brp)
        (fun _ => GsUsb.ret true) session_fd_device /\
    brp * (2 + phase_seg1 + phase_seg2) * 8000000
    = DeviceCapability.fclk_can capability_fd /\
    1 <= phase_seg1 /\ 1 <= phase_seg2 /\ 1 <= brp /\
    75 * (2 + phase_seg1 + phase_seg2) <= 100 * (2 + phase_seg1)
      <= 80 * (2 + phase_seg1 + phase_seg2).
Proof.
  assert (H : GsUsb.device_capability fd_device fresh
              = (Ok capability_fd, session_fd_device)) by (vm_compute; reflexivity).
  assert (Hfd : Z.land (DeviceCapability.feature capability_fd)
                  Constants.GS_CAN_FEATURE_FD <> 0) by (vm_compute; discriminate).
  split; [exact H|]. split; [exact Hfd|].
  apply (data_table_consistent fd_device 8000000 GsUsb.sample_point_75_0 fresh
           session_fd_device capability_fd H Hfd).
  left. split; [reflexivity|]. unfold data_bitrates_80MHz. simpl. tauto.
Defined.

(** ** set_timing and set_data_timing *)

Section TimingTransfer.

Import Struct.

Lemma DeviceBitTiming_pack (prop_seg phase_seg1 phase_seg2 sjw brp : Z) :
  DeviceBitTiming.pack (DeviceBitTiming.mk prop_seg phase_seg1 phase_seg2 sjw brp)
  = pack_items (repeat I 5) [prop_seg; phase_seg1; phase_seg2; sjw; brp].
Proof. reflexivity. Qed.

Lemma Forall2_fits_I (vs : list Z) :
  Forall2 (fun c v => fits c v = true) (repeat I (length vs)) vs
  <-> Forall (fun v => 0 <= v < 2 ^ 32) vs.
Proof.
  induction vs as [|v vs IH]; cbn [length repeat].
  - split; constructor.
  - split; intros H; inversion H; subst; constructor;
      try (apply IH; assumption).
    + match goal with Hf : fits I v = true |- _ => apply fits_bound in Hf end.
      assumption.
    + apply fits_iff. assumption.
Qed.

End TimingTransfer.

(** X17: [set_timing] and [set_data_timing] refuse, with [struct.error] and
    before any transfer, every call in which one of the five values is
    outside 0..2^32-1; on the other calls each issues exactly one control
    transfer (BITTIMING, DATA_BITTIMING) whose payload has 20 bytes and
    unpacks, as five little-endian 32-bit words, to the five values in the
    order prop_seg, phase_seg1, phase_seg2, sjw, brp, and the call returns or
    raises what the transfer does. *)
Theorem set_timing_behaviour (dev : UsbDevice)
    (prop_seg phase_seg1 phase_seg2 sjw brp : Z) (w : GsUsb.world) :
  (Forall (fun v => 0 <= v < 2 ^ 32) [prop_seg; phase_seg1; phase_seg2; sjw; brp] ->
   exists payload,
     length payload = 20%nat /\
     Struct.unpack "<5I" payload = Ok [prop_seg; phase_seg1; phase_seg2; sjw; brp] /\
     GsUsb.set_timing dev prop_seg phase_seg1 phase_seg2 sjw brp w
     = (on_ctrl_out dev (GsUsb.trace w) 0x41 GsUsb._GS_USB_BREQ_BITTIMING 0 0 payload,
        {| GsUsb.self := GsUsb.self w;
           GsUsb.trace :=
             GsUsb.trace w
               ++ [CtrlTransferOut 0x41 GsUsb._GS_USB_BREQ_BITTIMING 0 0 payload] |}) /\
     GsUsb.set_data_timing dev prop_seg phase_seg1 phase_seg2 sjw brp w
     = (on_ctrl_out dev (GsUsb.trace w) 0x41 GsUsb._GS_USB_BREQ_DATA_BITTIMING 0 0
          payload,
        {| GsUsb.self := GsUsb.self w;
           GsUsb.trace :=
             GsUsb.trace w
               ++ [CtrlTransferOut 0x41 GsUsb._GS_USB_BREQ_DATA_BITTIMING 0 0
                     payload] |})) /\
  (~ Forall (fun v => 0 <= v < 2 ^ 32) [prop_seg; phase_seg1; phase_seg2; sjw; brp] ->
   GsUsb.set_timing dev prop_seg phase_seg1 phase_seg2 sjw brp w
   = (Raise StructError, w) /\
   GsUsb.set_data_timing dev prop_seg phase_seg1 phase_seg2 sjw brp w
   = (Raise StructError, w)).
Proof.
  pose proof (DeviceBitTiming_pack prop_seg phase_seg1 phase_seg2 sjw brp) as Hpack.
  split.
  - intros Hrange.
    apply (Forall2_fits_I [prop_seg; phase_seg1; phase_seg2; sjw; brp]) in Hrange.
    destruct (pack_items_fits _ _ Hrange) as [payload Hpayload].
    destruct (pack_items_unpack _ _ _ Hpayload) as [Hlen Hunpack].
    cbn [length] in Hpayload, Hlen, Hunpack.
    exists payload. split; [exact Hlen|]. split.
    + unfold Struct.unpack.
      change (Struct.parse_format "<5I") with (Some (repeat Struct.I 5)).
      cbv beta iota. now rewrite Hlen, Nat.eqb_refl, Hunpack.
    + unfold GsUsb.set_timing, GsUsb.set_data_timing, GsUsb.bind, GsUsb.lift,
        GsUsb.ctrl_transfer_out, GsUsb.transport.
      rewrite Hpack, Hpayload. split; reflexivity.
  - intros Hno.
    unfold GsUsb.set_timing, GsUsb.set_data_timing, GsUsb.bind, GsUsb.lift.
    rewrite Hpack.
    destruct (Struct.pack_items (repeat Struct.I 5)
                [prop_seg; phase_seg1; phase_seg2; sjw; brp]) as [bs|e] eqn:Hitems.
    + exfalso. apply Hno.
      apply (Forall2_fits_I [prop_seg; phase_seg1; phase_seg2; sjw; brp]).
      eapply pack_items_ok_fits, Hitems.
    + rewrite (pack_items_error _ _ _ Hitems). split; reflexivity.
Qed.

(** X17 at the timing (1, 12, 2, 1, 5) and at a negative prescaler. *)
Lemma set_timing_behaviour_witness :
  (exists payload,
     length payload = 20%nat /\
     Struct.unpack "<5I" payload = Ok [1; 12; 2; 1; 5] /\
     GsUsb.set_timing plain_device 1 12 2 1 5 fresh
     = (Ok tt,
        {| GsUsb.self := GsUsb.self fresh;
           GsUsb.trace :=
             [CtrlTransferOut 0x41 GsUsb._GS_USB_BREQ_BITTIMING 0 0 payload] |})) /\
  GsUsb.set_timing plain_device 1 12 2 1 (-5) fresh = (Raise StructError, fresh).
Proof.
  split.
  - destruct (proj1 (set_timing_behaviour plain_device 1 12 2 1 5 fresh))
      as (payload & Hlen & Hunpack & Hset & _).
    + repeat constructor; lia.
    + exists payload. split; [exact Hlen|]. split; [exact Hunpack | exact Hset].
  - apply (proj2 (set_timing_behaviour plain_device 1 12 2 1 (-5) fresh)).
    intros Hall.
    assert (Hbrp : 0 <= -5 < 2 ^ 32).
    { apply (proj1 (Forall_forall _ _) Hall). simpl. tauto. }
    lia.
Defined.

(** ** device_info *)

(** X18: every access to [device_info] issues a DEVICE_CONFIG control read
    of 12 bytes - nothing is cached - and returns the decoding of the answer
    or raises what the transfer raised; an answer of 12 bytes decodes to the
    channel count byte at offset 3 and the firmware and hardware versions as
    the little-endian 32-bit words at offsets 4 and 8, and an answer of any
    other length raises [struct.error]. *)
Theorem device_info_behaviour (dev : UsbDevice) (w : GsUsb.world) :
  GsUsb.device_info dev w
  = (rbind (on_ctrl_in dev (GsUsb.trace w) 0xC1 GsUsb._GS_USB_BREQ_DEVICE_CONFIG 0 0 12)
       DeviceInfo.unpack,
     {| GsUsb.self := GsUsb.self w;
        GsUsb.trace :=
          GsUsb.trace w
            ++ [CtrlTransferIn 0xC1 GsUsb._GS_USB_BREQ_DEVICE_CONFIG 0 0 12] |}) /\
  (forall bs, length bs = 12%nat ->
     exists info,
       DeviceInfo.unpack bs = Ok info /\
       DeviceInfo.icount info = byte.unsigned (nth 3 bs Byte.x00) /\
       DeviceInfo.fw_version info = le_combine (firstn 4 (skipn 4 bs)) /\
       DeviceInfo.hw_version info = le_combine (firstn 4 (skipn 8 bs))) /\
  (forall bs, length bs <> 12%nat -> DeviceInfo.unpack bs = Raise StructError).
Proof.
  split; [|split].
  - unfold GsUsb.device_info, GsUsb.bind, GsUsb.ctrl_transfer_in, GsUsb.transport,
      GsUsb.lift.
    now destruct (on_ctrl_in dev (GsUsb.trace w) 193
                    GsUsb._GS_USB_BREQ_DEVICE_CONFIG 0 0 12).
  - intros bs Hlen. unfold DeviceInfo.unpack, Struct.unpack.
    change (Struct.parse_format "<4B2I")
      with (Some [Struct.B; Struct.B; Struct.B; Struct.B; Struct.I; Struct.I]).
    cbv beta iota.
    change (Struct.calcsize [Struct.B; Struct.B; Struct.B; Struct.B; Struct.I; Struct.I])
      with 12%nat.
    rewrite Hlen, Nat.eqb_refl. cbn [rbind].
    eexists. split; [reflexivity|].
    cbn [DeviceInfo.icount DeviceInfo.fw_version DeviceInfo.hw_version
         Struct.unpack_items Struct.code_size nth].
    rewrite !skipn_skipn. cbn [Nat.add].
    split; [|split; reflexivity].
    do 4 (destruct bs as [|? bs]; [discriminate Hlen|]).
    cbn [skipn firstn nth]. apply le_combine_1.
  - intros bs Hlen. unfold DeviceInfo.unpack, Struct.unpack.
    change (Struct.parse_format "<4B2I")
      with (Some [Struct.B; Struct.B; Struct.B; Struct.B; Struct.I; Struct.I]).
    cbv beta iota.
    change (Struct.calcsize [Struct.B; Struct.B; Struct.B; Struct.B; Struct.I; Struct.I])
      with 12%nat.
    now destruct (Nat.eqb_spec (length bs) 12).
Qed.

(** X18 on a device that answers DEVICE_CONFIG, and on the 20 bytes of the
    echo frame. *)
Lemma device_info_behaviour_witness :
  GsUsb.device_info config_device fresh
  = (Ok (DeviceInfo.mk 0 0 0 0 2 1),
     {| GsUsb.self := GsUsb.self fresh;
        GsUsb.trace :=
          [CtrlTransferIn 0xC1 GsUsb._GS_USB_BREQ_DEVICE_CONFIG 0 0 12] |}) /\
  (exists info,
     DeviceInfo.unpack device_config_bytes = Ok info /\
     DeviceInfo.icount info = byte.unsigned (nth 3 device_config_bytes Byte.x00) /\
     DeviceInfo.fw_version info = le_combine (firstn 4 (skipn 4 device_config_bytes)) /\
     DeviceInfo.hw_version info = le_combine (firstn 4 (skipn 8 device_config_bytes))) /\
  DeviceInfo.unpack classic_echo_bytes = Raise StructError.
Proof.
  destruct (device_info_behaviour config_device fresh) as (Hinfo & Hdecode & Hrefuse).
  split; [|split].
  - rewrite Hinfo. vm_compute. reflexivity.
  - apply Hdecode. reflexivity.
  - apply Hrefuse. vm_compute. discriminate.
Defined.
